(* ===== verification/_CoqProject ===== *)
-Q . S2P
Prelude.v
JsString.v
Regex.v
FileInfo.v
Underscore.v
Normalize.v
Filter.v
FilterHeap.v
Express.v
ExpressApp.v
RateLimit.v
Respond.v
Query.v
Server.v
Examples.v
ServerExamples.v
