(* ===== verification/Prelude.v ===== *)
(** * A verification library for the openjdk-api release-metadata engine

    The repository (sxa555/openjdk-api) is a small Express server.  Its
    decision logic is [src/app/routes/v2.js]; [src/server.js] wires Express
    middleware (TLS, rate limiting, markdown pages) and mounts the route.
    Per request, v2.js runs a pipeline of four parts:

    - FilenameParser ([getNewStyleFileInfo], [getOldStyleFileInfo],
      [getAmberStyleFileInfo], tried in that order by
      [formBinaryAssetInfo]): three ECMAScript regular expressions applied
      with [String.prototype.match] to an asset file name;
    - ReleaseNormalizer ([formBinaryAssetInfo], [githubReleaseToAdoptRelease],
      [githubDataToAdoptApi]): GitHub release records to the API's schema,
      dropping checksum files, unparseable assets and empty releases;
    - QueryFilterChain ([filterReleaseBinaries],
      [filterReleaseOnBinaryProperty], [filterRelease]): the query filters,
      applied in the order of lines 102-106 of v2.js;
    - ResponseResolver ([sendData], [redirectToBinary], the exported
      handler): the Express response, including the promise's [.catch].

    The handler asks the cache module [./github_file_cache] (not in the
    repository) for the GitHub data, normalises it, filters it and answers
    through Express's [res].

    [src/server.js] builds the Express application around it.  It chooses
    an HTTPS listener on port 1234 or an HTTP one on 3000.  It then
    registers, in this order:
    - the rate limiter (express-rate-limit, 600 requests per client and
      window);
    - the static files of [markdown-layouts];
    - a middleware setting [Access-Control-Allow-Origin: *];
    - a redirect of [/README.v1.md];
    - three markdown pages;
    - the routes module, which mounts the v2 handler;
    - a final error handler answering 500.
    A request is counted by the limiter's store and then walks that stack
    through Express's router.

    ** Files, in dependency order (as listed in _CoqProject)

    - [Prelude]: this header, the scope [jdk_scope], the hint database
      [jdk] and the rewrite database [jdk_rw], and the generic lemmas on
      lists and options.  [cat_options] models "map, then drop the
      [null]s" (lines 235-240) and [last_opt] models underscore's [_.last].
    - [JsString]: the JavaScript string primitives the code calls, on
      ASCII strings: [toLowerCase], [endsWith], [replace] with a string
      pattern (first occurrence), and the relational [<] on strings
      ([js_lt], code-unit order, i.e. [String.compare] on ASCII).
    - [Regex]: the subset of ECMAScript patterns the code writes (literals,
      the classes [[0-9]], [[0-9a-zA-Z]] and [.], groups, greedy [?] and
      [*], [+] as [x x*], [{n}] as repetition, alternation).  [rmatch] is
      the backtracking, continuation-passing matcher of ECMA-262 §22.2.2;
      [exec] is the search loop of [String.prototype.match] over the start
      indices.  Its abstract specification is the regular language [lang]
      of a pattern and the language of each group.
    - [FileInfo]: the regular expressions of v2.js lines 131-132, 151-152,
      177-178 and 185 as terms, the three parsers (lines 130-200) and the
      ordered strategy of [formBinaryAssetInfo] (lines 203-215,
      [parseFileInfo]); printers of the three conventions for the round
      trips.
    - [Underscore]: [_.sortBy] as underscore implements it (decorate with
      the index, sort with the comparator on (key, index), read back),
      with an insertion sort standing for [Array.prototype.sort]: the
      comparator is a total order, so any correct sort gives the same
      array.
    - [Normalize]: the GitHub records and the API's records,
      [formBinaryAssetInfo], [githubReleaseToAdoptRelease] and
      [githubDataToAdoptApi] (lines 202-257).
    - [Filter]: [filterReleaseBinaries], [filterReleaseOnBinaryProperty],
      [filterRelease] (lines 4-46) and the chain of lines 102-106
      ([propertyFilters], [applyFilters]), as functions on values.
    - [FilterHeap]: the same filters as the code runs them.  The release
      objects live in a heap (a stdpp [gmap] from locations to records),
      and an array is a list of locations.  [release.binaries] is
      assigned in place (lines 7-9), and the [.filter] pass reads the
      assigned objects.
    - [Express]: Express's [res] as explicit state ([resState]: status,
      headers, what was sent, the log) and the state-and-exception monad
      [resM] in which [res.status], [res.header] ([setHeader]),
      [res.send], [res.redirect] and [console.log] run and a property read
      on [undefined] throws a [TypeError].  Framing: [res_equiv] identifies
      states with the same status and answer; [Proper] instances show that
      the operations respect it, and [KeepsHeaders] instances show which
      ones set no header.
    - [ExpressApp]: Express's application and router as the server uses
      them.  A layer is a middleware or an error handler, mounted by
      [app.use], by [app.get] or by a route.  [layer_call] holds the rules
      of [Layer.handle_request] and [Layer.handle_error] for skipping a
      layer.  [next] is the router's index-based walk, and
      [finalhandler] answers 404 or 500 at the end of the stack.
    - [RateLimit]: express-rate-limit 2.x with its MemoryStore, under the
      options of server.js lines 27-32.  The store is a stdpp [gmap] from
      the client address to its count.  [rateLimit] is the middleware
      (headers, then 429 or [next()]).  [limiterRun] runs the store over a
      sequence of requests and interval resets.
    - [Respond]: [sendData], [redirectToBinary], the [.then] and [.catch]
      callbacks and the exported handler [v2Handler] (lines 48-128), over
      the cache interface [ReleaseCache] (a type class: the handler's
      theorems hold for every instance).
    - [Query]: [req.query] as Express's query parser gives it: a string,
      or an array for a repeated key.  [v2HandlerQ] is the handler on
      those values.
    - [Server]: server.js: the listener ([listenerFor]), each layer of
      lines 27-65 ([rateLimit], [serveStatic], [allowOrigin],
      [readmeRedirect], [markdownPage], [v2Route], [errorHandler]) and
      [appStack], their stack in registration order.  [serve] counts a
      request in the store and walks the stack from a fresh [res].
      [serverRun] runs the server over a sequence of events.  Three
      collaborators whose code is not in the repository are parameters:
      what serve-static finds, what markdown-serve finds, and which
      requests the routes module gives to the v2 handler.
    - [Examples]: fixtures and evaluations: the specification's end-to-end
      example, a request left without an answer, and one instance of each
      theorem with hypotheses about the handler.
    - [ServerExamples]: a concrete server (a static file, an unreadable
      file, a markdown page, the v2 route) and one instance of each server
      and limiter theorem with hypotheses.

    ** What the theorems show

    - The handler (C1-C6): a [binary] request is answered as the
      specification's resolver ([resolveBinary]: 404, 400 with the
      releases, 400 with the binaries, or a redirect); an [info] request
      with 404, the list or the single 'latest' release; a cache failure
      with 500 or its own status; a missing route parameter with 404; and
      exactly two kinds of request get no answer at all (C3).  The query
      parameter [type] filters on the binary's kind, so a [type] that is
      neither [jdk] nor [jre] (as the specification's [type=info]) is
      answered 404 whatever the data (C6).
    - The parsers (C7-C11): a round trip for each naming convention; every
      successful parse has a version of digits, a kind [jdk] or [jre],
      alphanumeric architecture, OS and implementation, a timestamp of one
      of the two shapes and an extension [tar?gz] (any character but a
      line terminator in the middle, as the unescaped [.] of the pattern
      allows) or [zip]; and a
      name is unparseable exactly when no part of it is a word of the
      conventions' languages (no partial record).  Underneath, [exec] is
      sound and complete for the regular language of the pattern (lemmas
      [exec_reads] and [exec_None_lang] of [Regex]).
    - Normalisation (C12-C15): every output release has a binary, checksum
      files never become binaries, binaries are built from one parse with
      lower-case fields, empty releases are dropped.
    - The order of the strategies (C16): every name of the current
      convention has four dashes.  A name with fewer dashes, as legacy and
      early-access names are, goes to the legacy parser and then to the
      early-access one.  The proof uses [min_count], a lower bound on the
      occurrences of a character in every word of a pattern's language.
    - Filtering (C17-C20):
      - the four property filters applied one after the other equal one
        pass with the conjunction (a refinement);
      - a present parameter keeps, of each input release, exactly the
        binaries whose property equals it up to case, and drops the
        releases left empty; membership is case-insensitive;
      - 'latest' selects the last release of greatest timestamp.  Its
        proof goes through [_.sortBy], modelled as underscore writes it
        (decorate, sort by key then position, undecorate); the lemma
        [sortBy_any_sort] shows that any sort by that comparator gives
        the same array.
      The filters also commute and are idempotent (lemmas of [Filter]).
    - The query as Express parses it (C21): a repeated property parameter
      is an array, and it leaves the request without an answer.  On
      string parameters the handler is [v2Handler] (lemma
      [handlerQ_strings]).
    - Aliasing (C23): the four property filters, run in place on shared
      release objects, read back as the functional [propertyFilters].
      This holds even when the array refers to one object several
      times.
    - The server (C22, C24-C26, C29-C31):
      - a request the routes give to the v2 handler gets exactly the
        handler's answer on a fresh response (C24, composition through
        the framing instances).  The route hands [req.query] as Express
        parses it to [v2HandlerQ];
      - a repeated property parameter on the v2 route: the server walks
        the request to its end without answering it, and the only trace
        is the [TypeError] in the log (C22);
      - the CORS header is present exactly when the request was under the
        limit and past the static files (C25);
      - a client over 600 requests gets 429 with [X-RateLimit-Remaining:
        0] (C26);
      - static files, their errors (which reach the 500 handler), the
        markdown pages with their fallthrough to 404, and the README
        redirect each get the answer the code gives (C29-C31).
    - The limiter (C27-C28): within a window exactly the first 600
      requests of a client pass; after a reset a client is served again
      whatever it sent before.

    ** Bounds and termination

    Every definition of v2.js is structural: [rmatch] recurses on the
    pattern, the star loop [star] on the subject string, [exec] on the
    subject's suffixes, the sorts on the list.  The one use of fuel is
    the Express router's walk [next], which advances an index through the
    stack.  [handle] gives it one step per layer plus one for
    [finalhandler].  [next_total] shows that any fuel larger than the
    number of layers left ends the walk, so [handle] never runs out
    (lemma [handle_total]),
    and [next_more_fuel] shows that more fuel changes nothing.  The
    limiter's counts are unbounded integers ([Z]), as JavaScript numbers
    are below 2^53.  ECMAScript's
    guard against an empty iteration of a quantified group matters only
    for groups that can read the empty word; the patterns of v2.js quantify
    single characters and one group ([(-jre)?], [(-[0-9a-zA-Z]+)?]) that
    cannot, so [star] is specialised to a character class and [ROpt] keeps
    the guard.  Numbers are [N] (asset size) and [Z] (HTTP status), which
    the code only copies.

    ** What is not modelled

    - In [src/server.js]: reading the certificate files and binding the
      port (I/O).  The model keeps the choice of listener and its log
      line.
    - Three libraries of the server are parameters: serve-static (a
      lookup giving a file, nothing, or an error), markdown-serve (a
      page or an error) and pug rendering (the view and the page are kept
      as the body).  The routes module [./app/routes] is not in the
      repository; it is modelled as the v2 route's matcher.
    - Time: the reset interval of the limiter is an event of the trace,
      and the handler's promise settles within the request's walk.  The
      order of events across concurrent requests is the order of the
      trace.  The store is updated synchronously ([MemoryStore.incr]), so
      the interleaving of two requests' walks does not change their
      counts.
    - The cache module: only the interface the specification states.
    - The text of [JSON.stringify]: a response body keeps the value that is
      serialised.
    - Non-ASCII strings: strings are Stdlib [string] (lists of [ascii]);
      JavaScript's [toLowerCase] and [<] agree with ours on ASCII.
    - Mutation is modelled only where the code mutates: [FilterHeap] runs
      the filters on a heap, and C23 shows that the functional model of
      [Filter] reads the same.  The objects are the ones
      [githubDataToAdoptApi] built for the request.  The objects dropped
      from the array were still assigned, but nothing reads them. *)

From Stdlib Require Import String Ascii List Bool Arith Lia.
Import ListNotations.

Declare Scope jdk_scope.
Delimit Scope jdk_scope with jdk.

Create HintDb jdk discriminated.
Create Rewrite HintDb jdk_rw.

(** ** Lists and options shared by the components *)

(** [_.chain(xs).map(f).filter(x => x !== null)]: keep the results that
    are not [null]. *)
Fixpoint cat_options {A : Type} (l : list (option A)) : list A :=
  match l with
  | [] => []
  | Some x :: l' => x :: cat_options l'
  | None :: l' => cat_options l'
  end.

(** [_.last(xs)]: the last element, [undefined] on an empty array. *)
Fixpoint last_opt {A : Type} (l : list A) : option A :=
  match l with
  | [] => None
  | [x] => Some x
  | _ :: l' => last_opt l'
  end.

Lemma cat_options_In {A : Type} (l : list (option A)) (x : A) :
  In x (cat_options l) <-> In (Some x) l.
Proof.
  induction l as [|[y|] l IH]; simpl; [tauto| |]; rewrite IH;
    split; intros H; intuition congruence.
Qed.

Lemma last_opt_None {A : Type} (l : list A) : last_opt l = None <-> l = [].
Proof.
  induction l as [|x [|y l] IH]; simpl; split; intros H; try congruence.
  apply IH in H. discriminate.
Qed.

Lemma last_opt_map {A B : Type} (f : A -> B) (l : list A) :
  last_opt (map f l) = option_map f (last_opt l).
Proof. induction l as [|x [|y l] IH]; simpl in *; auto. Qed.

Lemma filter_filter {A : Type} (f g : A -> bool) (l : list A) :
  filter f (filter g l) = filter (fun x => g x && f x) l.
Proof.
  induction l as [|x l IH]; simpl; auto.
  destruct (g x); simpl; [destruct (f x); simpl|]; congruence.
Qed.

Lemma filter_true_id {A : Type} (f : A -> bool) (l : list A) :
  Forall (fun x => f x = true) l -> filter f l = l.
Proof. induction 1; simpl; auto. rewrite H. congruence. Qed.

Lemma Forall_filter_intro {A : Type} (f : A -> bool) (P : A -> Prop) (l : list A) :
  (forall x, f x = true -> P x) -> Forall P (filter f l).
Proof.
  intros H. apply Forall_forall. intros x Hx.
  apply filter_In in Hx. apply H, Hx.
Qed.

Lemma Forall_filter_weaken {A : Type} (f : A -> bool) (P : A -> Prop) (l : list A) :
  Forall P l -> Forall P (filter f l).
Proof.
  rewrite !Forall_forall. intros H x Hx. apply filter_In in Hx. apply H, Hx.
Qed.

#[export] Hint Resolve Forall_filter_weaken Forall_filter_intro : jdk.
#[export] Hint Rewrite @filter_filter : jdk_rw.
