(* ===== verification/JsString.v ===== *)
(** * JavaScript string primitives on ASCII strings

    The string methods v2.js calls: [toLowerCase] (lines 31, 41, 44,
    218-221), [endsWith] (line 233), [replace] with a string pattern
    (line 162), string concatenation and the relational [<]/[>] that
    underscore's [sortBy] applies to the [published_at] keys.  Strings are
    the Standard Library's [string]; on ASCII text JavaScript's UTF-16
    code-unit order and case mapping coincide with the ones below. *)

From Stdlib Require Import String Ascii List Bool Arith NArith ZArith Lia DecimalString DecimalZ DecimalPos.
From S2P Require Import Prelude.
Import ListNotations.
Local Open Scope string_scope.
Local Open Scope jdk_scope.

(** ** Definitions *)

(** [String.prototype.toLowerCase] on one ASCII character. *)
Definition ascii_lower (c : ascii) : ascii :=
  let n := nat_of_ascii c in
  if (65 <=? n)%nat && (n <=? 90)%nat then ascii_of_nat (n + 32) else c.

Fixpoint toLowerCase (s : string) : string :=
  match s with
  | EmptyString => EmptyString
  | String c s' => String (ascii_lower c) (toLowerCase s')
  end.

(** [s.endsWith(x)]: false when [x] is longer than [s], otherwise the
    comparison of the last [length x] characters. *)
Definition endsWith (s x : string) : bool :=
  let n := String.length s in
  let k := String.length x in
  if Nat.ltb n k then false else String.eqb (substring (n - k) k s) x.

(** [s.replace(pat, rep)] with a string pattern: the first occurrence
    only, the string unchanged when there is none. *)
Definition replace (s pat rep : string) : string :=
  match index 0 pat s with
  | Some i => substring 0 i s ++ rep ++ substring (i + String.length pat)
                (String.length s - (i + String.length pat)) s
  | None => s
  end.

(** The relational operators of JavaScript on two strings. *)
Definition js_lt (a b : string) : bool :=
  match String.compare a b with Lt => true | _ => false end.
Definition js_gt (a b : string) : bool := js_lt b a.

Notation "a <js b" := (js_lt a b) (at level 70) : jdk_scope.
Notation "a ==js b" := (String.eqb a b) (at level 70) : jdk_scope.

(** [String(n)] for an integral number, as [res.setHeader] converts a
    number it is given: decimal digits with a leading [-] when negative. *)
Definition z_to_string (z : Z) : string := NilZero.string_of_int (Z.to_int z).

(** Every character of [w] satisfies [f]. *)
Fixpoint str_forall (f : ascii -> bool) (w : string) : bool :=
  match w with
  | EmptyString => true
  | String c w' => f c && str_forall f w'
  end.

(** ** Lemmas on appends, lengths and substrings *)

Lemma str_app_nil_r (s : string) : s ++ "" = s.
Proof. induction s; simpl; congruence. Qed.

Lemma str_app_assoc (a b c : string) : (a ++ b) ++ c = a ++ (b ++ c).
Proof. induction a; simpl; congruence. Qed.

Lemma str_length_app (a b : string) :
  String.length (a ++ b) = String.length a + String.length b.
Proof. induction a; simpl; congruence. Qed.

Lemma substring_app_prefix (w s : string) :
  substring 0 (String.length w) (w ++ s) = w.
Proof. induction w; [destruct s; reflexivity | simpl; congruence]. Qed.

Lemma substring_app_suffix (w s : string) :
  substring (String.length w) (String.length s) (w ++ s) = s.
Proof.
  induction w; simpl; auto.
  induction s; simpl; congruence.
Qed.

Lemma substring_full (s : string) : substring 0 (String.length s) s = s.
Proof. induction s; simpl; congruence. Qed.

#[export] Hint Rewrite str_app_nil_r str_app_assoc str_length_app
  substring_app_prefix substring_app_suffix : jdk_rw.

(** ** Case mapping *)

Lemma ascii_lower_idem (c : ascii) : ascii_lower (ascii_lower c) = ascii_lower c.
Proof. destruct c as [[] [] [] [] [] [] [] []]; reflexivity. Qed.

Lemma toLowerCase_idem (s : string) : toLowerCase (toLowerCase s) = toLowerCase s.
Proof. induction s; simpl; [|rewrite ascii_lower_idem]; congruence. Qed.

Lemma toLowerCase_app (a b : string) :
  toLowerCase (a ++ b) = toLowerCase a ++ toLowerCase b.
Proof. induction a; simpl; congruence. Qed.

#[export] Hint Rewrite toLowerCase_idem toLowerCase_app : jdk_rw.

(** ** endsWith *)

Lemma endsWith_app (p x : string) : endsWith (p ++ x) x = true.
Proof.
  unfold endsWith. rewrite str_length_app.
  destruct (Nat.ltb_spec (String.length p + String.length x) (String.length x)); [lia|].
  replace (String.length p + String.length x - String.length x) with (String.length p) by lia.
  rewrite substring_app_suffix. apply String.eqb_refl.
Qed.

Lemma substring_split (i : nat) (s : string) :
  i <= String.length s ->
  substring 0 i s ++ substring i (String.length s - i) s = s.
Proof.
  revert i. induction s as [|c s IH]; intros [|i] H; simpl in *.
  - reflexivity.
  - lia.
  - f_equal. apply substring_full.
  - f_equal. apply IH. lia.
Qed.

(** [String.prototype.endsWith] with one argument holds exactly
    when the string is some prefix followed by the searched string. *)
Lemma endsWith_spec (s x : string) :
  endsWith s x = true <-> exists p, s = p ++ x.
Proof.
  split.
  - unfold endsWith. destruct (Nat.ltb_spec (String.length s) (String.length x)) as [H|H];
      [discriminate|]. intros E. apply String.eqb_eq in E.
    assert (Hs := substring_split (String.length s - String.length x) s ltac:(lia)).
    replace (String.length s - (String.length s - String.length x))
      with (String.length x) in Hs by lia.
    rewrite E in Hs. eexists. symmetry. exact Hs.
  - intros [p ->]. apply endsWith_app.
Qed.

(** ** Character predicates *)

Lemma str_forall_app (f : ascii -> bool) (a b : string) :
  str_forall f (a ++ b) = str_forall f a && str_forall f b.
Proof. induction a; simpl; [|rewrite IHa, andb_assoc]; reflexivity. Qed.

#[export] Hint Rewrite str_forall_app : jdk_rw.

(** ** replace *)

(** Line 162: [matched[2].replace('-', '')] on a word that starts with the
    pattern character drops exactly that character. *)
Lemma replace_head (c : ascii) (w : string) :
  replace (String c w) (String c "") "" = w.
Proof.
  assert (Hp : prefix (String c "") (String c w) = true)
    by (apply prefix_correct; destruct w; reflexivity).
  assert (H : index 0 (String c "") (String c w) = Some 0)
    by (change (index 0 (String c "") (String c w)) with
          (if prefix (String c "") (String c w) then Some 0 else
             match index 0 (String c "") w with Some n => Some (S n) | None => None end);
        rewrite Hp; reflexivity).
  unfold replace. rewrite H. simpl. rewrite Nat.sub_0_r. apply substring_full.
Qed.

(** ** The order of [<] on strings *)

Lemma ascii_compare_lt_trans (x y z : ascii) :
  Ascii.compare x y = Lt -> Ascii.compare y z = Lt -> Ascii.compare x z = Lt.
Proof.
  unfold Ascii.compare. rewrite !N.compare_lt_iff. apply N.lt_trans.
Qed.

Lemma ascii_compare_refl (x : ascii) : Ascii.compare x x = Eq.
Proof. unfold Ascii.compare. apply N.compare_refl. Qed.

Lemma string_compare_lt_trans (a b c : string) :
  String.compare a b = Lt -> String.compare b c = Lt -> String.compare a c = Lt.
Proof.
  revert b c. induction a as [|x a IH]; intros [|y b] [|z c]; simpl; try congruence.
  intros H1 H2.
  destruct (Ascii.compare x y) eqn:Exy; try discriminate;
    destruct (Ascii.compare y z) eqn:Eyz; try discriminate.
  - apply Ascii.compare_eq_iff in Exy, Eyz. subst. rewrite ascii_compare_refl. eauto.
  - apply Ascii.compare_eq_iff in Exy. subst. rewrite Eyz. reflexivity.
  - apply Ascii.compare_eq_iff in Eyz. subst. rewrite Exy. reflexivity.
  - rewrite (ascii_compare_lt_trans _ _ _ Exy Eyz). reflexivity.
Qed.

Lemma js_lt_trans (a b c : string) : js_lt a b = true -> js_lt b c = true -> js_lt a c = true.
Proof.
  unfold js_lt. destruct (String.compare a b) eqn:E1; try discriminate.
  destruct (String.compare b c) eqn:E2; try discriminate.
  rewrite (string_compare_lt_trans _ _ _ E1 E2). reflexivity.
Qed.

Lemma string_compare_refl (a : string) : String.compare a a = Eq.
Proof.
  pose proof (String.compare_antisym a a) as H.
  destruct (String.compare a a); simpl in H; congruence.
Qed.

Lemma js_lt_irrefl (a : string) : js_lt a a = false.
Proof.
  unfold js_lt. pose proof (String.compare_antisym a a) as H.
  destruct (String.compare a a); simpl in H; congruence.
Qed.

Lemma js_lt_asym (a b : string) : js_lt a b = true -> js_lt b a = false.
Proof.
  intros H. destruct (js_lt b a) eqn:E; [|reflexivity].
  rewrite <- (js_lt_irrefl a). symmetry. apply (js_lt_trans a b a H E).
Qed.

Lemma js_lt_total (a b : string) : a <> b -> js_lt a b = false -> js_lt b a = true.
Proof.
  unfold js_lt. intros Hne. rewrite (String.compare_antisym b a).
  destruct (String.compare a b) eqn:E; simpl; try congruence.
  apply String.compare_eq_iff in E. contradiction.
Qed.

Lemma js_le_lt_trans (a b c : string) :
  js_lt b a = false -> js_lt b c = true -> js_lt a c = true.
Proof.
  intros H1 H2. destruct (String.eqb_spec a b) as [->|Hne]; [exact H2|].
  apply (js_lt_trans a b c); [apply js_lt_total; auto|exact H2].
Qed.

(** ** Printing numbers *)

Lemma to_int_nonnil (z : Z) :
  Z.to_int z <> Decimal.Pos Decimal.Nil /\ Z.to_int z <> Decimal.Neg Decimal.Nil.
Proof.
  destruct z as [|p|p]; simpl; split; try discriminate; intros H; injection H as H;
    pose proof (DecimalPos.Unsigned.of_to p) as E; rewrite H in E; discriminate.
Qed.

(** A number printed by [z_to_string] reads back as the same number. *)
Lemma z_to_string_roundtrip (z : Z) :
  option_map Z.of_int (NilZero.int_of_string (z_to_string z)) = Some z.
Proof.
  unfold z_to_string. destruct (to_int_nonnil z).
  rewrite NilZero.isi by assumption. simpl. rewrite DecimalZ.of_to. reflexivity.
Qed.

