(* ===== verification/Regex.v ===== *)
(** * ECMAScript regular expressions, the subset v2.js writes

    v2.js builds its patterns with [new RegExp(string)] and applies them
    with [name.match(re)], i.e. [RegExp.prototype.exec] without the [g]
    flag: the matcher is tried at index 0, 1, ..., and the first index where
    it succeeds gives the capture array.  The matcher follows ECMA-262
    §22.2.2: a pattern denotes a function from a state (the rest of the
    input and the captures) and a continuation to a result, alternatives
    and greedy quantifiers try their options in order and backtrack by
    returning failure to the caller.

    Positions are represented by the suffix of the input still to be read;
    a capture is stored as the text between the two suffixes.  The regular
    language [lang] of a pattern is its abstract specification:
    [rmatch_sound] shows that every success of the backtracking matcher
    consumed a word of that language and bound each group to a word of the
    group's language, and [rmatch_complete] that the matcher does not miss
    a word of the language (the patterns have no back-references, so the
    success of a continuation never depends on the captures); hence
    [exec_None_lang]: the search fails exactly when no factor of the
    subject is in the language. *)

From Stdlib Require Import String Ascii List Bool Arith Lia.
From S2P Require Import Prelude JsString.
Import ListNotations.
Local Open Scope string_scope.
Local Open Scope jdk_scope.

(** ** Syntax *)

(** The character classes of the code: [[0-9]], [[0-9a-zA-Z]] and [.]
    (every character but the line terminators; on ASCII, LF and CR). *)
Inductive cclass := CDigit | CAlnum | CDot.

Definition is_digit (c : ascii) : bool :=
  let n := nat_of_ascii c in (48 <=? n)%nat && (n <=? 57)%nat.

Definition class_matches (q : cclass) (c : ascii) : bool :=
  let n := nat_of_ascii c in
  match q with
  | CDigit => is_digit c
  | CAlnum => is_digit c || ((65 <=? n)%nat && (n <=? 90)%nat)
                         || ((97 <=? n)%nat && (n <=? 122)%nat)
  | CDot => negb ((n =? 10)%nat || (n =? 13)%nat)
  end.

Inductive regex :=
  | REps                          (* the empty alternative *)
  | RLit (c : ascii)              (* a pattern character *)
  | RClass (q : cclass)           (* a character class or [.] *)
  | RSeq (r1 r2 : regex)          (* concatenation of terms *)
  | RAlt (r1 r2 : regex)          (* [r1|r2] *)
  | RGroup (n : nat) (r : regex)  (* the n-th capturing group [( r )] *)
  | ROpt (r : regex)              (* greedy [r?] *)
  | RStar (q : cclass).           (* greedy [q*] on a class atom *)

(** Concatenation of a list of terms. *)
Fixpoint rseqs (rs : list regex) : regex :=
  match rs with
  | [] => REps
  | r :: rs' => RSeq r (rseqs rs')
  end.

(** A literal word of pattern characters. *)
Fixpoint rstr (s : string) : regex :=
  match s with
  | EmptyString => REps
  | String c s' => RSeq (RLit c) (rstr s')
  end.

(** [q+] is [q q*]; [r{n}] with a single-character [r] is [n] copies. *)
Definition rplus (q : cclass) : regex := RSeq (RClass q) (RStar q).
Definition rrep (n : nat) (r : regex) : list regex := repeat r n.

(** The group numbers of a pattern, left to right. *)
Fixpoint groups (r : regex) : list nat :=
  match r with
  | REps | RLit _ | RClass _ | RStar _ => []
  | RSeq r1 r2 | RAlt r1 r2 => (groups r1 ++ groups r2)%list
  | RGroup n r1 => n :: groups r1
  | ROpt r1 => groups r1
  end.

(** ** Captures and the matcher *)

Definition captures := list (nat * string).

(** [matched[n]]: the most recent binding of group [n], [undefined]
    ([None]) when the group did not participate. *)
Fixpoint cap_get (n : nat) (cs : captures) : option string :=
  match cs with
  | [] => None
  | (m, v) :: cs' => if (m =? n)%nat then Some v else cap_get n cs'
  end.

(** RepeatMatcher resets the captures of the quantified atom before each
    iteration. *)
Definition cap_clear (ns : list nat) (cs : captures) : captures :=
  filter (fun p => negb (existsb (Nat.eqb (fst p)) ns)) cs.

(** The text between two positions, given as the suffixes at those
    positions. *)
Definition consumed (s s1 : string) : string :=
  substring 0 (String.length s - String.length s1) s.

Definition cont := string -> captures -> option captures.

(** [q*], greedy: read as many characters of the class as possible, then
    give them back one at a time until the continuation succeeds. *)
Fixpoint star (q : cclass) (s : string) (cs : captures) (k : cont) : option captures :=
  match s with
  | String c s' =>
      if class_matches q c then
        match star q s' cs k with
        | Some x => Some x
        | None => k s cs
        end
      else k s cs
  | EmptyString => k s cs
  end.

Fixpoint rmatch (r : regex) (s : string) (cs : captures) (k : cont) : option captures :=
  match r with
  | REps => k s cs
  | RLit c =>
      match s with
      | String c' s' => if Ascii.eqb c c' then k s' cs else None
      | EmptyString => None
      end
  | RClass q =>
      match s with
      | String c' s' => if class_matches q c' then k s' cs else None
      | EmptyString => None
      end
  | RSeq r1 r2 => rmatch r1 s cs (fun s1 cs1 => rmatch r2 s1 cs1 k)
  | RAlt r1 r2 =>
      match rmatch r1 s cs k with
      | Some x => Some x
      | None => rmatch r2 s cs k
      end
  | RGroup n r1 => rmatch r1 s cs (fun s1 cs1 => k s1 ((n, consumed s s1) :: cs1))
  | ROpt r1 =>
      (* one iteration (failing if it matched the empty word), else none *)
      match rmatch r1 s (cap_clear (groups r1) cs)
              (fun s1 cs1 => if (String.length s1 =? String.length s)%nat
                             then None else k s1 cs1) with
      | Some x => Some x
      | None => k s cs
      end
  | RStar q => star q s cs k
  end.

(** The matcher at one index, with the continuation that accepts. *)
Definition run (r : regex) (s : string) : option captures :=
  rmatch r s [] (fun _ cs => Some cs).

(** [RegExp.prototype.exec] (non-global): indices 0 to [length s]. *)
Fixpoint exec (r : regex) (s : string) : option captures :=
  match run r s with
  | Some cs => Some cs
  | None =>
      match s with
      | EmptyString => None
      | String _ s' => exec r s'
      end
  end.

(** ** Words read by single-character patterns *)

(** [accepts1 r c]: [r] is one pattern character or class and reads [c]. *)
Definition accepts1 (r : regex) (c : ascii) : bool :=
  match r with
  | RLit c' => Ascii.eqb c' c
  | RClass q => class_matches q c
  | _ => false
  end.

(** [fits rs w]: [w] has one character per term of [rs], each read by
    its term. *)
Fixpoint fits (rs : list regex) (w : string) : bool :=
  match rs, w with
  | [], EmptyString => true
  | r :: rs', String c w' => accepts1 r c && fits rs' w'
  | _, _ => false
  end.

(** [all_class q w]: every character of [w] is in the class. *)
Fixpoint all_class (q : cclass) (w : string) : bool :=
  match w with
  | EmptyString => true
  | String c w' => class_matches q c && all_class q w'
  end.

(** [w] does not begin with a character of the class. *)
Definition stops (q : cclass) (w : string) : bool :=
  match w with
  | EmptyString => true
  | String c _ => negb (class_matches q c)
  end.

(** [t] is a proper suffix of [s]. *)
Definition proper_suffix (t s : string) : Prop :=
  exists c p, s = String c p ++ t.

(** ** Abstract specification: the regular language of a pattern *)

Inductive lang : regex -> string -> Prop :=
  | lang_eps : lang REps ""
  | lang_lit (c : ascii) : lang (RLit c) (String c "")
  | lang_class (q : cclass) (c : ascii) :
      class_matches q c = true -> lang (RClass q) (String c "")
  | lang_seq (r1 r2 : regex) (w1 w2 : string) :
      lang r1 w1 -> lang r2 w2 -> lang (RSeq r1 r2) (w1 ++ w2)
  | lang_alt_l (r1 r2 : regex) (w : string) : lang r1 w -> lang (RAlt r1 r2) w
  | lang_alt_r (r1 r2 : regex) (w : string) : lang r2 w -> lang (RAlt r1 r2) w
  | lang_group (n : nat) (r : regex) (w : string) : lang r w -> lang (RGroup n r) w
  | lang_opt_none (r : regex) : lang (ROpt r) ""
  | lang_opt_some (r : regex) (w : string) : lang r w -> lang (ROpt r) w
  | lang_star (q : cclass) (w : string) : all_class q w = true -> lang (RStar q) w.

(** The groups with their sub-patterns. *)
Fixpoint group_defs (r : regex) : list (nat * regex) :=
  match r with
  | REps | RLit _ | RClass _ | RStar _ => []
  | RSeq r1 r2 | RAlt r1 r2 => (group_defs r1 ++ group_defs r2)%list
  | RGroup n r1 => (n, r1) :: group_defs r1
  | ROpt r1 => group_defs r1
  end.

Definition mem (n : nat) (l : list nat) : bool := existsb (Nat.eqb n) l.

(** The groups every match binds: not under [?] or [|], and not reset by
    a later [?]. *)
Fixpoint mandatory (r : regex) : list nat :=
  match r with
  | RSeq r1 r2 => (filter (fun n => negb (mem n (groups r2))) (mandatory r1)
                   ++ mandatory r2)%list
  | RGroup n r1 => n :: mandatory r1
  | _ => []
  end.

(** [caps_ok P cs]: the text of every bound group [n] satisfies [P n]. *)
Definition caps_ok (P : nat -> string -> Prop) (cs : captures) : Prop :=
  forall n v, cap_get n cs = Some v -> P n v.

(** Every word of a group's language satisfies [P] for that group. *)
Definition groups_sat (P : nat -> string -> Prop) (r : regex) : Prop :=
  forall n r1, In (n, r1) (group_defs r) -> forall w, lang r1 w -> P n w.

(** What one successful match of [r] leaves to its continuation. *)
Definition reads (P : nat -> string -> Prop) (r : regex) (s : string) (cs : captures)
    (k : cont) (x : captures) : Prop :=
  exists w s' cs', s = w ++ s' /\ lang r w /\ k s' cs' = Some x /\ caps_ok P cs' /\
    (forall n, mem n (groups r) = false -> cap_get n cs' = cap_get n cs) /\
    (forall n, In n (mandatory r) -> cap_get n cs' <> None).

(** [r] reads exactly one character. *)
Definition is_single (r : regex) : bool :=
  match r with RLit _ | RClass _ => true | _ => false end.

(** The language of a group, read from the whole pattern. *)
Definition group_lang (R : regex) (n : nat) (v : string) : Prop :=
  exists r, In (n, r) (group_defs R) /\ lang r v.

(** [R] matches somewhere in [s]: some factor of [s] is a word of the
    language of [R]. *)
Definition matches_somewhere (R : regex) (s : string) : Prop :=
  exists pre w post, s = (pre ++ w ++ post)%string /\ lang R w.

(** A continuation whose failure does not depend on the captures: the
    matcher never reads captures (the patterns have no back-references),
    so every continuation it builds from such a one is again such. *)
Definition cont_ok (k : cont) : Prop :=
  forall s cs cs', k s cs = None -> k s cs' = None.

(** How many times [c] occurs in [w]. *)
Fixpoint count_char (c : ascii) (w : string) : nat :=
  match w with
  | EmptyString => 0
  | String c' w' => (if Ascii.eqb c c' then 1 else 0) + count_char c w'
  end.

(** A lower bound on the occurrences of [c] in every word of a pattern's
    language: the literal occurrences of [c] that no path through the
    pattern skips. *)
Fixpoint min_count (c : ascii) (r : regex) : nat :=
  match r with
  | REps | RClass _ | RStar _ | ROpt _ => 0
  | RLit c' => if Ascii.eqb c c' then 1 else 0
  | RSeq r1 r2 => min_count c r1 + min_count c r2
  | RAlt r1 r2 => Nat.min (min_count c r1) (min_count c r2)
  | RGroup _ r1 => min_count c r1
  end.

(** ** Forward lemmas: how the matcher reads a word it accepts *)

Lemma consumed_app (w s : string) : consumed (w ++ s) s = w.
Proof.
  unfold consumed. rewrite str_length_app.
  replace (String.length w + String.length s - String.length s) with (String.length w) by lia.
  apply substring_app_prefix.
Qed.

Lemma cap_clear_nil (cs : captures) : cap_clear [] cs = cs.
Proof. unfold cap_clear. apply filter_true_id, Forall_forall. reflexivity. Qed.

#[export] Hint Rewrite consumed_app cap_clear_nil : jdk_rw.

Lemma rmatch_fixed (rs : list regex) (w s : string) (cs : captures) (k : cont) :
  fits rs w = true -> rmatch (rseqs rs) (w ++ s) cs k = k s cs.
Proof.
  revert w k. induction rs as [|r rs IH]; intros [|c w] k H; simpl in H; try discriminate.
  - reflexivity.
  - apply andb_prop in H as [Hr Hw]. simpl.
    destruct r; simpl in Hr |- *; try discriminate; rewrite Hr; apply IH; exact Hw.
Qed.

Lemma rmatch_rstr (w s : string) (cs : captures) (k : cont) :
  rmatch (rstr w) (w ++ s) cs k = k s cs.
Proof.
  revert k. induction w as [|c w IH]; intros k; simpl; [reflexivity|].
  rewrite Ascii.eqb_refl. apply IH.
Qed.

Lemma star_stop (q : cclass) (t : string) (cs : captures) (k : cont) :
  stops q t = true -> star q t cs k = k t cs.
Proof.
  destruct t as [|c t]; simpl; [reflexivity|].
  intros H. apply negb_true_iff in H. rewrite H. reflexivity.
Qed.

(** Giving characters back: when the continuation fails on every proper
    suffix, the star ends where the continuation succeeds. *)
Lemma star_suffix (q : cclass) (s : string) (cs : captures) (k : cont) :
  (forall t, proper_suffix t s -> k t cs = None) -> star q s cs k = k s cs.
Proof.
  induction s as [|c s IH]; intros Hk; simpl; [reflexivity|].
  destruct (class_matches q c); [|reflexivity].
  rewrite IH.
  - rewrite (Hk s) by (exists c, ""%string; reflexivity). reflexivity.
  - intros t [c' [p Ht]]. apply Hk. exists c, (String c' p). rewrite Ht. reflexivity.
Qed.

(** Reading a longer run of the class first: a success on the shorter
    input is a success on the longer one. *)
Lemma star_prefix (q : cclass) (p t : string) (cs : captures) (k : cont) (x : captures) :
  all_class q p = true -> star q t cs k = Some x -> star q (p ++ t) cs k = Some x.
Proof.
  induction p as [|c p IH]; simpl; intros Hp Ht; [exact Ht|].
  apply andb_prop in Hp as [Hc Hp]. rewrite Hc, (IH Hp Ht). reflexivity.
Qed.

Lemma rmatch_plus (q : cclass) (c : ascii) (w t : string) (cs : captures) (k : cont)
      (x : captures) :
  all_class q (String c w) = true -> stops q t = true -> k t cs = Some x ->
  rmatch (rplus q) (String c w ++ t) cs k = Some x.
Proof.
  intros Hw Ht Hk. simpl in Hw |- *. apply andb_prop in Hw as [Hc Hw]. rewrite Hc.
  apply star_prefix; [exact Hw|]. rewrite star_stop; assumption.
Qed.

(** [.*] followed by a pattern that only the given suffix [t] starts. *)
Lemma rmatch_star_last (q : cclass) (p t : string) (cs : captures) (k : cont) (x : captures) :
  all_class q p = true -> k t cs = Some x ->
  (forall u, proper_suffix u t -> k u cs = None) ->
  rmatch (RStar q) (p ++ t) cs k = Some x.
Proof.
  intros Hp Hk Hu. simpl. apply star_prefix; [exact Hp|].
  rewrite star_suffix; assumption.
Qed.

Lemma rmatch_opt_some (r : regex) (s : string) (cs : captures) (k : cont) (x : captures) :
  rmatch r s (cap_clear (groups r) cs)
    (fun s1 cs1 => if (String.length s1 =? String.length s)%nat then None else k s1 cs1)
  = Some x ->
  rmatch (ROpt r) s cs k = Some x.
Proof. simpl. intros ->. reflexivity. Qed.

Lemma rmatch_opt_none (r : regex) (s : string) (cs : captures) (k : cont) :
  rmatch r s (cap_clear (groups r) cs)
    (fun s1 cs1 => if (String.length s1 =? String.length s)%nat then None else k s1 cs1)
  = None ->
  rmatch (ROpt r) s cs k = k s cs.
Proof. simpl. intros ->. reflexivity. Qed.

Lemma exec_run (r : regex) (s : string) (cs : captures) :
  run r s = Some cs -> exec r s = Some cs.
Proof. destruct s; simpl; intros ->; reflexivity. Qed.

(** [String.prototype.match] with a non-global pattern returns [null]
    exactly when the matcher fails at the start of the subject and at
    every later index. *)
Lemma exec_None (r : regex) (s : string) :
  exec r s = None <-> (run r s = None /\ forall t, proper_suffix t s -> run r t = None).
Proof.
  induction s as [|c s IH]; simpl.
  - split; [intros H; split; [destruct (run r ""); congruence|]|].
    + intros t [c' [p Hp]]. destruct p; discriminate.
    + intros [H _]. rewrite H. reflexivity.
  - destruct (run r (String c s)) eqn:E; split; intros H; try discriminate.
    + destruct H; discriminate.
    + apply IH in H as [H1 H2]. split; [reflexivity|].
      intros t [c' [p Hp]]. injection Hp as <- Hp. destruct p as [|c'' p].
      * simpl in Hp. subst. exact H1.
      * apply H2. exists c'', p. exact Hp.
    + destruct H as [_ H]. apply IH. split.
      * apply H. exists c, ""%string. reflexivity.
      * intros t [c' [p Hp]]. apply H. exists c, (String c' p). rewrite Hp. reflexivity.
Qed.

Lemma rmatch_group_alt (n : nat) (r1 r2 : regex) (s : string) (cs : captures) (k : cont) :
  rmatch (RGroup n (RAlt r1 r2)) s cs k =
  match rmatch r1 s cs (fun s1 cs1 => k s1 ((n, consumed s s1) :: cs1)) with
  | Some x => Some x
  | None => rmatch r2 s cs (fun s1 cs1 => k s1 ((n, consumed s s1) :: cs1))
  end.
Proof. reflexivity. Qed.

(** ** Step lemmas for a word the pattern reads, term by term *)

Section Steps.
Variables (s : string) (cs : captures) (k : cont) (x : captures).

Lemma step_seqs (r : regex) (rs : list regex) :
  rmatch r s cs (fun s1 cs1 => rmatch (rseqs rs) s1 cs1 k) = Some x ->
  rmatch (rseqs (r :: rs)) s cs k = Some x.
Proof. exact (fun H => H). Qed.

Lemma step_lit (c : ascii) :
  k s cs = Some x -> rmatch (RLit c) (String c s) cs k = Some x.
Proof. simpl. rewrite Ascii.eqb_refl. exact (fun H => H). Qed.

Lemma step_class (q : cclass) (c : ascii) :
  class_matches q c = true -> k s cs = Some x -> rmatch (RClass q) (String c s) cs k = Some x.
Proof. simpl. intros ->. exact (fun H => H). Qed.

Lemma step_rstr (w : string) :
  k s cs = Some x -> rmatch (rstr w) (w ++ s) cs k = Some x.
Proof. rewrite rmatch_rstr. exact (fun H => H). Qed.

Lemma step_group_plus (n : nat) (q : cclass) (w : string) :
  w <> ""%string -> all_class q w = true -> stops q s = true ->
  k s ((n, w) :: cs) = Some x ->
  rmatch (RGroup n (rplus q)) (w ++ s) cs k = Some x.
Proof.
  destruct w as [|c w]; [congruence|]. intros _ Hw Hs Hk. simpl rmatch at 1.
  apply rmatch_plus; [exact Hw|exact Hs|]. cbv beta.
  change (String c (w ++ s)) with (String c w ++ s). rewrite consumed_app. exact Hk.
Qed.

Lemma step_group_fixed (n : nat) (rs : list regex) (w : string) :
  fits rs w = true -> k s ((n, w) :: cs) = Some x ->
  rmatch (RGroup n (rseqs rs)) (w ++ s) cs k = Some x.
Proof.
  intros Hw Hk. simpl rmatch at 1. rewrite rmatch_fixed by exact Hw.
  rewrite consumed_app. exact Hk.
Qed.

Lemma step_opt_lit (c : ascii) :
  k s cs = Some x -> rmatch (ROpt (RLit c)) (String c s) cs k = Some x.
Proof.
  intros Hk. apply rmatch_opt_some. simpl. rewrite Ascii.eqb_refl, cap_clear_nil.
  replace (String.length s =? S (String.length s))%nat with false
    by (symmetry; apply Nat.eqb_neq; lia).
  exact Hk.
Qed.

Lemma step_opt_group_rstr (n : nat) (w : string) :
  w <> ""%string -> k s ((n, w) :: cap_clear [n] cs) = Some x ->
  rmatch (ROpt (RGroup n (rstr w))) (w ++ s) cs k = Some x.
Proof.
  intros Hw Hk. apply rmatch_opt_some. simpl rmatch at 1. rewrite rmatch_rstr.
  replace (String.length s =? String.length (w ++ s))%nat with false.
  - rewrite consumed_app. replace (groups (rstr w)) with (@nil nat); [exact Hk|].
    clear. induction w; simpl; auto.
  - symmetry. apply Nat.eqb_neq. rewrite str_length_app.
    destruct w; simpl; [congruence|lia].
Qed.
Lemma step_opt_group_lit_plus (n : nat) (c : ascii) (q : cclass) (w : string) :
  w <> ""%string -> all_class q w = true -> stops q s = true ->
  k s ((n, String c w) :: cap_clear [n] cs) = Some x ->
  rmatch (ROpt (RGroup n (RSeq (RLit c) (rplus q)))) (String c w ++ s) cs k = Some x.
Proof.
  destruct w as [|c' w]; [congruence|]. intros _ Hw Hs Hk.
  apply rmatch_opt_some. simpl rmatch at 1. rewrite Ascii.eqb_refl.
  apply rmatch_plus; [exact Hw|exact Hs|]. cbv beta.
  match goal with |- context [Nat.eqb ?a ?b] =>
    replace (Nat.eqb a b) with false
      by (symmetry; apply Nat.eqb_neq; rewrite ?str_length_app; simpl; lia) end.
  match goal with |- context [consumed ?t s] =>
    replace (consumed t s) with (String c (String c' w))
      by (symmetry; exact (consumed_app (String c (String c' w)) s)) end.
  exact Hk.
Qed.
End Steps.

Lemma stops_app (q : cclass) (a b : string) :
  stops q a = true -> stops q b = true -> stops q (a ++ b) = true.
Proof. destruct a; simpl; auto. Qed.

(** A word read by single-character terms none of which reads [c]
    contains no [c]. *)
Lemma fits_avoids (c : ascii) (rs : list regex) (w : string) :
  Forall (fun r => accepts1 r c = false) rs -> fits rs w = true ->
  str_forall (fun y => negb (Ascii.eqb c y)) w = true.
Proof.
  revert w. induction rs as [|r rs IH]; intros [|y w] Hr H;
    cbn [fits str_forall] in H |- *; try discriminate; auto.
  apply andb_prop in H as [Hy Hw]. inversion Hr; subst.
  apply andb_true_intro; split; [|apply IH; assumption].
  destruct (Ascii.eqb_spec c y); [subst; congruence|reflexivity].
Qed.

(** A literal [c] fails on every proper suffix of [c :: tail] when [tail]
    has no [c]: the [.*] before it must stop at this [c]. *)
Lemma lit_fails_on_suffixes (c : ascii) (tail : string) (r : regex) (cs : captures) (k : cont) :
  str_forall (fun y => negb (Ascii.eqb c y)) tail = true ->
  forall u, proper_suffix u (String c tail) -> rmatch (RSeq (RLit c) r) u cs k = None.
Proof.
  intros Ht u [c' [p Hp]]. injection Hp as <- ->.
  rewrite str_forall_app in Ht. apply andb_prop in Ht as [_ Ht].
  destruct u as [|y u]; simpl; [reflexivity|].
  simpl in Ht. apply andb_prop in Ht as [Hy _].
  destruct (Ascii.eqb c y); [discriminate|reflexivity].
Qed.

Lemma cap_get_clear (n : nat) (ns : list nat) (cs : captures) :
  cap_get n (cap_clear ns cs) = if mem n ns then None else cap_get n cs.
Proof.
  induction cs as [|[m v] cs IH]; simpl.
  - destruct (mem n ns); reflexivity.
  - destruct (existsb (Nat.eqb m) ns) eqn:Hm; simpl.
    + rewrite IH. destruct (Nat.eqb_spec m n); [subst|]; [unfold mem; rewrite Hm|]; reflexivity.
    + rewrite IH. destruct (Nat.eqb_spec m n); [subst|]; [unfold mem; rewrite Hm|]; reflexivity.
Qed.

Lemma mem_app (n : nat) (l1 l2 : list nat) : mem n (l1 ++ l2) = mem n l1 || mem n l2.
Proof. apply existsb_app. Qed.

Lemma star_sound (q : cclass) (s : string) (cs : captures) (k : cont) (x : captures) :
  star q s cs k = Some x ->
  exists w s', s = w ++ s' /\ all_class q w = true /\ k s' cs = Some x.
Proof.
  induction s as [|c s IH]; simpl; intros H.
  - exists ""%string, ""%string. auto.
  - destruct (class_matches q c) eqn:Hc; [destruct (star q s cs k) eqn:Hs|].
    + destruct (IH H) as (w & s' & -> & Hw & Hk).
      exists (String c w), s'. simpl. rewrite Hc, Hw. auto.
    + exists ""%string, (String c s). auto.
    + exists ""%string, (String c s). auto.
Qed.

Section SoundnessProofs.
(** [P n v]: what the captured text [v] of group [n] satisfies. *)
Variable P : nat -> string -> Prop.

Lemma caps_ok_nil : caps_ok P [].
Proof. intros n v H. discriminate. Qed.

Lemma caps_ok_clear (ns : list nat) (cs : captures) :
  caps_ok P cs -> caps_ok P (cap_clear ns cs).
Proof.
  intros H n v. rewrite cap_get_clear. destruct (mem n ns); [discriminate|apply H].
Qed.

Lemma caps_ok_cons (n : nat) (w : string) (cs : captures) :
  P n w -> caps_ok P cs -> caps_ok P ((n, w) :: cs).
Proof.
  intros Hw H m v. simpl. destruct (Nat.eqb_spec n m); [intros [= <-]; subst; exact Hw|apply H].
Qed.

Lemma reads_now (r : regex) (s : string) (cs : captures) (k : cont) (x : captures) :
  lang r "" -> mandatory r = [] -> caps_ok P cs -> k s cs = Some x -> reads P r s cs k x.
Proof.
  intros Hl Hm Hc Hk. exists ""%string, s, cs. rewrite Hm.
  repeat split; auto.
Qed.

Lemma reads_char (r : regex) (c : ascii) (s : string) (cs : captures) (k : cont) (x : captures) :
  lang r (String c "") -> mandatory r = [] -> groups r = [] -> caps_ok P cs ->
  k s cs = Some x -> reads P r (String c s) cs k x.
Proof.
  intros Hl Hm Hg Hc Hk. exists (String c ""), s, cs. rewrite Hm.
  repeat split; auto.
Qed.

Lemma reads_seq (r1 r2 : regex) (s : string) (cs : captures) (k : cont) (x : captures) :
  reads P r1 s cs (fun s1 cs1 => rmatch r2 s1 cs1 k) x ->
  (forall s1 cs1, caps_ok P cs1 -> rmatch r2 s1 cs1 k = Some x -> reads P r2 s1 cs1 k x) ->
  reads P (RSeq r1 r2) s cs k x.
Proof.
  intros (w1 & s1 & cs1 & -> & Hl1 & Hk1 & Hc1 & Hf1 & Hm1) IH2.
  destruct (IH2 s1 cs1 Hc1 Hk1) as (w2 & s2 & cs2 & -> & Hl2 & Hk2 & Hc2 & Hf2 & Hm2).
  exists (w1 ++ w2)%string, s2, cs2. rewrite str_app_assoc.
  repeat split; auto using lang_seq.
  - intros n Hn. simpl in Hn. rewrite mem_app in Hn. apply orb_false_iff in Hn as [Hn1 Hn2].
    rewrite Hf2, Hf1 by assumption. reflexivity.
  - intros n Hn. simpl in Hn. apply in_app_or in Hn as [Hn|Hn]; [|auto].
    apply filter_In in Hn as [Hn Hg]. apply negb_true_iff in Hg.
    rewrite Hf2 by exact Hg. auto.
Qed.

Lemma reads_group (n : nat) (r : regex) (s : string) (cs : captures) (k : cont) (x : captures) :
  (forall w, lang r w -> P n w) ->
  reads P r s cs (fun s1 cs1 => k s1 ((n, consumed s s1) :: cs1)) x ->
  reads P (RGroup n r) s cs k x.
Proof.
  intros HP (w & s' & cs' & -> & Hl & Hk & Hc & Hf & Hm).
  rewrite consumed_app in Hk.
  exists w, s', ((n, w) :: cs'). repeat split; auto using lang_group, caps_ok_cons.
  - intros m Hmem. simpl in Hmem |- *. unfold mem in Hmem. simpl in Hmem.
    apply orb_false_iff in Hmem as [Hnm Hmem]. rewrite Nat.eqb_sym, Hnm. auto.
  - intros m Hin. simpl. destruct (Nat.eqb_spec n m); [discriminate|].
    destruct Hin as [->|Hin]; [congruence|auto].
Qed.

Lemma reads_opt (r : regex) (s : string) (cs : captures) (k : cont) (x : captures) :
  caps_ok P cs ->
  reads P r s (cap_clear (groups r) cs)
    (fun s1 cs1 => if (String.length s1 =? String.length s)%nat then None else k s1 cs1) x ->
  reads P (ROpt r) s cs k x.
Proof.
  intros Hc0 (w & s' & cs' & -> & Hl & Hk & Hc & Hf & Hm).
  exists w, s', cs'. destruct (_ =? _)%nat; [discriminate|].
  repeat split; auto using lang_opt_some.
  intros n Hn. simpl in Hn. rewrite Hf, cap_get_clear, Hn by exact Hn. reflexivity.
Qed.
Lemma reads_alt (r1 r2 r : regex) (s : string) (cs : captures) (k : cont) (x : captures) :
  (forall w, lang r w -> lang (RAlt r1 r2) w) ->
  (forall n, mem n (groups (RAlt r1 r2)) = false -> mem n (groups r) = false) ->
  reads P r s cs k x -> reads P (RAlt r1 r2) s cs k x.
Proof.
  intros Hl Hg (w & s' & cs' & -> & Hw & Hk & Hc & Hf & _).
  exists w, s', cs'. repeat split; auto.
Qed.

Lemma reads_star (q : cclass) (s : string) (cs : captures) (k : cont) (x : captures) :
  caps_ok P cs -> star q s cs k = Some x -> reads P (RStar q) s cs k x.
Proof.
  intros Hc H. destruct (star_sound q s cs k x H) as (w & s' & -> & Hw & Hk).
  exists w, s', cs. repeat split; auto using lang_star.
Qed.

Lemma groups_sat_incl (r r1 : regex) :
  incl (group_defs r1) (group_defs r) -> groups_sat P r -> groups_sat P r1.
Proof. intros Hi H n r' Hin. apply H, Hi, Hin. Qed.
End SoundnessProofs.

(** Soundness of the backtracking matcher for the regular language:
    whatever it returns went through the continuation after reading a word
    of the pattern's language, binding each group to a word of its own
    language, binding every mandatory group, and leaving the other groups
    as they were. *)
Theorem rmatch_sound (P : nat -> string -> Prop) (r : regex) :
  groups_sat P r -> forall s cs k x, caps_ok P cs -> rmatch r s cs k = Some x ->
  reads P r s cs k x.
Proof.
  induction r as [| c | q | r1 IH1 r2 IH2 | r1 IH1 r2 IH2 | n r IH | r IH | q];
    intros Hg s cs k x Hc H; simpl in H.
  - apply reads_now; auto using lang_eps.
  - destruct s as [|c' s]; [discriminate|].
    destruct (Ascii.eqb_spec c c'); [subst|discriminate]. apply reads_char; auto using lang_lit.
  - destruct s as [|c' s]; [discriminate|].
    destruct (class_matches q c') eqn:E; [|discriminate]. apply reads_char; auto using lang_class.
  - apply reads_seq; [apply IH1|intros; apply IH2]; auto;
      eapply groups_sat_incl; eauto; simpl; auto using incl_appl, incl_appr, incl_refl.
  - destruct (rmatch r1 s cs k) eqn:E; [injection H as <-|].
    + apply (reads_alt P r1 r2 r1); [intros; apply lang_alt_l; assumption| |].
      * intros n Hn. simpl in Hn. rewrite mem_app in Hn. apply orb_false_iff in Hn. tauto.
      * apply IH1; auto. eapply groups_sat_incl; eauto. apply incl_appl, incl_refl.
    + apply (reads_alt P r1 r2 r2); [intros; apply lang_alt_r; assumption| |].
      * intros n Hn. simpl in Hn. rewrite mem_app in Hn. apply orb_false_iff in Hn. tauto.
      * apply IH2; auto. eapply groups_sat_incl; eauto. apply incl_appr, incl_refl.
  - apply reads_group.
    + apply (Hg n r). left. reflexivity.
    + apply IH; auto. eapply groups_sat_incl; eauto. apply incl_tl, incl_refl.
  - destruct (rmatch r s _ _) eqn:E; [injection H as <-|].
    + apply reads_opt; auto. apply IH; auto using caps_ok_clear.
    + apply reads_now; auto using lang_opt_none.
  - apply reads_star; assumption.
Qed.

(** [exec] succeeds only through a successful run at some index. *)
Lemma exec_sound (r : regex) (s : string) (cs : captures) :
  exec r s = Some cs -> exists pre t, s = (pre ++ t)%string /\ run r t = Some cs.
Proof.
  induction s as [|c s IH]; simpl; destruct (run r _) eqn:E; intros H.
  - injection H as <-. exists ""%string, ""%string. auto.
  - discriminate.
  - injection H as <-. exists ""%string, (String c s). auto.
  - destruct (IH H) as (pre & t & -> & Ht). exists (String c pre), t. auto.
Qed.

(** The run [exec] stops at reads a word of the pattern's language. *)
Lemma exec_reads (P : nat -> string -> Prop) (r : regex) (s : string) (cs : captures) :
  groups_sat P r -> exec r s = Some cs ->
  exists pre w post, s = (pre ++ w ++ post)%string /\ lang r w /\ caps_ok P cs /\
    (forall n, In n (mandatory r) -> cap_get n cs <> None).
Proof.
  intros Hg H. destruct (exec_sound r s cs H) as (pre & t & -> & Ht). unfold run in Ht.
  destruct (rmatch_sound P r Hg t [] _ cs (caps_ok_nil P) Ht)
    as (w & s' & cs' & -> & Hl & Hk & Hc & _ & Hm).
  injection Hk as ->. exists pre, w, s'. auto.
Qed.

(** ** Reading back the language of simple patterns *)

Lemma lang_single (r : regex) (w : string) :
  is_single r = true -> lang r w -> exists c, w = String c "" /\ accepts1 r c = true.
Proof.
  intros Hs Hl. destruct Hl; try discriminate; eexists; split; try reflexivity; simpl.
  - apply Ascii.eqb_refl.
  - assumption.
Qed.

Lemma lang_seq_inv (r1 r2 : regex) (w : string) :
  lang (RSeq r1 r2) w -> exists w1 w2, w = (w1 ++ w2)%string /\ lang r1 w1 /\ lang r2 w2.
Proof. intros Hl. inversion Hl; subst. eauto. Qed.

Lemma lang_alt_inv (r1 r2 : regex) (w : string) :
  lang (RAlt r1 r2) w -> lang r1 w \/ lang r2 w.
Proof. intros Hl. inversion Hl; subst; auto. Qed.

Lemma lang_eps_inv (w : string) : lang REps w -> w = ""%string.
Proof. intros Hl. inversion Hl. reflexivity. Qed.

Lemma lang_rseqs_fits (rs : list regex) (w : string) :
  forallb is_single rs = true -> lang (rseqs rs) w -> fits rs w = true.
Proof.
  revert w. induction rs as [|r rs IH]; intros w Hs Hl; simpl in *.
  - rewrite (lang_eps_inv w Hl). reflexivity.
  - apply andb_prop in Hs as [Hr Hs].
    destruct (lang_seq_inv _ _ _ Hl) as (w1 & w2 & -> & Hl1 & Hl2).
    destruct (lang_single r w1 Hr Hl1) as (c & -> & Hc). simpl. rewrite Hc. simpl. auto.
Qed.

Lemma lang_rstr (w v : string) : lang (rstr w) v -> v = w.
Proof.
  revert v. induction w as [|c w IH]; intros v Hl; simpl in Hl.
  - apply lang_eps_inv, Hl.
  - destruct (lang_seq_inv _ _ _ Hl) as (w1 & w2 & -> & Hl1 & Hl2).
    destruct (lang_single (RLit c) w1 eq_refl Hl1) as (c' & -> & Hc).
    apply Ascii.eqb_eq in Hc. subst. simpl. f_equal. auto.
Qed.

Lemma lang_plus (q : cclass) (w : string) :
  lang (rplus q) w -> w <> ""%string /\ all_class q w = true.
Proof.
  intros Hl. destruct (lang_seq_inv _ _ _ Hl) as (w1 & w2 & -> & Hl1 & Hl2).
  destruct (lang_single (RClass q) w1 eq_refl Hl1) as (c & -> & Hc).
  inversion Hl2; subst. split; [discriminate|]. simpl in Hc |- *. rewrite Hc. assumption.
Qed.

Lemma group_lang_sat (R : regex) : groups_sat (group_lang R) R.
Proof. intros n r Hin w Hw. exists r. auto. Qed.

Lemma exec_groups (R : regex) (s : string) (cs : captures) :
  exec R s = Some cs ->
  (forall n v, cap_get n cs = Some v -> group_lang R n v) /\
  (forall n, In n (mandatory R) -> cap_get n cs <> None).
Proof.
  intros H. destruct (exec_reads (group_lang R) R s cs (group_lang_sat R) H)
    as (_ & _ & _ & _ & _ & Hc & Hm). auto.
Qed.

(** From [group_lang R n v] with [R] and [n] known, the language of the
    group. *)
Ltac group_lang_inv H :=
  let r := fresh "r" in
  let Hin := fresh "Hin" in
  destruct H as [r [Hin ?Hl]]; simpl in Hin;
  repeat match type of Hin with
    | _ \/ _ => destruct Hin as [Hin|Hin]; [inversion Hin; subst; clear Hin|]
    | False => contradiction
    end.

(** ** Completeness: the matcher finds every word of the language *)

Lemma star_cont_ok (q : cclass) (k : cont) :
  cont_ok k -> cont_ok (fun s cs => star q s cs k).
Proof.
  intros Hk s. induction s as [|c s IH]; intros cs cs' H; simpl in *; [eauto|].
  destruct (class_matches q c); [|eauto].
  destruct (star q s cs k) eqn:E; [discriminate|]. rewrite (IH cs cs' E). eauto.
Qed.

Lemma rmatch_cont_ok (r : regex) : forall k, cont_ok k -> cont_ok (fun s cs => rmatch r s cs k).
Proof.
  induction r as [| c | q | r1 IH1 r2 IH2 | r1 IH1 r2 IH2 | n r IH | r IH | q];
    intros k Hk s cs cs' H; simpl in *.
  - eauto.
  - destruct s as [|c' s]; [reflexivity|]. destruct (Ascii.eqb c c'); eauto.
  - destruct s as [|c' s]; [reflexivity|]. destruct (class_matches q c'); eauto.
  - exact (IH1 _ (IH2 k Hk) s cs cs' H).
  - destruct (rmatch r1 s cs k) eqn:E1; [discriminate|].
    rewrite (IH1 k Hk s cs cs' E1). exact (IH2 k Hk s cs cs' H).
  - refine (IH _ _ s cs cs' H). intros s1 cs1 cs1' H1. eauto.
  - set (k' := fun s1 cs1 => if (String.length s1 =? String.length s)%nat then None else k s1 cs1).
    assert (Hk' : cont_ok k')
      by (intros s1 cs1 cs1' H1; unfold k' in *; destruct (_ =? _)%nat; eauto).
    fold k' in H |- *. destruct (rmatch r s _ k') eqn:E; [discriminate|].
    rewrite (IH k' Hk' s _ _ E). eauto.
  - exact (star_cont_ok q k Hk s cs cs' H).
Qed.

Lemma star_k (q : cclass) (s : string) (cs : captures) (k : cont) :
  k s cs <> None -> star q s cs k <> None.
Proof.
  destruct s as [|c s]; simpl; [auto|].
  destruct (class_matches q c); [destruct (star q s cs k)|]; auto; discriminate.
Qed.

Lemma rmatch_complete (r : regex) (w : string) :
  lang r w -> forall s cs k, cont_ok k -> (forall cs0, k s cs0 <> None) ->
  rmatch r (w ++ s) cs k <> None.
Proof.
  induction 1 as [| c | q c Hc | r1 r2 w1 w2 H1 IH1 H2 IH2 | r1 r2 w H IH | r1 r2 w H IH
                  | n r w H IH | r | r w H IH | q w Hw];
    intros s cs k Hok Hk; simpl.
  - apply Hk.
  - rewrite Ascii.eqb_refl. apply Hk.
  - rewrite Hc. apply Hk.
  - rewrite str_app_assoc. apply IH1; [apply rmatch_cont_ok, Hok|]. intros cs0. auto.
  - destruct (rmatch r1 (w ++ s) cs k) eqn:E; [discriminate|]. exfalso. revert E. apply IH; auto.
  - destruct (rmatch r1 (w ++ s) cs k); [discriminate|]. apply IH; auto.
  - apply IH; [intros s1 cs1 cs1' H1; eauto|]. intros cs0. apply Hk.
  - destruct (rmatch r s _ _); [discriminate|]. apply Hk.
  - destruct (rmatch r (w ++ s) _ _) eqn:E; [discriminate|]. destruct w as [|c w].
    + apply Hk.
    + exfalso. revert E. apply IH.
      * intros s1 cs1 cs1' H1. destruct (_ =? _)%nat; eauto.
      * intros cs0. rewrite str_length_app. simpl.
        replace (String.length s =? S (String.length w + String.length s))%nat with false
          by (symmetry; apply Nat.eqb_neq; lia). apply Hk.
  - intros E. destruct (star q s cs k) as [x|] eqn:Es.
    + rewrite (star_prefix q w s cs k x Hw Es) in E. discriminate.
    + exact (star_k q s cs k (Hk cs) Es).
Qed.

(** The search of [String.prototype.match] fails exactly when no factor
    of the subject is a word of the pattern's language. *)
Lemma exec_None_lang (R : regex) (s : string) :
  exec R s = None <-> ~ matches_somewhere R s.
Proof.
  split.
  - intros H (pre & w & post & -> & Hl). revert H. induction pre as [|c pre IH]; simpl.
    + intros H. destruct (run R (w ++ post)) eqn:E.
      * rewrite (exec_run R _ _ E) in H. discriminate.
      * revert E. apply (rmatch_complete R w Hl post []); [intros ? ? ? Hc|intros ? Hc];
          discriminate Hc.
    + destruct (run R _); [discriminate|exact IH].
  - intros Hn. destruct (exec R s) as [cs|] eqn:E; [|reflexivity]. exfalso. apply Hn.
    destruct (exec_reads (fun _ _ => True) R s cs) as (pre & w & post & -> & Hl & _);
      [intros ? ? ? ? ?; exact I|exact E|].
    exists pre, w, post. auto.
Qed.

(** ** Counting characters in the words of a language *)

Lemma count_char_app (c : ascii) (w1 w2 : string) :
  count_char c (w1 ++ w2) = count_char c w1 + count_char c w2.
Proof. induction w1 as [|c' w1 IH]; simpl; [reflexivity|]. rewrite IH. lia. Qed.

Lemma lang_min_count (c : ascii) (r : regex) (w : string) :
  lang r w -> min_count c r <= count_char c w.
Proof.
  induction 1; simpl; try lia; rewrite ?count_char_app; lia.
Qed.

(** A subject with fewer occurrences of [c] than the bound has no factor
    in the language. *)
Lemma count_not_matches (c : ascii) (R : regex) (s : string) :
  count_char c s < min_count c R -> ~ matches_somewhere R s.
Proof.
  intros Hlt (pre & w & post & -> & Hl). apply (lang_min_count c) in Hl.
  rewrite !count_char_app in Hlt. lia.
Qed.
