(* ===== verification/FileInfo.v ===== *)
(** * FilenameParser: the three naming conventions of release assets

    v2.js lines 130-215.  Each convention is a regular expression built
    from a string ([regex] and [timestampRegex] in the code) and applied
    with [name.match(new RegExp(regex))]; the parsers read the capture
    array [matched] into a [fileInfo] object, and [formBinaryAssetInfo]
    tries them in the order current, legacy, early-access (lines 203-215).
    The terms below are the code's patterns written with the constructors
    of [Regex]: [OpenJDK] is a literal, [([0-9]+)] a group around
    [rplus CDigit], [U?] an optional literal, [.*] a star on [.], [{4}] a
    repetition, [(tar.gz|zip)] a group around an alternation whose first
    branch has an unescaped [.]. *)

From Stdlib Require Import String Ascii List Bool Arith Lia.
From S2P Require Import Prelude JsString Regex.
Import ListNotations.
Local Open Scope string_scope.
Local Open Scope jdk_scope.

(** The object the three parsers return. *)
Record fileInfo := mkFileInfo {
  version : string;
  binaryType : string;
  arch : string;
  os : string;
  openjdk_impl : string;
  tstamp : string;
  extension : string
}.

(** ** The patterns *)

Definition digit := RClass CDigit.

(** ['[0-9]{4}-[0-9]{2}-[0-9]{2}-[0-9]{2}-[0-9]{2}'] (line 131). *)
Definition newTimestampTerms : list regex :=
  rrep 4 digit ++ [RLit "-"] ++ rrep 2 digit ++ [RLit "-"] ++ rrep 2 digit
  ++ [RLit "-"] ++ rrep 2 digit ++ [RLit "-"] ++ rrep 2 digit.

(** ['[0-9]{4}[0-9]{2}[0-9]{2}[0-9]{2}[0-9]{2}'] (lines 151 and 177). *)
Definition oldTimestampTerms : list regex :=
  rrep 4 digit ++ rrep 2 digit ++ rrep 2 digit ++ rrep 2 digit ++ rrep 2 digit.

Definition newTimestampRegex : regex := rseqs newTimestampTerms.
Definition oldTimestampRegex : regex := rseqs oldTimestampTerms.

(** ['(tar.gz|zip)']: the dot is the [.] class, not a literal dot. *)
Definition extensionRegex : regex :=
  RAlt (rseqs [RLit "t"; RLit "a"; RLit "r"; RClass CDot; RLit "g"; RLit "z"]) (rstr "zip").

(** Line 132:
    ['OpenJDK([0-9]+)U?(-jre)?_([0-9a-zA-Z]+)_([0-9a-zA-Z]+)_([0-9a-zA-Z]+).*_('
     + timestampRegex + ').(tar.gz|zip)']. *)
Definition newStyleRegex : regex :=
  rseqs [rstr "OpenJDK"; RGroup 1 (rplus CDigit); ROpt (RLit "U");
         ROpt (RGroup 2 (rstr "-jre")); RLit "_";
         RGroup 3 (rplus CAlnum); RLit "_"; RGroup 4 (rplus CAlnum); RLit "_";
         RGroup 5 (rplus CAlnum); RStar CDot; RLit "_";
         RGroup 6 newTimestampRegex; RClass CDot; RGroup 7 extensionRegex].

(** Line 152:
    ['OpenJDK([0-9]+)U?(-[0-9a-zA-Z]+)?_([0-9a-zA-Z]+)_([0-9a-zA-Z]+).*_('
     + timestampRegex + ').(tar.gz|zip)']. *)
Definition oldStyleRegex : regex :=
  rseqs [rstr "OpenJDK"; RGroup 1 (rplus CDigit); ROpt (RLit "U");
         ROpt (RGroup 2 (RSeq (RLit "-") (rplus CAlnum))); RLit "_";
         RGroup 3 (rplus CAlnum); RLit "_"; RGroup 4 (rplus CAlnum); RStar CDot;
         RLit "_"; RGroup 5 oldTimestampRegex; RClass CDot;
         RGroup 6 extensionRegex].

(** Line 178:
    ['OpenJDK-AMBER_([0-9a-zA-Z]+)_([0-9a-zA-Z]+)_(' + timestampRegex
     + ').(tar.gz|zip)']. *)
Definition amberStyleRegex : regex :=
  rseqs [rstr "OpenJDK-AMBER_"; RGroup 1 (rplus CAlnum); RLit "_";
         RGroup 2 (rplus CAlnum); RLit "_"; RGroup 3 oldTimestampRegex;
         RClass CDot; RGroup 4 extensionRegex].

(** Line 185: ['jdk-([0-9]+).*'] on the release's tag. *)
Definition amberVersionRegex : regex :=
  rseqs [rstr "jdk-"; RGroup 1 (rplus CDigit); RStar CDot].

(** ** The parsers *)

(** [getNewStyleFileInfo] (lines 130-148).  A successful match always
    binds the groups that are not optional ([newStyle_total] below), so
    the inner [None] is never reached. *)
Definition getNewStyleFileInfo (name : string) : option fileInfo :=
  match exec newStyleRegex name with
  | Some matched =>
      match cap_get 1 matched, cap_get 3 matched, cap_get 4 matched,
            cap_get 5 matched, cap_get 6 matched, cap_get 7 matched with
      | Some v, Some a, Some o, Some i, Some t, Some e =>
          Some {| version := v;
                  binaryType := match cap_get 2 matched with
                                | Some _ => "jre" | None => "jdk" end;
                  arch := a; os := o; openjdk_impl := i; tstamp := t;
                  extension := e |}
      | _, _, _, _, _, _ => None
      end
  | None => None
  end.

(** [getOldStyleFileInfo] (lines 150-174): the implementation defaults to
    [hotspot]; an [-impl] suffix gives the implementation with its first
    ['-'] removed. *)
Definition getOldStyleFileInfo (name : string) : option fileInfo :=
  match exec oldStyleRegex name with
  | None => None
  | Some matched =>
      let impl := match cap_get 2 matched with
                  | Some suffix => replace suffix "-" ""
                  | None => "hotspot"
                  end in
      match cap_get 1 matched, cap_get 3 matched, cap_get 4 matched,
            cap_get 5 matched, cap_get 6 matched with
      | Some v, Some a, Some o, Some t, Some e =>
          Some {| version := v; openjdk_impl := impl; binaryType := "jdk";
                  arch := a; os := o; tstamp := t; extension := e |}
      | _, _, _, _, _ => None
      end
  end.

(** [getAmberStyleFileInfo] (lines 176-200): the version comes from the
    release's [tag_name]. *)
Definition getAmberStyleFileInfo (name tag_name : string) : option fileInfo :=
  match exec amberStyleRegex name with
  | None => None
  | Some matched =>
      match exec amberVersionRegex tag_name with
      | None => None
      | Some versionMatcher =>
          match cap_get 1 matched, cap_get 2 matched, cap_get 3 matched,
                cap_get 4 matched, cap_get 1 versionMatcher with
          | Some a, Some o, Some t, Some e, Some v =>
              Some {| arch := a; os := o; tstamp := t; binaryType := "jdk";
                      openjdk_impl := "hotspot"; version := v; extension := e |}
          | _, _, _, _, _ => None
          end
      end
  end.

(** Lines 203-215 of [formBinaryAssetInfo]: the first convention that
    parses wins; [None] is the [return null] of line 214. *)
Definition parseFileInfo (name tag_name : string) : option fileInfo :=
  match getNewStyleFileInfo name with
  | Some fi => Some fi
  | None =>
      match getOldStyleFileInfo name with
      | Some fi => Some fi
      | None => getAmberStyleFileInfo name tag_name
      end
  end.

(** ** File names printed from their fields

    The abstract side of the round trips: the names the release process
    gives its assets, as the patterns describe them.  [mid] is free text
    that the [.*] of the current and legacy patterns skips. *)

Definition newStyleName (v : string) (unsigned jre : bool) (a o i mid ts e : string) : string :=
  "OpenJDK" ++ v ++ (if unsigned then "U" else "") ++ (if jre then "-jre" else "")
  ++ "_" ++ a ++ "_" ++ o ++ "_" ++ i ++ mid ++ "_" ++ ts ++ "." ++ e.

Definition oldStyleName (v : string) (unsigned : bool) (impl : option string)
    (a o mid ts e : string) : string :=
  "OpenJDK" ++ v ++ (if unsigned then "U" else "")
  ++ (match impl with Some w => "-" ++ w | None => "" end)
  ++ "_" ++ a ++ "_" ++ o ++ mid ++ "_" ++ ts ++ "." ++ e.

Definition amberStyleName (a o ts e : string) : string :=
  "OpenJDK-AMBER_" ++ a ++ "_" ++ o ++ "_" ++ ts ++ "." ++ e.

Definition is_extension (e : string) : Prop := e = "tar.gz" \/ e = "zip".

(** [tar.gz] as the pattern writes it: the dot is unescaped, so it is
    any character but a line terminator. *)
Definition tarGzTerms : list regex :=
  [RLit "t"; RLit "a"; RLit "r"; RClass CDot; RLit "g"; RLit "z"].

(** The fields a parse can produce: non-empty digits for the version,
    non-empty letters and digits for architecture, OS and implementation,
    [jdk] or [jre] for the kind, a stamp [YYYY-MM-DD-HH-mm] or
    [YYYYMMDDHHmm], and an extension [tar?gz] (any character in the
    middle) or [zip]. *)
Definition wellFormedInfo (fi : fileInfo) : Prop :=
  (version fi <> ""%string /\ all_class CDigit (version fi) = true) /\
  (binaryType fi = "jre" \/ binaryType fi = "jdk") /\
  (arch fi <> ""%string /\ all_class CAlnum (arch fi) = true) /\
  (os fi <> ""%string /\ all_class CAlnum (os fi) = true) /\
  (openjdk_impl fi <> ""%string /\ all_class CAlnum (openjdk_impl fi) = true) /\
  (fits newTimestampTerms (tstamp fi) = true \/ fits oldTimestampTerms (tstamp fi) = true) /\
  (fits tarGzTerms (extension fi) = true \/ extension fi = "zip").

(** ** Reading the common tail [.*_(timestamp).(tar.gz|zip)] *)

Lemma step_group_ext (n : nat) (e rest : string) (cs : captures) (k : cont) (x : captures) :
  is_extension e -> k rest ((n, e) :: cs) = Some x ->
  rmatch (RGroup n extensionRegex) (e ++ rest) cs k = Some x.
Proof.
  intros He Hk. unfold extensionRegex. rewrite rmatch_group_alt.
  destruct He as [-> | ->].
  - rewrite (rmatch_fixed _ "tar.gz" rest) by reflexivity. rewrite consumed_app, Hk. reflexivity.
  - replace (rmatch (rseqs _) ("zip" ++ rest) cs _) with (@None captures) by reflexivity.
    rewrite (rmatch_rstr "zip" rest), consumed_app, Hk. reflexivity.
Qed.

Lemma ext_avoids_underscore (e rest : string) :
  is_extension e -> str_forall (fun y => negb (Ascii.eqb "_" y)) rest = true ->
  str_forall (fun y => negb (Ascii.eqb "_" y)) ("." ++ e ++ rest) = true.
Proof.
  intros He Hr. change ("." ++ e ++ rest) with (("." ++ e) ++ rest).
  rewrite str_forall_app, Hr. destruct He as [-> | ->]; reflexivity.
Qed.

Lemma tail_step (tsr : list regex) (n : nat) (mid ts e rest : string) cs k x :
  all_class CDot mid = true -> fits tsr ts = true ->
  Forall (fun r => accepts1 r "_" = false) tsr -> is_extension e ->
  str_forall (fun y => negb (Ascii.eqb "_" y)) rest = true ->
  k rest ((S n, e) :: (n, ts) :: cs) = Some x ->
  rmatch (rseqs [RStar CDot; RLit "_"; RGroup n (rseqs tsr); RClass CDot;
                 RGroup (S n) extensionRegex]) (mid ++ "_" ++ ts ++ "." ++ e ++ rest) cs k
  = Some x.
Proof.
  intros Hmid Hts Hu He Hr Hk. apply step_seqs. apply rmatch_star_last; [exact Hmid| |].
  - apply step_seqs, step_lit, step_seqs, step_group_fixed; [exact Hts|].
    apply step_seqs, step_class; [reflexivity|]. apply step_seqs, step_group_ext; assumption.
  - apply lit_fails_on_suffixes. rewrite str_forall_app.
    rewrite (fits_avoids "_" tsr ts Hu Hts). apply ext_avoids_underscore; assumption.
Qed.

Lemma newTimestamp_avoids : Forall (fun r => accepts1 r "_" = false) newTimestampTerms.
Proof. repeat constructor. Qed.

Lemma oldTimestamp_avoids : Forall (fun r => accepts1 r "_" = false) oldTimestampTerms.
Proof. repeat constructor. Qed.

(** [.*] followed by nothing: the greedy star reads everything. *)
Lemma star_accept (q : cclass) (s : string) (cs : captures) :
  star q s cs (fun _ cs1 => Some cs1) = Some cs.
Proof. induction s as [|c s IH]; simpl; [|destruct (class_matches q c); [rewrite IH|]]; reflexivity. Qed.

(** ** Round trips: a printed name parses back to its fields *)

Section RoundTrips.
Variables (v a o mid ts e : string).
Hypotheses (Hv : v <> ""%string) (Hv' : all_class CDigit v = true)
           (Ha : a <> ""%string) (Ha' : all_class CAlnum a = true)
           (Ho : o <> ""%string) (Ho' : all_class CAlnum o = true)
           (Hmid : all_class CDot mid = true) (Hmid' : stops CAlnum mid = true)
           (He : is_extension e).

(** C7: a name of the current convention (version digits, optional [U],
    optional [-jre], architecture, OS and implementation made of letters
    and digits, free text, a [YYYY-MM-DD-HH-mm] stamp and [tar.gz] or
    [zip]), followed by any text without an underscore, is parsed by
    [getNewStyleFileInfo] into exactly its fields, with kind [jre] when
    the [-jre] marker is present and [jdk] otherwise.  The pattern is not
    anchored at the end, so the trailing text (a [.sig] suffix, say) is
    ignored. *)
Theorem newStyle_roundtrip (unsigned jre : bool) (i rest : string) :
  i <> ""%string -> all_class CAlnum i = true -> fits newTimestampTerms ts = true ->
  str_forall (fun y => negb (Ascii.eqb "_" y)) rest = true ->
  getNewStyleFileInfo (newStyleName v unsigned jre a o i mid ts e ++ rest) =
  Some {| version := v; binaryType := if jre then "jre" else "jdk"; arch := a; os := o;
          openjdk_impl := i; tstamp := ts; extension := e |}.
Proof.
  intros Hi Hi' Hts Hr.
  destruct unsigned, jre; unfold getNewStyleFileInfo, newStyleName; cbv beta iota;
    rewrite !str_app_assoc;
    (erewrite exec_run; [|unfold run, newStyleRegex; apply step_seqs, step_rstr;
      cbv beta; cbn [append];
      apply step_seqs, step_group_plus; [exact Hv|exact Hv'|reflexivity|]; cbv beta;
      apply step_seqs; first [apply step_opt_lit | rewrite rmatch_opt_none by reflexivity];
      cbv beta; apply step_seqs;
      first [apply step_opt_group_rstr with (w := "-jre"); [discriminate|]
            | rewrite rmatch_opt_none by reflexivity]; cbv beta;
      apply step_seqs, step_lit; cbv beta;
      apply step_seqs, step_group_plus; [exact Ha|exact Ha'|reflexivity|]; cbv beta;
      apply step_seqs, step_lit; cbv beta;
      apply step_seqs, step_group_plus; [exact Ho|exact Ho'|reflexivity|]; cbv beta;
      apply step_seqs, step_lit; cbv beta;
      apply step_seqs, step_group_plus;
        [exact Hi|exact Hi'|apply stops_app; [exact Hmid'|reflexivity]|]; cbv beta;
      apply tail_step; try assumption; [apply newTimestamp_avoids|reflexivity]]);
    reflexivity.
Qed.

(** C8: a name of the legacy convention (version, optional [U],
    optional [-impl] suffix, architecture, OS, free text, a
    [YYYYMMDDHHmm] stamp and the extension), followed by any text without
    an underscore, is parsed by [getOldStyleFileInfo] into its fields,
    with kind [jdk] and the implementation [hotspot] when the suffix is
    absent, the suffix without its dash otherwise. *)
Theorem oldStyle_roundtrip (unsigned : bool) (impl : option string) (rest : string) :
  (forall w, impl = Some w -> w <> ""%string /\ all_class CAlnum w = true) ->
  fits oldTimestampTerms ts = true ->
  str_forall (fun y => negb (Ascii.eqb "_" y)) rest = true ->
  getOldStyleFileInfo (oldStyleName v unsigned impl a o mid ts e ++ rest) =
  Some {| version := v; binaryType := "jdk"; arch := a; os := o;
          openjdk_impl := match impl with Some w => w | None => "hotspot" end;
          tstamp := ts; extension := e |}.
Proof.
  intros Himpl Hts Hr.
  destruct impl as [w|]; [destruct (Himpl w eq_refl) as [Hw Hw']|]; clear Himpl;
  destruct unsigned; unfold getOldStyleFileInfo, oldStyleName; cbv beta iota;
    rewrite !str_app_assoc;
    (erewrite exec_run; [|unfold run, oldStyleRegex; apply step_seqs, step_rstr;
      cbv beta; cbn [append];
      apply step_seqs, step_group_plus; [exact Hv|exact Hv'|reflexivity|]; cbv beta;
      apply step_seqs; first [apply step_opt_lit | rewrite rmatch_opt_none by reflexivity];
      cbv beta; apply step_seqs;
      first [apply step_opt_group_lit_plus; [exact Hw|exact Hw'|reflexivity|]
            | rewrite rmatch_opt_none by reflexivity]; cbv beta;
      apply step_seqs, step_lit; cbv beta;
      apply step_seqs, step_group_plus; [exact Ha|exact Ha'|reflexivity|]; cbv beta;
      apply step_seqs, step_lit; cbv beta;
      apply step_seqs, step_group_plus;
        [exact Ho|exact Ho'|apply stops_app; [exact Hmid'|reflexivity]|]; cbv beta;
      apply tail_step; try assumption; [apply oldTimestamp_avoids|reflexivity]]);
    cbn; rewrite ?replace_head; reflexivity.
Qed.
End RoundTrips.

(** C9: an early-access name [OpenJDK-AMBER_<arch>_<os>_<YYYYMMDDHHmm>.<ext>],
    followed by any text, of a release tagged [jdk-<digits><rest>] is
    parsed by [getAmberStyleFileInfo] into its architecture, OS, stamp and
    extension, with the version read from the tag, kind [jdk] and
    implementation [hotspot]. *)
Theorem amberStyle_roundtrip (a o ts e rest v tagRest : string) :
  a <> ""%string -> all_class CAlnum a = true ->
  o <> ""%string -> all_class CAlnum o = true ->
  fits oldTimestampTerms ts = true -> is_extension e ->
  v <> ""%string -> all_class CDigit v = true -> stops CDigit tagRest = true ->
  getAmberStyleFileInfo (amberStyleName a o ts e ++ rest) ("jdk-" ++ v ++ tagRest) =
  Some {| version := v; binaryType := "jdk"; arch := a; os := o;
          openjdk_impl := "hotspot"; tstamp := ts; extension := e |}.
Proof.
  intros Ha Ha' Ho Ho' Hts He Hv Hv' Hrest. unfold getAmberStyleFileInfo, amberStyleName.
  rewrite !str_app_assoc. erewrite exec_run.
  2:{ unfold run, amberStyleRegex. apply step_seqs, step_rstr. cbv beta.
      apply step_seqs, step_group_plus; [exact Ha|exact Ha'|reflexivity|]. cbv beta.
      apply step_seqs, step_lit. cbv beta.
      apply step_seqs, step_group_plus; [exact Ho|exact Ho'|reflexivity|]. cbv beta.
      apply step_seqs, step_lit. cbv beta.
      apply step_seqs, step_group_fixed; [exact Hts|]. cbv beta.
      apply step_seqs, step_class; [reflexivity|]. cbv beta.
      apply step_seqs, step_group_ext; [exact He|reflexivity]. }
  erewrite exec_run.
  2:{ unfold run, amberVersionRegex. apply step_seqs, step_rstr. cbv beta.
      apply step_seqs, step_group_plus; [exact Hv|exact Hv'|exact Hrest|]. cbv beta.
      exact (star_accept CDot tagRest _). }
  reflexivity.
Qed.

(** ** Every successful parse is well formed *)

Lemma lang_extension (w : string) :
  lang extensionRegex w -> w <> ""%string /\ (fits [RLit "t"; RLit "a"; RLit "r"; RClass CDot;
                                                    RLit "g"; RLit "z"] w = true \/ w = "zip").
Proof.
  intros Hl. apply lang_alt_inv in Hl as [Hl|Hl].
  - apply lang_rseqs_fits in Hl; [|reflexivity].
    split; [destruct w; discriminate|left; exact Hl].
  - apply lang_rstr in Hl. subst. split; [discriminate|right; reflexivity].
Qed.

Lemma fits_nonempty (rs : list regex) (w : string) :
  rs <> [] -> fits rs w = true -> w <> ""%string.
Proof. destruct rs, w; simpl; congruence. Qed.

Lemma lang_dash_plus (c : ascii) (q : cclass) (w : string) :
  lang (RSeq (RLit c) (rplus q)) w ->
  exists w', w = String c w' /\ w' <> ""%string /\ all_class q w' = true.
Proof.
  intros Hl. destruct (lang_seq_inv _ _ _ Hl) as (w1 & w2 & -> & Hl1 & Hl2).
  destruct (lang_single (RLit c) w1 eq_refl Hl1) as (c' & -> & Hc).
  apply Ascii.eqb_eq in Hc. subst. exists w2. auto using lang_plus.
Qed.

(** Replace each [cap_get n m = Some v] by the language of group [n]. *)
Ltac caps_to_langs Hg :=
  repeat match goal with
    | H : cap_get ?n ?m = Some ?v |- _ =>
        let G := fresh "G" in pose proof (Hg n v H) as G; clear H; group_lang_inv G
    end;
  repeat match goal with
    | H : lang (rplus _) _ |- _ => apply lang_plus in H; destruct H
    | H : lang (RSeq (RLit _) (rplus _)) _ |- _ =>
        apply lang_dash_plus in H; destruct H as (? & -> & ? & ?)
    | H : lang newTimestampRegex _ |- _ => apply lang_rseqs_fits in H; [|reflexivity]
    | H : lang oldTimestampRegex _ |- _ => apply lang_rseqs_fits in H; [|reflexivity]
    | H : lang extensionRegex _ |- _ => apply lang_extension in H; destruct H
    end.

(** Case on the capture lookups a parser matches on. *)
Ltac case_caps :=
  repeat match goal with
    | H : context [match cap_get ?n ?m with _ => _ end] |- _ =>
        destruct (cap_get n m) eqn:?
    end.

Lemma newStyle_sound (name : string) (fi : fileInfo) :
  getNewStyleFileInfo name = Some fi -> wellFormedInfo fi.
Proof.
  unfold getNewStyleFileInfo. intros H.
  destruct (exec newStyleRegex name) as [m|] eqn:E; [|discriminate].
  apply exec_groups in E as [Hg _].
  case_caps; try discriminate; injection H as <-.
  all: caps_to_langs Hg; unfold wellFormedInfo; simpl.
  all: repeat split; auto; (eapply fits_nonempty; [|eassumption]; discriminate).
Qed.

Lemma oldStyle_sound (name : string) (fi : fileInfo) :
  getOldStyleFileInfo name = Some fi -> wellFormedInfo fi.
Proof.
  unfold getOldStyleFileInfo. intros H.
  destruct (exec oldStyleRegex name) as [m|] eqn:E; [|discriminate].
  apply exec_groups in E as [Hg _].
  case_caps; try discriminate; injection H as <-.
  all: caps_to_langs Hg; unfold wellFormedInfo; simpl; rewrite ?replace_head.
  all: repeat split; auto; try discriminate; (eapply fits_nonempty; [|eassumption]; discriminate).
Qed.

Lemma amberStyle_sound (name tag : string) (fi : fileInfo) :
  getAmberStyleFileInfo name tag = Some fi -> wellFormedInfo fi.
Proof.
  unfold getAmberStyleFileInfo. intros H.
  destruct (exec amberStyleRegex name) as [m|] eqn:E; [|discriminate].
  destruct (exec amberVersionRegex tag) as [m'|] eqn:E'; [|discriminate].
  apply exec_groups in E as [Hg _]. apply exec_groups in E' as [Hg' _].
  case_caps; try discriminate; injection H as <-.
  caps_to_langs Hg. caps_to_langs Hg'. unfold wellFormedInfo; simpl.
  repeat split; auto; try discriminate; (eapply fits_nonempty; [|eassumption]; discriminate).
Qed.

(** C10: whatever convention parses a file name, the record is well
    formed: the version is a non-empty string of digits; the kind is [jdk]
    or [jre]; the architecture, OS and implementation are non-empty and
    alphanumeric; the timestamp has one of the two shapes
    [YYYY-MM-DD-HH-mm] or [YYYYMMDDHHmm]; and the extension is [zip] or
    [tar?gz] with any character but a line terminator in the middle, since the patterns'
    [tar.gz] leaves the dot unescaped ([tar-gz] is accepted). *)
Theorem parseFileInfo_wellFormed (name tag : string) (fi : fileInfo) :
  parseFileInfo name tag = Some fi -> wellFormedInfo fi.
Proof.
  unfold parseFileInfo.
  destruct (getNewStyleFileInfo name) eqn:E1; [intros [= <-]; eapply newStyle_sound; eauto|].
  destruct (getOldStyleFileInfo name) eqn:E2; [intros [= <-]; eapply oldStyle_sound; eauto|].
  apply amberStyle_sound.
Qed.

(** ** A parse fully succeeds or yields nothing *)

(** A [cap_get n m = None] for a mandatory group [n] contradicts the
    match. *)
Ltac no_missing_group Hm :=
  match goal with
  | H : cap_get ?n _ = None |- _ => exfalso; apply (Hm n); [simpl; tauto|exact H]
  end.

Lemma newStyle_total (name : string) :
  getNewStyleFileInfo name = None <-> exec newStyleRegex name = None.
Proof.
  unfold getNewStyleFileInfo.
  destruct (exec newStyleRegex name) as [m|] eqn:E; [|tauto].
  apply exec_groups in E as [_ Hm]. split; [intros H|discriminate].
  case_caps; try discriminate; no_missing_group Hm.
Qed.

Lemma oldStyle_total (name : string) :
  getOldStyleFileInfo name = None <-> exec oldStyleRegex name = None.
Proof.
  unfold getOldStyleFileInfo.
  destruct (exec oldStyleRegex name) as [m|] eqn:E; [|tauto].
  apply exec_groups in E as [_ Hm]. split; [intros H|discriminate].
  case_caps; try discriminate; no_missing_group Hm.
Qed.

Lemma amberStyle_total (name tag : string) :
  getAmberStyleFileInfo name tag = None <->
  exec amberStyleRegex name = None \/ exec amberVersionRegex tag = None.
Proof.
  unfold getAmberStyleFileInfo.
  destruct (exec amberStyleRegex name) as [m|] eqn:E; [|tauto].
  destruct (exec amberVersionRegex tag) as [m'|] eqn:E'; [|tauto].
  apply exec_groups in E as [_ Hm]. apply exec_groups in E' as [_ Hm'].
  split; [intros H|intros [H|H]; discriminate].
  case_caps; try discriminate; first [no_missing_group Hm | no_missing_group Hm'].
Qed.

(** C11: a file name is unparseable ([formBinaryAssetInfo] returns
    [null]) exactly when no part of it is a word of the current or the
    legacy convention's pattern, and either no part of it is an
    early-access name or the release tag has no [jdk-<digits>]; a match of
    a pattern never yields a partial record. *)
Theorem parseFileInfo_None_iff (name tag : string) :
  parseFileInfo name tag = None <->
  ~ matches_somewhere newStyleRegex name /\ ~ matches_somewhere oldStyleRegex name /\
  (~ matches_somewhere amberStyleRegex name \/ ~ matches_somewhere amberVersionRegex tag).
Proof.
  rewrite <- !exec_None_lang, <- newStyle_total, <- oldStyle_total, <- amberStyle_total.
  unfold parseFileInfo.
  destruct (getNewStyleFileInfo name), (getOldStyleFileInfo name); intuition discriminate.
Qed.

(** ** The order of the strategies *)

(** C16: the order of the strategies of [formBinaryAssetInfo]: every
    name of the current convention has at least four dashes (in its
    [YYYY-MM-DD-HH-mm] stamp), so a name with fewer, as the legacy and
    early-access names have, is never taken by the current-convention
    parser and goes to the legacy parser, then to the early-access one. *)
Theorem parseFileInfo_few_dashes (name tag : string) :
  count_char "-" name < 4 ->
  parseFileInfo name tag =
  match getOldStyleFileInfo name with
  | Some fi => Some fi
  | None => getAmberStyleFileInfo name tag
  end.
Proof.
  intros H. unfold parseFileInfo.
  replace (getNewStyleFileInfo name) with (@None fileInfo); [reflexivity|].
  symmetry. apply newStyle_total, exec_None_lang, (count_not_matches "-").
  exact H.
Qed.
