(* ===== verification/Underscore.v ===== *)
(** * underscore's [_.sortBy] and [_.last]

    [filterRelease] (v2.js lines 21-27) selects the 'latest' release with
    [_.chain(releases).sortBy(r => r.timestamp).last().value()].
    underscore 1.x implements [sortBy] as: decorate every element with its
    position and its key, sort with [Array.prototype.sort] and the
    comparator

      [if (a !== b) { if (a > b || a === void 0) return 1;
                      if (a < b || b === void 0) return -1; }
       return left.index - right.index;]

    and read the values back.  The comparator orders the decorated
    elements by key, then by position, so the sorted array does not depend
    on the sort algorithm; [sort_by] below is an insertion sort with that
    comparator.  [sortBy_last] shows that [last] of the sorted array is
    [latest_ref]: the last element, in the input order, among those with
    the greatest key. *)

From Stdlib Require Import String Ascii List Bool Arith Lia Sorted Permutation.
From S2P Require Import Prelude JsString.
Import ListNotations.
Local Open Scope jdk_scope.

(** ** A sort with a comparator, and its last element *)

Section InsertionSort.
Context {D : Type} (cmp : D -> D -> comparison).

Fixpoint insert_by (d : D) (l : list D) : list D :=
  match l with
  | [] => [d]
  | x :: l' => match cmp d x with
               | Gt => x :: insert_by d l'
               | _ => d :: l
               end
  end.

Fixpoint sort_by (l : list D) : list D :=
  match l with
  | [] => []
  | x :: l' => insert_by x (sort_by l')
  end.

Definition le_by (a b : D) : Prop := cmp a b <> Gt.

(** The greater of [d] and the current maximum. *)
Definition max_by (d : D) (m : option D) : D :=
  match m with
  | None => d
  | Some m => match cmp d m with Gt => d | _ => m end
  end.
End InsertionSort.

(** ** [_.sortBy] with underscore's comparator *)

Section SortBy.
Context {A : Type}.
(** [{value: value, index: index++, criteria: iteratee(value)}] *)
Record decorated := { value : A; index : nat; criteria : string }.

Fixpoint decorate (i : nat) (key : A -> string) (l : list A) : list decorated :=
  match l with
  | [] => []
  | x :: l' => {| value := x; index := i; criteria := key x |} :: decorate (S i) key l'
  end.

(** The comparator passed to [Array.prototype.sort]: the sign of its
    result; keys are strings, never [undefined]. *)
Definition sortBy_cmp (left right : decorated) : comparison :=
  let a := criteria left in
  let b := criteria right in
  if negb (a ==js b) then
    if js_gt a b then Gt
    else if js_lt a b then Lt
    else Nat.compare (index left) (index right)
  else Nat.compare (index left) (index right).

(** [_.sortBy(list, key)]. *)
Definition sortBy (key : A -> string) (l : list A) : list A :=
  map value (sort_by sortBy_cmp (decorate 0 key l)).

(** The reference for [sortBy] followed by [last]: a scan that keeps
    the later element unless the earlier one has a strictly greater key. *)
Fixpoint latest_ref (key : A -> string) (l : list A) : option A :=
  match l with
  | [] => None
  | x :: l' =>
      match latest_ref key l' with
      | None => Some x
      | Some y => if key y <js key x then Some x else Some y
      end
  end.
End SortBy.

Arguments decorated : clear implicits.

(** ** Sorting with a comparator: permutation, order, last element *)

Section InsertionSortProofs.
Context {D : Type} (cmp : D -> D -> comparison).

Hypothesis cmp_antisym : forall a b, cmp a b = CompOpp (cmp b a).
Hypothesis le_by_trans : forall a b c, le_by cmp a b -> le_by cmp b c -> le_by cmp a c.

Lemma insert_by_perm (d : D) (l : list D) : Permutation (insert_by cmp d l) (d :: l).
Proof.
  induction l as [|x l IH]; simpl; [auto|].
  destruct (cmp d x); auto. rewrite IH. apply perm_swap.
Qed.

Lemma sort_by_perm (l : list D) : Permutation (sort_by cmp l) l.
Proof.
  induction l as [|x l IH]; simpl; auto.
  rewrite insert_by_perm. auto.
Qed.

Lemma gt_le_by (a b : D) : cmp a b = Gt -> le_by cmp b a.
Proof. intros H. unfold le_by. rewrite cmp_antisym, H. discriminate. Qed.

Lemma insert_by_sorted (d : D) (l : list D) : Sorted (le_by cmp) l -> Sorted (le_by cmp) (insert_by cmp d l).
Proof.
  induction 1 as [|x l Hl IH Hhd]; simpl; [auto|].
  destruct (cmp d x) eqn:E.
  - constructor; [constructor; auto|constructor; unfold le_by; congruence].
  - constructor; [constructor; auto|constructor; unfold le_by; congruence].
  - constructor; [exact IH|]. destruct l as [|y l]; simpl.
    + constructor. apply gt_le_by, E.
    + inversion Hhd; subst. destruct (cmp d y); constructor; auto using gt_le_by.
Qed.

Lemma sort_by_sorted (l : list D) : Sorted (le_by cmp) (sort_by cmp l).
Proof. induction l; simpl; auto using insert_by_sorted. Qed.

Lemma last_opt_cons_in (x m : D) (l : list D) :
  last_opt (x :: l) = Some m -> m = x \/ In m l.
Proof.
  revert x. induction l as [|y l IH]; intros x H; simpl in H.
  - injection H as <-. auto.
  - right. destruct (IH y H) as [->|Hin]; simpl; auto.
Qed.

Lemma last_opt_cons_cons (x y : D) (l : list D) :
  last_opt (x :: y :: l) = last_opt (y :: l).
Proof. reflexivity. Qed.

Lemma insert_by_cons (d : D) (l : list D) : exists y l', insert_by cmp d l = y :: l'.
Proof. destruct l as [|x l]; simpl; [eauto|destruct (cmp d x); eauto]. Qed.

Lemma last_opt_cons_some (x : D) (l : list D) : exists m, last_opt (x :: l) = Some m.
Proof.
  destruct (last_opt (x :: l)) eqn:E; [eauto|].
  apply last_opt_None in E. discriminate.
Qed.

Lemma last_sorted_ge (x m : D) (l : list D) :
  Forall (le_by cmp x) l -> last_opt (x :: l) = Some m -> le_by cmp x m.
Proof.
  intros Hx Em. destruct (last_opt_cons_in x m l Em) as [->|Hin].
  - unfold le_by. pose proof (cmp_antisym x x) as H.
    destruct (cmp x x); simpl in H; congruence.
  - eapply Forall_forall; eauto.
Qed.

Lemma last_insert_by (d : D) (l : list D) :
  Sorted (le_by cmp) l -> last_opt (insert_by cmp d l) = Some (max_by cmp d (last_opt l)).
Proof.
  intros Hs. apply Sorted_StronglySorted in Hs; [|exact le_by_trans].
  induction Hs as [|x l Hs IH Hx]; [reflexivity|].
  destruct (last_opt_cons_some x l) as [m Em].
  cbn [insert_by]. destruct (cmp d x) eqn:E.
  1,2: assert (Hdm : le_by cmp d m)
         by (apply (le_by_trans d x m); [unfold le_by; congruence|
                                        apply (last_sorted_ge x m l Hx Em)]);
       rewrite last_opt_cons_cons, Em; cbn [max_by];
       destruct (cmp d m) eqn:Edm; [reflexivity|reflexivity|unfold le_by in Hdm; congruence].
  destruct (insert_by_cons d l) as (y & l' & Hy). rewrite Hy.
  rewrite last_opt_cons_cons, <- Hy, IH.
  destruct l as [|z l].
  - injection Em as <-. cbn. rewrite E. reflexivity.
  - rewrite last_opt_cons_cons in Em. rewrite Em, last_opt_cons_cons, Em. reflexivity.
Qed.

(** The last element of the sorted list is the greatest element. *)
Lemma last_sort_by (l : list D) :
  last_opt (sort_by cmp l) = fold_right (fun d m => Some (max_by cmp d m)) None l.
Proof.
  induction l as [|x l IH]; simpl; [reflexivity|].
  rewrite last_insert_by by apply sort_by_sorted. rewrite IH. reflexivity.
Qed.
End InsertionSortProofs.

(** ** Underscore's comparator *)

Section SortByProofs.
Context {A : Type}.

(** The comparator is the lexicographic order on (key, position). *)
Lemma sortBy_cmp_lex (l r : decorated A) :
  sortBy_cmp l r =
  match String.compare (criteria l) (criteria r) with
  | Eq => Nat.compare (index l) (index r)
  | c => c
  end.
Proof.
  unfold sortBy_cmp, js_gt, js_lt.
  destruct (String.compare (criteria l) (criteria r)) eqn:E.
  - apply String.compare_eq_iff in E. rewrite E, String.eqb_refl. reflexivity.
  - rewrite (String.compare_antisym (criteria r)), E. simpl.
    destruct (String.eqb_spec (criteria l) (criteria r)) as [Heq|]; [|reflexivity].
    rewrite Heq, string_compare_refl in E. discriminate.
  - rewrite (String.compare_antisym (criteria r)), E. simpl.
    destruct (String.eqb_spec (criteria l) (criteria r)) as [Heq|]; [|reflexivity].
    rewrite Heq, string_compare_refl in E. discriminate.
Qed.

Lemma sortBy_cmp_antisym (l r : decorated A) : sortBy_cmp l r = CompOpp (sortBy_cmp r l).
Proof.
  rewrite !sortBy_cmp_lex, (String.compare_antisym (criteria l)).
  destruct (String.compare (criteria r) (criteria l)); simpl; auto.
  apply Nat.compare_antisym.
Qed.

Lemma sortBy_le_iff (l r : decorated A) :
  le_by sortBy_cmp l r <->
  js_lt (criteria l) (criteria r) = true \/
  (criteria l = criteria r /\ index l <= index r).
Proof.
  unfold le_by, js_lt. rewrite sortBy_cmp_lex.
  destruct (String.compare (criteria l) (criteria r)) eqn:E.
  - apply String.compare_eq_iff in E. rewrite Nat.compare_gt_iff.
    split; [intros H; right; split; [exact E|lia]|intros [H|[_ H]]; [discriminate|lia]].
  - intuition discriminate.
  - split; [congruence|]. intros [H|[H _]]; [discriminate|].
    rewrite H, string_compare_refl in E. discriminate.
Qed.

Lemma sortBy_le_trans (a b c : decorated A) :
  le_by sortBy_cmp a b -> le_by sortBy_cmp b c -> le_by sortBy_cmp a c.
Proof.
  rewrite !sortBy_le_iff.
  intros [H1|[H1 H1']] [H2|[H2 H2']]; [left; eapply js_lt_trans; eauto| | |].
  - left. rewrite <- H2. exact H1.
  - left. rewrite H1. exact H2.
  - right. split; [congruence|lia].
Qed.
Lemma max_decorate (key : A -> string) (l : list A) (i : nat) :
  match fold_right (fun d m => Some (max_by sortBy_cmp d m)) None (decorate i key l) with
  | None => l = []
  | Some m => criteria m = key (value m) /\ i <= index m /\ latest_ref key l = Some (value m)
  end.
Proof.
  revert i. induction l as [|x l IH]; intros i; simpl; [reflexivity|].
  specialize (IH (S i)).
  destruct (fold_right _ None (decorate (S i) key l)) as [m|]; simpl.
  - destruct IH as (Hc & Hi & ->). rewrite sortBy_cmp_lex. simpl. rewrite Hc.
    unfold js_lt. rewrite (String.compare_antisym (key (value m))).
    destruct (String.compare (key x) (key (value m))) eqn:E; simpl.
    + replace (i ?= index m)%nat with Lt by (symmetry; apply Nat.compare_lt_iff; lia).
      repeat split; auto; lia.
    + repeat split; auto; lia.
    + repeat split; auto.
  - subst l. simpl. auto.
Qed.

Lemma decorate_values (key : A -> string) (l : list A) (i : nat) :
  map value (decorate i key l) = l.
Proof. revert i. induction l as [|x l IH]; intros i; simpl; f_equal; auto. Qed.

Lemma decorate_criteria (key : A -> string) (l : list A) (i : nat) :
  Forall (fun d => criteria d = key (value d)) (decorate i key l).
Proof. revert i. induction l as [|x l IH]; intros i; simpl; constructor; auto. Qed.
End SortByProofs.

(** The 'latest' selection of [filterRelease]: [_.last] of [_.sortBy] on
    a key is the last element, in the input order, among those with the
    greatest key (JavaScript's [<] on strings). *)
Theorem sortBy_last {A : Type} (key : A -> string) (l : list A) :
  last_opt (sortBy key l) = latest_ref key l.
Proof.
  unfold sortBy. rewrite last_opt_map.
  rewrite (last_sort_by sortBy_cmp sortBy_cmp_antisym sortBy_le_trans).
  pose proof (max_decorate key l 0) as H.
  destruct (fold_right _ None _) as [m|]; simpl.
  - destruct H as (_ & _ & ->). reflexivity.
  - subst l. reflexivity.
Qed.

Lemma latest_ref_None {A : Type} (key : A -> string) (l : list A) :
  latest_ref key l = None <-> l = [].
Proof.
  destruct l as [|x l]; simpl; [tauto|].
  split; [|discriminate]. destruct (latest_ref key l); [destruct (_ <js _)|]; discriminate.
Qed.

(** What [latest_ref] selects: an element [x] with no greater key before
    it and only smaller keys after it. *)
Lemma latest_ref_spec {A : Type} (key : A -> string) (l : list A) (x : A) :
  latest_ref key l = Some x ->
  exists l1 l2, l = l1 ++ x :: l2 /\
    Forall (fun y => (key x <js key y) = false) l1 /\
    Forall (fun y => (key y <js key x) = true) l2.
Proof.
  revert x. induction l as [|x0 l IH]; intros x H; simpl in H; [discriminate|].
  destruct (latest_ref key l) as [y|] eqn:Ey.
  - destruct (IH y eq_refl) as (l1 & l2 & -> & H1 & H2).
    destruct (key y <js key x0) eqn:Eyx; injection H as <-.
    + exists [], (l1 ++ y :: l2). split; [reflexivity|split; [constructor|]].
      apply Forall_app. split; [|constructor; [exact Eyx|]].
      * eapply Forall_impl; [|exact H1]. intros z Hz. cbv beta in Hz |- *. eapply js_le_lt_trans; eauto.
      * eapply Forall_impl; [|exact H2]. intros z Hz. cbv beta in Hz |- *. eapply js_lt_trans; eauto.
    + exists (x0 :: l1), l2. split; [reflexivity|split; [constructor; assumption|exact H2]].
  - apply latest_ref_None in Ey. subst l. injection H as <-.
    exists [], []. auto.
Qed.

(** Two lists sorted by a transitive relation that is antisymmetric on
    their elements, and permutations of each other, are equal. *)
Lemma StronglySorted_perm_unique {D : Type} (R : D -> D -> Prop) (l1 l2 : list D) :
  (forall a b, In a l1 -> In b l1 -> R a b -> R b a -> a = b) ->
  StronglySorted R l1 -> StronglySorted R l2 -> Permutation l1 l2 -> l1 = l2.
Proof.
  revert l2. induction l1 as [|a l1 IH]; intros l2 Hanti H1 H2 Hp.
  - symmetry. apply Permutation_nil, Hp.
  - destruct l2 as [|b l2]; [apply Permutation_sym, Permutation_nil in Hp; discriminate|].
    inversion H1 as [|? ? H1' Ha]; inversion H2 as [|? ? H2' Hb]; subst.
    assert (Eab : a = b).
    { destruct (Permutation_in a Hp (or_introl eq_refl)) as [<-|Ha2]; [reflexivity|].
      destruct (Permutation_in b (Permutation_sym Hp) (or_introl eq_refl)) as [->|Hb1];
        [reflexivity|].
      apply Hanti; simpl; auto.
      - eapply Forall_forall; eauto.
      - eapply Forall_forall; eauto. }
    subst b. f_equal. apply IH; auto.
    + intros x y Hx Hy. apply Hanti; simpl; auto.
    + eapply Permutation_cons_inv; eauto.
Qed.

Lemma decorate_index_ge {A : Type} (key : A -> string) (l : list A) (i : nat) (d : decorated A) :
  In d (decorate i key l) -> i <= index d.
Proof.
  revert i. induction l as [|x l IH]; intros i Hd; simpl in Hd; [contradiction|].
  destruct Hd as [<-|Hd]; [simpl; lia|]. specialize (IH (S i) Hd). lia.
Qed.

(** The positions of a decorated list are distinct. *)
Lemma decorate_index_inj {A : Type} (key : A -> string) (l : list A) (i : nat)
    (a b : decorated A) :
  In a (decorate i key l) -> In b (decorate i key l) -> index a = index b -> a = b.
Proof.
  revert i. induction l as [|x l IH]; intros i Ha Hb Hi; simpl in Ha, Hb; [contradiction|].
  destruct Ha as [<-|Ha], Hb as [<-|Hb]; eauto;
    [apply decorate_index_ge in Hb|apply decorate_index_ge in Ha]; simpl in *; lia.
Qed.

(** The result of [_.sortBy] does not depend on the sort algorithm
    behind [Array.prototype.sort]: any permutation of the decorated input
    that is sorted by underscore's comparator gives the same array as the
    insertion sort of the model. *)
Lemma sortBy_any_sort {A : Type} (key : A -> string) (l : list A) (ds : list (decorated A)) :
  Permutation ds (decorate 0 key l) -> Sorted (le_by sortBy_cmp) ds ->
  map value ds = sortBy key l.
Proof.
  intros Hp Hs. unfold sortBy. f_equal.
  apply StronglySorted_perm_unique with (R := le_by sortBy_cmp).
  - intros a b Ha Hb Hab Hba. apply (decorate_index_inj key l 0); eauto using Permutation_in.
    apply sortBy_le_iff in Hab, Hba.
    destruct Hab as [H1|[H1 H1']], Hba as [H2|[H2 H2']]; try lia;
      [rewrite (js_lt_asym _ _ H1) in H2 | rewrite H2, js_lt_irrefl in H1
      | rewrite H1, js_lt_irrefl in H2]; discriminate.
  - apply Sorted_StronglySorted; [exact sortBy_le_trans|exact Hs].
  - apply Sorted_StronglySorted; [exact sortBy_le_trans|].
    apply sort_by_sorted, sortBy_cmp_antisym.
  - rewrite Hp. symmetry. apply sort_by_perm.
Qed.
