(* ===== verification/Normalize.v ===== *)
(** * ReleaseNormalizer: GitHub release records to the API's schema

    v2.js lines 202-257.  [githubDataToAdoptApi] maps every GitHub release
    with [githubReleaseToAdoptRelease] and keeps the releases that have a
    binary; [githubReleaseToAdoptRelease] drops the assets whose name ends
    in [sha256.txt], parses the others with [formBinaryAssetInfo] and drops
    the [null]s.  The records are the JSON objects of the code: the GitHub
    fields ([tag_name], [published_at], [assets], [name],
    [browser_download_url], [size]) and the API's fields ([release_name],
    [timestamp], [binaries], [os], [architecture], ...).  The binary's
    fields [os], [binaryType], [openjdk_impl] and [version] shadow those of
    [FileInfo.fileInfo], which are written with their module here. *)

From Stdlib Require Import String Ascii List Bool Arith NArith Lia.
From S2P Require Import Prelude JsString Regex FileInfo.
Import ListNotations.
Local Open Scope string_scope.
Local Open Scope jdk_scope.

(** ** The records *)

Record ghAsset := mkAsset {
  name : string;
  browser_download_url : string;
  size : N
}.

Record ghRelease := mkGhRelease {
  tag_name : string;
  published_at : string;
  assets : list ghAsset
}.

Record binary := mkBinary {
  os : string;
  architecture : string;
  binaryType : string;
  openjdk_impl : string;
  binary_name : string;
  binary_link : string;
  binary_size : N;
  checksum_link : string;
  version : string
}.

Record release := mkRelease {
  release_name : string;
  timestamp : string;
  binaries : list binary
}.

(** ** The operations *)

(** [formBinaryAssetInfo] (lines 202-228). *)
Definition formBinaryAssetInfo (asset : ghAsset) (rel : ghRelease) : option binary :=
  match parseFileInfo (name asset) (tag_name rel) with
  | None => None
  | Some fileInfo =>
      Some {| os := toLowerCase (FileInfo.os fileInfo);
              architecture := toLowerCase (arch fileInfo);
              binaryType := FileInfo.binaryType fileInfo;
              openjdk_impl := toLowerCase (FileInfo.openjdk_impl fileInfo);
              binary_name := name asset;
              binary_link := browser_download_url asset;
              binary_size := size asset;
              checksum_link := browser_download_url asset ++ ".sha256.txt";
              version := FileInfo.version fileInfo |}
  end.

(** The asset filter of line 233. *)
Definition notChecksum (asset : ghAsset) : bool := negb (endsWith (name asset) "sha256.txt").

(** [githubReleaseToAdoptRelease] (lines 230-248). *)
Definition githubReleaseToAdoptRelease (rel : ghRelease) : release :=
  let bins := cat_options (map (fun asset => formBinaryAssetInfo asset rel)
                               (filter notChecksum (assets rel))) in
  {| release_name := tag_name rel; timestamp := published_at rel; binaries := bins |}.

(** [release.binaries.length > 0] (lines 13 and 254). *)
Definition hasBinaries (r : release) : bool := (0 <? length (binaries r))%nat.

(** [githubDataToAdoptApi] (lines 250-257). *)
Definition githubDataToAdoptApi (githubApiData : list ghRelease) : list release :=
  filter hasBinaries (map githubReleaseToAdoptRelease githubApiData).

(** ** The invariant of the API's data *)

(** A release of the API's data has a binary. *)
Definition release_ok (r : release) : Prop := binaries r <> [].

Lemma hasBinaries_ok (r : release) : hasBinaries r = true <-> release_ok r.
Proof.
  unfold hasBinaries, release_ok. rewrite Nat.ltb_lt.
  destruct (binaries r); simpl; split; intros H; try congruence; try lia.
Qed.

#[export] Hint Resolve -> hasBinaries_ok : jdk.

(** C12: every release [githubDataToAdoptApi] outputs has at least one
    binary: releases reduced to zero binaries are dropped. *)
Theorem githubDataToAdoptApi_ok (data : list ghRelease) :
  Forall release_ok (githubDataToAdoptApi data).
Proof. apply Forall_filter_intro. intros r. apply hasBinaries_ok. Qed.

(** The binaries of a normalised release are the parses of its assets
    that are not checksum files. *)
Lemma binaries_spec (rel : ghRelease) (b : binary) :
  In b (binaries (githubReleaseToAdoptRelease rel)) <->
  exists asset, In asset (assets rel) /\ notChecksum asset = true /\
                formBinaryAssetInfo asset rel = Some b.
Proof.
  simpl. rewrite cat_options_In, in_map_iff.
  split; [intros (a & Ha & Hin); apply filter_In in Hin as [Hin Hn]; eauto|].
  intros (a & Hin & Hn & Ha). exists a. rewrite filter_In. auto.
Qed.

Lemma formBinaryAssetInfo_fields (asset : ghAsset) (rel : ghRelease) (b : binary) :
  formBinaryAssetInfo asset rel = Some b ->
  exists fi, parseFileInfo (name asset) (tag_name rel) = Some fi /\
    b = {| os := toLowerCase (FileInfo.os fi); architecture := toLowerCase (arch fi);
           binaryType := FileInfo.binaryType fi;
           openjdk_impl := toLowerCase (FileInfo.openjdk_impl fi);
           binary_name := name asset; binary_link := browser_download_url asset;
           binary_size := size asset;
           checksum_link := browser_download_url asset ++ ".sha256.txt";
           version := FileInfo.version fi |}.
Proof.
  unfold formBinaryAssetInfo. destruct (parseFileInfo _ _) as [fi|]; [|discriminate].
  intros [= <-]. eauto.
Qed.

(** C14: no checksum file becomes a binary of the API's data. *)
Theorem githubDataToAdoptApi_no_checksum (data : list ghRelease) (r : release) (b : binary) :
  In r (githubDataToAdoptApi data) -> In b (binaries r) ->
  endsWith (binary_name b) "sha256.txt" = false.
Proof.
  unfold githubDataToAdoptApi. rewrite filter_In, in_map_iff.
  intros [[rel [<- _]] _] Hb. apply binaries_spec in Hb as (a & _ & Hn & Ha).
  apply formBinaryAssetInfo_fields in Ha as (fi & _ & ->). simpl.
  unfold notChecksum in Hn. apply negb_true_iff in Hn. exact Hn.
Qed.

Lemma toLowerCase_nonempty (s : string) : s <> "" -> toLowerCase s <> "".
Proof. destruct s; simpl; congruence. Qed.

(** C13: each binary of a normalised release is built from one parse: OS,
    architecture and implementation are lower case and not empty, the kind
    is [jdk] or [jre], the version is not empty, name, link and size are
    the asset's and the checksum link is the link with [.sha256.txt]
    appended. *)
Theorem binary_normalised (rel : ghRelease) (b : binary) :
  In b (binaries (githubReleaseToAdoptRelease rel)) ->
  exists asset, In asset (assets rel) /\
    binary_name b = name asset /\ binary_link b = browser_download_url asset /\
    binary_size b = size asset /\
    checksum_link b = binary_link b ++ ".sha256.txt" /\
    toLowerCase (os b) = os b /\ os b <> "" /\
    toLowerCase (architecture b) = architecture b /\ architecture b <> "" /\
    toLowerCase (openjdk_impl b) = openjdk_impl b /\ openjdk_impl b <> "" /\
    (binaryType b = "jre" \/ binaryType b = "jdk") /\ version b <> "".
Proof.
  intros Hb. apply binaries_spec in Hb as (a & Hin & _ & Ha).
  apply formBinaryAssetInfo_fields in Ha as (fi & Hfi & ->).
  assert (Hw : wellFormedInfo fi).
  { unfold parseFileInfo in Hfi.
    destruct (getNewStyleFileInfo _) eqn:E1; [injection Hfi as <-; eapply newStyle_sound; eauto|].
    destruct (getOldStyleFileInfo _) eqn:E2; [injection Hfi as <-; eapply oldStyle_sound; eauto|].
    eapply amberStyle_sound; eauto. }
  destruct Hw as ([Hv _] & Hk & [Ha _] & [Ho _] & [Hi _] & _ & _).
  exists a. simpl. rewrite !toLowerCase_idem.
  repeat split; auto using toLowerCase_nonempty.
Qed.

Lemma formBinaryAssetInfo_None (asset : ghAsset) (rel : ghRelease) :
  formBinaryAssetInfo asset rel = None <-> parseFileInfo (name asset) (tag_name rel) = None.
Proof. unfold formBinaryAssetInfo. destruct (parseFileInfo _ _); split; congruence. Qed.

(** A normalised release keeps a binary exactly when one of its assets is
    not a checksum file and parses. *)
Lemma githubReleaseToAdoptRelease_ok (rel : ghRelease) :
  release_ok (githubReleaseToAdoptRelease rel) <->
  Exists (fun a => notChecksum a = true /\ parseFileInfo (name a) (tag_name rel) <> None)
         (assets rel).
Proof.
  unfold release_ok. rewrite Exists_exists. split.
  - intros H. destruct (binaries (githubReleaseToAdoptRelease rel)) as [|b bs] eqn:E;
      [congruence|].
    assert (Hb : In b (binaries (githubReleaseToAdoptRelease rel))) by (rewrite E; left; auto).
    apply binaries_spec in Hb as (a & Hin & Hn & Ha). exists a.
    repeat split; auto. rewrite <- formBinaryAssetInfo_None. congruence.
  - intros (a & Hin & Hn & Hp) E.
    destruct (formBinaryAssetInfo a rel) as [b|] eqn:Ha;
      [|apply formBinaryAssetInfo_None in Ha; contradiction].
    assert (Hb : In b (binaries (githubReleaseToAdoptRelease rel)))
      by (apply binaries_spec; eauto).
    rewrite E in Hb. destruct Hb.
Qed.

(** C15: a GitHub release whose every asset is a checksum file or
    unparseable yields no release, and only such a release is dropped. *)
Theorem githubDataToAdoptApi_drop (rel : ghRelease) :
  githubDataToAdoptApi [rel] = [] <->
  Forall (fun a => notChecksum a = false \/ parseFileInfo (name a) (tag_name rel) = None)
         (assets rel).
Proof.
  unfold githubDataToAdoptApi. simpl.
  destruct (hasBinaries (githubReleaseToAdoptRelease rel)) eqn:E.
  - split; [discriminate|]. intros Hall. apply hasBinaries_ok, githubReleaseToAdoptRelease_ok in E.
    apply Exists_exists in E as (a & Hin & Hn & Hp). rewrite Forall_forall in Hall.
    destruct (Hall a Hin); congruence.
  - split; [intros _|reflexivity]. apply Forall_forall. intros a Hin.
    destruct (notChecksum a) eqn:Hn; [right|left; reflexivity].
    destruct (parseFileInfo (name a) (tag_name rel)) eqn:Hp; [|reflexivity].
    exfalso. assert (H : release_ok (githubReleaseToAdoptRelease rel)).
    { apply githubReleaseToAdoptRelease_ok, Exists_exists. exists a.
      rewrite Hp. repeat split; auto; discriminate. }
    apply hasBinaries_ok in H. congruence.
Qed.

(** Normalisation works release by release and keeps the upstream
    order: the output for a concatenation is the concatenation of the
    outputs. *)
Theorem githubDataToAdoptApi_app (d1 d2 : list ghRelease) :
  githubDataToAdoptApi (d1 ++ d2) = (githubDataToAdoptApi d1 ++ githubDataToAdoptApi d2)%list.
Proof. unfold githubDataToAdoptApi. rewrite map_app. apply filter_app. Qed.

(** Every binary of the API's data is a [jdk] or a [jre]: the kind comes
    from the parse, which gives only those two. *)
Lemma githubDataToAdoptApi_kinds (data : list ghRelease) :
  Forall (fun r => Forall (fun b => binaryType b = "jre" \/ binaryType b = "jdk") (binaries r))
         (githubDataToAdoptApi data).
Proof.
  apply Forall_forall. intros r Hr. apply Forall_forall. intros b Hb.
  unfold githubDataToAdoptApi in Hr. apply filter_In in Hr as [Hr _].
  apply in_map_iff in Hr as (rel & <- & _).
  apply binaries_spec in Hb as (asset & _ & _ & Hf).
  apply formBinaryAssetInfo_fields in Hf as (fi & Hp & ->). cbn [binaryType].
  unfold parseFileInfo in Hp.
  destruct (getNewStyleFileInfo _) eqn:E1; [injection Hp as <-; apply (newStyle_sound _ _ E1)|].
  destruct (getOldStyleFileInfo _) eqn:E2; [injection Hp as <-; apply (oldStyle_sound _ _ E2)|].
  apply (amberStyle_sound _ _ _ Hp).
Qed.

