(* ===== verification/Filter.v ===== *)
(** * QueryFilterChain: the filters of the query parameters

    v2.js lines 4-46 and 102-106.  [filterReleaseOnBinaryProperty] keeps,
    in each release, the binaries whose property equals the parameter up
    to case, then [filterReleaseBinaries] drops the releases left without
    a binary; an absent parameter ([undefined]) is a no-op.  The handler
    applies the filters for [openjdkImpl], [os], [arch] and [type] in this
    order, then [filterRelease] for [release], which returns a list, or for
    ['latest'] a single release or [undefined]: [filtered] keeps the three
    shapes apart.

    The code reassigns [release.binaries] in place (line 7).  Every release
    object is created by [githubDataToAdoptApi] for this request and the
    previous array is not read after [data] is reassigned, so the in-place
    update is observed only through the returned list, which is what the
    functional model returns; [FilterHeap] runs the filters on a heap of
    release objects and proves that they read back as these functions.  [binary[propertyName]] is [getProperty] on
    the four property names the handler passes. *)

From Stdlib Require Import String Ascii List Bool Arith Lia.
From S2P Require Import Prelude JsString Underscore Normalize.
Import ListNotations.
Local Open Scope jdk_scope.

(** ** The operations *)

(** The property names of lines 102-105. *)
Inductive binaryProperty := Prop_openjdk_impl | Prop_os | Prop_architecture | Prop_binaryType.

(** [binary[propertyName]]. *)
Definition getProperty (b : binary) (propertyName : binaryProperty) : string :=
  match propertyName with
  | Prop_openjdk_impl => openjdk_impl b
  | Prop_os => os b
  | Prop_architecture => architecture b
  | Prop_binaryType => binaryType b
  end.

(** [release.binaries = filter(release.binaries)], the release otherwise
    unchanged. *)
Definition withBinaries (r : release) (filterFunction : binary -> bool) : release :=
  {| release_name := release_name r; timestamp := timestamp r;
     binaries := filter filterFunction (binaries r) |}.

(** [filterReleaseBinaries] (lines 4-16). *)
Definition filterReleaseBinaries (releases : list release) (filterFunction : binary -> bool)
  : list release :=
  filter hasBinaries (map (fun r => withBinaries r filterFunction) releases).

(** The predicate of line 44, with the parameter already lower-cased. *)
Definition propertyIs (propertyName : binaryProperty) (property : string) (b : binary) : bool :=
  toLowerCase (getProperty b propertyName) ==js property.

(** [filterReleaseOnBinaryProperty] (lines 37-46). *)
Definition filterReleaseOnBinaryProperty (releases : list release)
    (propertyName : binaryProperty) (property : option string) : list release :=
  match property with
  | None => releases
  | Some p => filterReleaseBinaries releases (propertyIs propertyName (toLowerCase p))
  end.

(** What [filterRelease] returns: an array, one release object, or
    [undefined] ([_.last] of an empty array). *)
Inductive filtered :=
  | FList (l : list release)
  | FOne (r : release)
  | FUndefined.

(** [filterRelease] (lines 18-35). *)
Definition filterRelease (releases : list release) (releaseName : option string) : filtered :=
  match releaseName with
  | None => FList releases
  | Some n =>
      if n ==js "latest" then
        match last_opt (sortBy timestamp releases) with
        | Some r => FOne r
        | None => FUndefined
        end
      else FList (filter (fun r => toLowerCase (release_name r) ==js toLowerCase n) releases)
  end.

(** The query parameters of lines 92-96 ([req.query]). *)
Record query := mkQuery {
  openjdkImpl : option string;
  q_os : option string;
  arch : option string;
  q_release : option string;
  q_type : option string
}.

(** The four property filters of lines 102-105, in the code's order. *)
Definition propertyFilters (data : list release) (q : query) : list release :=
  let data := filterReleaseOnBinaryProperty data Prop_openjdk_impl (openjdkImpl q) in
  let data := filterReleaseOnBinaryProperty data Prop_os (q_os q) in
  let data := filterReleaseOnBinaryProperty data Prop_architecture (arch q) in
  filterReleaseOnBinaryProperty data Prop_binaryType (q_type q).

(** Lines 102-106. *)
Definition applyFilters (data : list release) (q : query) : filtered :=
  filterRelease (propertyFilters data q) (q_release q).

(** ** The abstract filter: one pass with the conjunction of the parameters *)

(** A binary satisfies an optional parameter: [undefined] accepts all. *)
Definition matchesParam (propertyName : binaryProperty) (property : option string)
    (b : binary) : bool :=
  match property with
  | None => true
  | Some p => propertyIs propertyName (toLowerCase p) b
  end.

Definition matchesQuery (q : query) (b : binary) : bool :=
  matchesParam Prop_openjdk_impl (openjdkImpl q) b && matchesParam Prop_os (q_os q) b &&
  matchesParam Prop_architecture (arch q) b && matchesParam Prop_binaryType (q_type q) b.

(** ** Lemmas on [filterReleaseBinaries] *)

Lemma filterReleaseBinaries_ok (rs : list release) (f : binary -> bool) :
  Forall release_ok (filterReleaseBinaries rs f).
Proof. apply Forall_filter_intro. intros r. apply hasBinaries_ok. Qed.

#[export] Hint Resolve filterReleaseBinaries_ok : jdk.

Lemma filterReleaseBinaries_In (rs : list release) (f : binary -> bool) (r' : release) :
  In r' (filterReleaseBinaries rs f) <->
  exists r, In r rs /\ r' = withBinaries r f /\ exists b, In b (binaries r) /\ f b = true.
Proof.
  unfold filterReleaseBinaries. rewrite filter_In, in_map_iff, hasBinaries_ok.
  unfold release_ok, withBinaries. split.
  - intros [(r & <- & Hin) Hne]. exists r. split; [exact Hin|split; [reflexivity|]].
    simpl in Hne. destruct (filter f (binaries r)) as [|b bs] eqn:E; [congruence|].
    exists b. apply filter_In. rewrite E. left. reflexivity.
  - intros (r & Hin & -> & b & Hb & Hf). split; [eauto|]. simpl.
    assert (Hb' : In b (filter f (binaries r))) by (apply filter_In; auto).
    destruct (filter f (binaries r)); [destruct Hb'|discriminate].
Qed.

Lemma filterReleaseBinaries_ext (rs : list release) (f g : binary -> bool) :
  (forall b, f b = g b) -> filterReleaseBinaries rs f = filterReleaseBinaries rs g.
Proof.
  intros H. unfold filterReleaseBinaries, withBinaries.
  f_equal. apply map_ext. intros r. f_equal. apply filter_ext. exact H.
Qed.

Lemma hasBinaries_withBinaries_and (r : release) (f g : binary -> bool) :
  hasBinaries (withBinaries r f) = false ->
  hasBinaries (withBinaries r (fun b => f b && g b)) = false.
Proof.
  unfold hasBinaries, withBinaries. simpl. rewrite <- filter_filter.
  destruct (filter f (binaries r)); simpl; [reflexivity|discriminate].
Qed.

(** Filtering twice is filtering once with the conjunction. *)
Lemma filterReleaseBinaries_compose (rs : list release) (f g : binary -> bool) :
  filterReleaseBinaries (filterReleaseBinaries rs f) g =
  filterReleaseBinaries rs (fun b => f b && g b).
Proof.
  induction rs as [|r rs IH]; [reflexivity|]. unfold filterReleaseBinaries in *. simpl.
  destruct (hasBinaries (withBinaries r f)) eqn:E; simpl.
  - replace (withBinaries (withBinaries r f) g) with (withBinaries r (fun b => f b && g b))
      by (unfold withBinaries; simpl; autorewrite with jdk_rw; reflexivity).
    destruct (hasBinaries (withBinaries r (fun b => f b && g b))); [f_equal|]; exact IH.
  - rewrite hasBinaries_withBinaries_and by exact E. exact IH.
Qed.

(** Filtering releases that all have a binary with a predicate that
    accepts everything changes nothing. *)
Lemma filterReleaseBinaries_true (rs : list release) :
  Forall release_ok rs -> filterReleaseBinaries rs (fun _ => true) = rs.
Proof.
  induction 1 as [|r rs Hr Hrs IH]; [reflexivity|]. unfold filterReleaseBinaries in *. simpl.
  replace (withBinaries r (fun _ => true)) with r
    by (destruct r; unfold withBinaries; simpl; f_equal; symmetry;
        apply filter_true_id, Forall_forall; auto).
  apply hasBinaries_ok in Hr. rewrite Hr, IH. reflexivity.
Qed.

Lemma filterReleaseOnBinaryProperty_as (rs : list release) (p : binaryProperty)
    (v : option string) :
  Forall release_ok rs ->
  filterReleaseOnBinaryProperty rs p v = filterReleaseBinaries rs (matchesParam p v).
Proof.
  intros H. destruct v as [v|]; simpl; [reflexivity|]. symmetry.
  apply filterReleaseBinaries_true, H.
Qed.

(** A property filter keeps the invariant that every release has a
    binary. *)
Lemma filterReleaseOnBinaryProperty_pres (rs : list release) (p : binaryProperty)
    (v : option string) :
  Forall release_ok rs -> Forall release_ok (filterReleaseOnBinaryProperty rs p v).
Proof. destruct v; simpl; auto with jdk. Qed.

#[export] Hint Resolve filterReleaseOnBinaryProperty_pres : jdk.

(** Every binary left by [filterReleaseBinaries] satisfies the predicate. *)
Lemma filterReleaseBinaries_sat (rs : list release) (f : binary -> bool) :
  Forall (fun r => Forall (fun b => f b = true) (binaries r)) (filterReleaseBinaries rs f).
Proof.
  apply Forall_forall. intros r' Hin. apply filterReleaseBinaries_In in Hin as (r & _ & -> & _).
  apply Forall_forall. intros b Hb. apply filter_In in Hb as [_ Hb]. exact Hb.
Qed.

(** ** Properties of the filter chain *)

Lemma propertyFilters_ok (data : list release) (q : query) :
  Forall release_ok data -> Forall release_ok (propertyFilters data q).
Proof. intros H. unfold propertyFilters. repeat apply filterReleaseOnBinaryProperty_pres. exact H. Qed.

(** C17: on data where every release has a binary (the output of
    [githubDataToAdoptApi]), the four property filters applied one after
    the other, each dropping the releases it empties, equal one pass that
    keeps the binaries satisfying every present parameter and drops the
    releases left empty. *)
Theorem propertyFilters_refines (data : list release) (q : query) :
  Forall release_ok data ->
  propertyFilters data q = filterReleaseBinaries data (matchesQuery q).
Proof.
  intros H. unfold propertyFilters.
  rewrite !filterReleaseOnBinaryProperty_as;
    auto with jdk.
  rewrite !filterReleaseBinaries_compose. apply filterReleaseBinaries_ext.
  intros b. unfold matchesQuery. rewrite !andb_assoc. reflexivity.
Qed.

Lemma propertyIs_spec (p : binaryProperty) (v : string) (b : binary) :
  propertyIs p (toLowerCase v) b = true <-> toLowerCase (getProperty b p) = toLowerCase v.
Proof. unfold propertyIs. apply String.eqb_eq. Qed.


(** C19: a present parameter is compared with the property without regard
    to case, binary by binary: a release stays, with the matching binaries
    only, exactly when one of its binaries matches, so a binary that does
    not match never removes a release that has one that does. *)
Theorem filterReleaseOnBinaryProperty_In (rs : list release) (p : binaryProperty)
    (v : string) (r' : release) :
  In r' (filterReleaseOnBinaryProperty rs p (Some v)) <->
  exists r, In r rs /\ r' = withBinaries r (propertyIs p (toLowerCase v)) /\
    exists b, In b (binaries r) /\ toLowerCase (getProperty b p) = toLowerCase v.
Proof.
  simpl. rewrite filterReleaseBinaries_In.
  split; intros (r & Hin & Hr & b & Hb & Hp); exists r; repeat split; auto;
    exists b; rewrite propertyIs_spec in *; auto.
Qed.

(** Re-applying a property filter that is already satisfied changes
    nothing. *)
Theorem filterReleaseOnBinaryProperty_idem (rs : list release) (p : binaryProperty)
    (v : option string) :
  filterReleaseOnBinaryProperty (filterReleaseOnBinaryProperty rs p v) p v =
  filterReleaseOnBinaryProperty rs p v.
Proof.
  destruct v as [v|]; simpl; [|reflexivity].
  rewrite filterReleaseBinaries_compose. apply filterReleaseBinaries_ext.
  intros b. apply andb_diag.
Qed.

(** On data where every release has a binary, the order of two
    property filters does not matter. *)
Theorem filterReleaseOnBinaryProperty_comm (rs : list release) (p1 p2 : binaryProperty)
    (v1 v2 : option string) :
  Forall release_ok rs ->
  filterReleaseOnBinaryProperty (filterReleaseOnBinaryProperty rs p1 v1) p2 v2 =
  filterReleaseOnBinaryProperty (filterReleaseOnBinaryProperty rs p2 v2) p1 v1.
Proof.
  intros H. rewrite !filterReleaseOnBinaryProperty_as;
    auto with jdk.
  rewrite !filterReleaseBinaries_compose. apply filterReleaseBinaries_ext.
  intros b. apply andb_comm.
Qed.

(** [release=latest] on a non-empty list selects the release the scan
    [latest_ref] selects. *)
Lemma filterRelease_latest_ref (rs : list release) (r : release) :
  filterRelease rs (Some "latest"%string) = FOne r -> latest_ref timestamp rs = Some r.
Proof.
  simpl. rewrite sortBy_last. destruct (latest_ref timestamp rs); [|discriminate].
  intros [= <-]. reflexivity.
Qed.

(** C20: [release=latest] selects, among the releases the property
    filters left, the one the linear scan [latest_ref] on the timestamps
    selects ([undefined] when none is left): a release with no later
    timestamp before it and only earlier timestamps after it, i.e. the
    last of those with the greatest timestamp. *)
Theorem filterRelease_latest (rs : list release) (r : release) :
  filterRelease rs (Some "latest"%string) = FOne r ->
  latest_ref timestamp rs = Some r /\
  exists l1 l2, rs = l1 ++ r :: l2 /\
    Forall (fun y => (timestamp r <js timestamp y) = false) l1 /\
    Forall (fun y => (timestamp y <js timestamp r) = true) l2.
Proof.
  intros H. apply filterRelease_latest_ref in H. split; [exact H|]. apply latest_ref_spec, H.
Qed.

Lemma filterRelease_latest_undefined (rs : list release) :
  filterRelease rs (Some "latest"%string) = FUndefined <-> rs = [].
Proof.
  simpl. rewrite sortBy_last, <- (latest_ref_None timestamp).
  destruct (latest_ref timestamp rs); split; congruence.
Qed.

(** Any other release name selects the releases of that name, compared
    without regard to case. *)
Lemma filterRelease_name (rs : list release) (n : string) :
  n <> "latest"%string ->
  filterRelease rs (Some n) =
  FList (filter (fun r => toLowerCase (release_name r) ==js toLowerCase n) rs).
Proof.
  intros Hn. simpl. destruct (String.eqb_spec n "latest"); [contradiction|reflexivity].
Qed.

(** ** The [type] parameter against the kinds of binary *)

(** A property filter keeps a property of every binary. *)
Lemma filterReleaseOnBinaryProperty_binaries (P : binary -> Prop) (rs : list release)
    (p : binaryProperty) (v : option string) :
  Forall (fun r => Forall P (binaries r)) rs ->
  Forall (fun r => Forall P (binaries r)) (filterReleaseOnBinaryProperty rs p v).
Proof.
  destruct v as [v|]; [|auto]. intros H. apply Forall_forall. intros r' Hin.
  apply filterReleaseBinaries_In in Hin as (r & Hr & -> & _).
  rewrite Forall_forall in H. specialize (H r Hr). rewrite Forall_forall in H |- *.
  intros b Hb. unfold withBinaries in Hb. apply filter_In in Hb as [Hb _]. auto.
Qed.

(** On binaries that are all [jdk] or [jre], a [type] parameter that is
    neither, without regard to case, leaves no release. *)
Lemma filterReleaseOnBinaryProperty_no_kind (rs : list release) (t : string) :
  Forall (fun r => Forall (fun b => binaryType b = "jre"%string \/ binaryType b = "jdk"%string) (binaries r)) rs ->
  toLowerCase t <> "jdk"%string -> toLowerCase t <> "jre"%string ->
  filterReleaseOnBinaryProperty rs Prop_binaryType (Some t) = [].
Proof.
  intros H Hjdk Hjre.
  destruct (filterReleaseOnBinaryProperty rs Prop_binaryType (Some t)) as [|r' l] eqn:E;
    [reflexivity|exfalso].
  assert (Hin : In r' (filterReleaseOnBinaryProperty rs Prop_binaryType (Some t)))
    by (rewrite E; left; reflexivity).
  cbn [filterReleaseOnBinaryProperty] in Hin.
  apply filterReleaseBinaries_In in Hin as (r & Hr & _ & b & Hb & Hp).
  apply propertyIs_spec in Hp. cbn [getProperty] in Hp.
  rewrite Forall_forall in H. specialize (H r Hr). rewrite Forall_forall in H.
  destruct (H b Hb) as [Hk|Hk]; rewrite Hk in Hp; [apply Hjre|apply Hjdk]; rewrite <- Hp; reflexivity.
Qed.

