(* ===== verification/FilterHeap.v ===== *)
(** * The in-place filters of v2.js, over a heap of release objects

    [filterReleaseBinaries] (v2.js lines 4-16) does not build new
    releases: its [.map] callback assigns [release.binaries] on the
    object the array refers to (line 7) and returns the same reference,
    and the [.filter] pass (lines 12-14) then reads the objects as they
    are after every assignment.  [filterReleaseOnBinaryProperty] (lines
    37-46) and the chain of lines 102-105 pass the same objects from one
    call to the next.

    Here the objects live in a heap, a stdpp [gmap] from locations to
    release records, and an array is a list of locations.  The functional
    model of [Filter] returns new records instead.
    [propertyFiltersH_refines] shows that the two agree: reading back the
    array the chain returns, in the heap it leaves, gives [propertyFilters]
    of what the input array read.  No hypothesis on aliasing is needed: an
    object that occurs several times in the array is filtered several
    times, and filtering twice with the same predicate is filtering once. *)

From stdpp Require Import gmap.
From Stdlib Require Import String List Bool Arith Lia.
From S2P Require Import Prelude JsString Normalize Filter.
Import ListNotations.
Local Open Scope jdk_scope.

(** ** The heap *)

(** A reference to a release object. *)
Abbreviation loc := nat.

(** The release objects of the request, by location. *)
Abbreviation heap := (gmap loc release).

(** An array of releases: the references it holds, in order. *)
Abbreviation arr := (list loc).

(** ** The operations *)

(** [release.binaries = _.chain(release.binaries).filter(f).value()]
    (lines 7-9) on the object at [l].  Every location of an array is
    allocated, so the case of a missing object does not arise. *)
Definition storeBinaries (h : heap) (l : loc) (f : binary -> bool) : heap :=
  match h !! l with
  | Some r => <[l := withBinaries r f]> h
  | None => h
  end.

(** The [.map] pass (lines 5-11): the callback runs on each element in
    order; the array of references is unchanged. *)
Fixpoint mapStore (h : heap) (a : arr) (f : binary -> bool) : heap :=
  match a with
  | [] => h
  | l :: a' => mapStore (storeBinaries h l f) a' f
  end.

(** The [.filter] pass (lines 12-14), reading the objects as the [.map]
    pass left them. *)
Definition keepNonEmpty (h : heap) (a : arr) : arr :=
  List.filter (fun l => match h !! l with Some r => hasBinaries r | None => false end) a.

(** [filterReleaseBinaries] (lines 4-16): the heap after the assignments
    and the array returned. *)
Definition filterReleaseBinariesH (h : heap) (a : arr) (f : binary -> bool) : heap * arr :=
  let h' := mapStore h a f in (h', keepNonEmpty h' a).

(** [filterReleaseOnBinaryProperty] (lines 37-46). *)
Definition filterReleaseOnBinaryPropertyH (h : heap) (a : arr) (propertyName : binaryProperty)
    (property : option string) : heap * arr :=
  match property with
  | None => (h, a)
  | Some p => filterReleaseBinariesH h a (propertyIs propertyName (toLowerCase p))
  end.

(** Lines 102-105: [data] is reassigned to each result in turn. *)
Definition propertyFiltersH (h : heap) (a : arr) (q : query) : heap * arr :=
  let '(h, a) := filterReleaseOnBinaryPropertyH h a Prop_openjdk_impl (openjdkImpl q) in
  let '(h, a) := filterReleaseOnBinaryPropertyH h a Prop_os (q_os q) in
  let '(h, a) := filterReleaseOnBinaryPropertyH h a Prop_architecture (arch q) in
  filterReleaseOnBinaryPropertyH h a Prop_binaryType (q_type q).

(** What an array holds, read in a heap: the records its references point
    to, or [None] for a dangling reference. *)
Fixpoint readArr (h : heap) (a : arr) : option (list release) :=
  match a with
  | [] => Some []
  | l :: a' =>
      match h !! l, readArr h a' with
      | Some r, Some rs => Some (r :: rs)
      | _, _ => None
      end
  end.

(** ** Filtering in place is filtering the values *)

Lemma filter_idem {A : Type} (f : A -> bool) (l : list A) :
  List.filter f (List.filter f l) = List.filter f l.
Proof. induction l as [|x l IH]; simpl; [reflexivity|]. destruct (f x) eqn:E; simpl; rewrite ?E, IH; reflexivity. Qed.

Lemma withBinaries_idem (r : release) (f : binary -> bool) :
  withBinaries (withBinaries r f) f = withBinaries r f.
Proof. unfold withBinaries. simpl. rewrite filter_idem. reflexivity. Qed.

Lemma storeBinaries_lookup (h : heap) (l l' : loc) (f : binary -> bool) :
  storeBinaries h l f !! l' =
  if decide (l = l') then option_map (fun r => withBinaries r f) (h !! l') else h !! l'.
Proof.
  unfold storeBinaries. destruct (decide (l = l')) as [<-|Hne].
  - destruct (h !! l) eqn:E; [rewrite lookup_insert_eq; reflexivity|rewrite E; reflexivity].
  - destruct (h !! l); [rewrite lookup_insert_ne by exact Hne|]; reflexivity.
Qed.

(** After the [.map] pass, every object the array refers to has been
    filtered, once or several times to the same effect; the others are
    untouched. *)
Lemma mapStore_lookup (h : heap) (a : arr) (f : binary -> bool) (l : loc) :
  mapStore h a f !! l =
  if decide (l ∈ a) then option_map (fun r => withBinaries r f) (h !! l) else h !! l.
Proof.
  revert h. induction a as [|l0 a IH]; intros h; cbn [mapStore].
  - destruct (decide (l ∈ [])) as [Hin|]; [set_solver|reflexivity].
  - rewrite IH, storeBinaries_lookup.
    destruct (decide (l0 = l)) as [<-|Hne].
    + rewrite (decide_True (P := l0 ∈ l0 :: a)) by set_solver.
      destruct (decide (l0 ∈ a)); destruct (h !! l0); simpl; rewrite ?withBinaries_idem; reflexivity.
    + destruct (decide (l ∈ a)) as [Hin|Hnin].
      * rewrite decide_True by set_solver. reflexivity.
      * rewrite decide_False by set_solver. reflexivity.
Qed.

Lemma readArr_mapStore (h : heap) (a a' : arr) (f : binary -> bool) (rs : list release) :
  (forall l, l ∈ a' -> l ∈ a) -> readArr h a' = Some rs ->
  readArr (mapStore h a f) a' = Some (map (fun r => withBinaries r f) rs).
Proof.
  revert rs. induction a' as [|l a' IH]; intros rs Hsub Hr; simpl in Hr |- *.
  - injection Hr as <-. reflexivity.
  - rewrite mapStore_lookup, decide_True by (apply Hsub; set_solver).
    destruct (h !! l) as [r|]; [|discriminate].
    destruct (readArr h a') as [rs'|] eqn:E; [|discriminate]. injection Hr as <-.
    rewrite (IH rs'); [reflexivity|intros l' Hl'; apply Hsub; set_solver|reflexivity].
Qed.

Lemma readArr_keepNonEmpty (h : heap) (a : arr) (rs : list release) :
  readArr h a = Some rs -> readArr h (keepNonEmpty h a) = Some (List.filter hasBinaries rs).
Proof.
  revert rs. induction a as [|l a IH]; intros rs Hr; simpl in Hr |- *.
  - injection Hr as <-. reflexivity.
  - destruct (h !! l) as [r|] eqn:El; [|discriminate].
    destruct (readArr h a) as [rs'|]; [|discriminate]. injection Hr as <-.
    simpl. destruct (hasBinaries r); simpl; rewrite ?El, (IH rs'); reflexivity.
Qed.

(** One call of [filterReleaseOnBinaryProperty] in place reads back as
    the functional one. *)
Lemma filterReleaseOnBinaryPropertyH_refines (h h' : heap) (a a' : arr)
    (propertyName : binaryProperty) (property : option string) (rs : list release) :
  filterReleaseOnBinaryPropertyH h a propertyName property = (h', a') ->
  readArr h a = Some rs ->
  readArr h' a' = Some (filterReleaseOnBinaryProperty rs propertyName property).
Proof.
  intros E Hr. destruct property as [p|]; simpl in E |- *; [|injection E as <- <-; exact Hr].
  unfold filterReleaseBinariesH in E. injection E as <- <-.
  apply readArr_keepNonEmpty, readArr_mapStore; [auto|exact Hr].
Qed.

(** C23: the four property filters of lines 102-105 mutate the release
    objects in place; reading back the array they return, in the heap
    they leave, gives the functional [propertyFilters] of what the input
    array read, even when the array holds the same object more than
    once. *)
Theorem propertyFiltersH_refines (h : heap) (a : arr) (q : query) (rs : list release) :
  readArr h a = Some rs ->
  readArr (fst (propertyFiltersH h a q)) (snd (propertyFiltersH h a q)) = Some (propertyFilters rs q).
Proof.
  intros Hr. unfold propertyFiltersH, propertyFilters.
  destruct (filterReleaseOnBinaryPropertyH h a _ _) as [h1 a1] eqn:E1.
  destruct (filterReleaseOnBinaryPropertyH h1 a1 _ _) as [h2 a2] eqn:E2.
  destruct (filterReleaseOnBinaryPropertyH h2 a2 _ _) as [h3 a3] eqn:E3.
  destruct (filterReleaseOnBinaryPropertyH h3 a3 _ _) as [h4 a4] eqn:E4. simpl.
  eapply filterReleaseOnBinaryPropertyH_refines; [exact E4|].
  eapply filterReleaseOnBinaryPropertyH_refines; [exact E3|].
  eapply filterReleaseOnBinaryPropertyH_refines; [exact E2|].
  eapply filterReleaseOnBinaryPropertyH_refines; [exact E1|exact Hr].
Qed.
