(* ===== verification/Express.v ===== *)
(** * The Express response object and JavaScript exceptions

    The handler of v2.js writes its answer through Express's [res]:
    [res.status(code)] sets the status, [res.send(body)] sends the body
    with the current status (200 by default), [res.redirect(url)] answers
    with a redirect; [console.log] writes a line.  A property read on
    [undefined] throws a [TypeError]; inside a promise's [.then] the
    exception goes to [.catch], and an exception thrown by [.catch] leaves
    the promise rejected with nothing sent.

    [resM] is a state-and-exception monad over [resState]: a computation
    returns the new state with either a value or the exception it throws.
    The body of a JSON answer keeps the value [JSON.stringify] serialises
    ([payload]); the text of the serialisation is not modelled. *)

From Stdlib Require Import String Ascii List Bool ZArith RelationClasses Morphisms RelationPairs.
From S2P Require Import Prelude JsString Normalize.
Import ListNotations.
Local Open Scope jdk_scope.

(** ** Responses *)

(** The values the code passes to [JSON.stringify]. *)
Inductive payload :=
  | PReleases (l : list release)
  | PRelease (r : release)
  | PBinaries (l : list binary).

(** The argument of [res.send]: a literal text, a serialised value, or a
    text followed by a serialised value; and the bodies Express produces
    itself: a rendered view ([res.render(view, locals)]) and a static
    file. *)
Inductive body :=
  | BText (s : string)
  | BJson (p : payload)
  | BPrefixJson (prefix : string) (p : payload)
  | BRender (view : string) (markdownFile : string)
  | BFile (path : string).

(** What has been sent on the connection. *)
Inductive sent :=
  | SentBody (status : Z) (b : body)
  | SentRedirect (url : string).

(** The rejection values the code sees: the cache's errors (an object with
    a truthy [err], an object with [response.statusCode], or anything
    else), the [TypeError] of a property read on [undefined], and the
    errors Express's own middleware passes to [next(err)] (neither has
    [err] nor [response]). *)
Inductive cacheError :=
  | CacheInternal
  | CacheStatus (statusCode : Z)
  | CacheOther.

Inductive jsError :=
  | ErrCache (e : cacheError)
  | TypeError (what : string)
  | LibError (what : string).

Inductive logLine :=
  | LogText (s : string)
  | LogError (e : jsError).

Record resState := mkRes {
  statusCode : Z;
  headers : list (string * string);
  sentResponse : option sent;
  logged : list logLine
}.

(** A fresh [res]: status 200, no header, nothing sent. *)
Definition res0 : resState :=
  {| statusCode := 200; headers := []; sentResponse := None; logged := [] |}.

(** ** The monad *)

Definition resM (A : Type) : Type := resState -> resState * (A + jsError).

Definition ret {A : Type} (x : A) : resM A := fun st => (st, inl x).

Definition bind {A B : Type} (m : resM A) (k : A -> resM B) : resM B :=
  fun st => match m st with
            | (st', inl x) => k x st'
            | (st', inr e) => (st', inr e)
            end.

Definition throw {A : Type} (e : jsError) : resM A := fun st => (st, inr e).

(** [promise.catch(handler)]: the handler runs on the state the failing
    computation left. *)
Definition catch {A : Type} (m : resM A) (handler : jsError -> resM A) : resM A :=
  fun st => match m st with
            | (st', inl x) => (st', inl x)
            | (st', inr e) => handler e st'
            end.

Notation "x <- m ;; k" := (bind m (fun x => k))
  (at level 100, m at next level, k at level 200, right associativity) : jdk_scope.
Notation "m ;; k" := (bind m (fun _ => k))
  (at level 100, k at level 200, right associativity) : jdk_scope.

(** [res.status(code)]. *)
Definition status (code : Z) : resM unit :=
  fun st => ({| statusCode := code; headers := headers st; sentResponse := sentResponse st;
                logged := logged st |}, inl tt).

(** [res.setHeader(name, value)] (Express's [res.header]): the new value
    replaces an earlier one of the same name. *)
Definition setHeader (name value : string) : resM unit :=
  fun st => ({| statusCode := statusCode st;
                headers := (name, value) :: List.filter (fun h => negb (String.eqb (fst h) name))
                                                        (headers st);
                sentResponse := sentResponse st; logged := logged st |}, inl tt).

(** [res.send(body)]: sent with the current status. *)
Definition send (b : body) : resM unit :=
  fun st => ({| statusCode := statusCode st; headers := headers st;
                sentResponse := Some (SentBody (statusCode st) b); logged := logged st |}, inl tt).

(** [res.redirect(url)]. *)
Definition redirect (url : string) : resM unit :=
  fun st => ({| statusCode := 302; headers := headers st; sentResponse := Some (SentRedirect url);
                logged := logged st |}, inl tt).

(** [console.log(line)]. *)
Definition log (line : logLine) : resM unit :=
  fun st => ({| statusCode := statusCode st; headers := headers st; sentResponse := sentResponse st;
                logged := logged st ++ [line] |}, inl tt).

(** [res.status(code); res.send(text)], the code's way to answer an error. *)
Definition sendStatus (code : Z) (text : string) : resM unit :=
  status code ;; send (BText text).

(** ** Reasoning about runs *)

(** What a run sent, whatever it logged. *)
Definition sentOf {A : Type} (r : resState * (A + jsError)) : option sent :=
  sentResponse (fst r).

(** Whether a run ended by throwing. *)
Definition threw {A : Type} (r : resState * (A + jsError)) : bool :=
  match snd r with inl _ => false | inr _ => true end.

(** [res.get(name)]: the value of the header [name] on the response. *)
Definition headerOf (name : string) (st : resState) : option string :=
  option_map snd (List.find (fun h => String.eqb (fst h) name) (headers st)).

(** ** Framing: what a computation does not look at *)

(** Two response states that agree on the status and on what was sent:
    the headers and the log are not read by the code's computations. *)
Definition res_equiv (st1 st2 : resState) : Prop :=
  statusCode st1 = statusCode st2 /\ sentResponse st1 = sentResponse st2.

(** The relation on the results of runs: equivalent states, equal
    outcomes. *)
Definition run_equiv {A : Type} : Relation_Definitions.relation (resState * (A + jsError)) :=
  RelProd res_equiv eq.

(** A computation that leaves the headers alone. *)
Class KeepsHeaders {A : Type} (m : resM A) : Prop :=
  keeps_headers : forall st, headers (fst (m st)) = headers st.

#[export] Instance res_equiv_equiv : Equivalence res_equiv.
Proof.
  split; [intros st; split; reflexivity|intros st1 st2 [H1 H2]; split; congruence|].
  intros st1 st2 st3 [H1 H2] [H3 H4]; split; congruence.
Qed.

#[export] Instance ret_proper {A : Type} (x : A) : Proper (res_equiv ==> run_equiv) (ret x).
Proof. intros st1 st2 H. split; [exact H|reflexivity]. Qed.

#[export] Instance throw_proper {A : Type} (e : jsError) :
  Proper (res_equiv ==> run_equiv) (@throw A e).
Proof. intros st1 st2 H. split; [exact H|reflexivity]. Qed.

#[export] Instance status_proper (c : Z) : Proper (res_equiv ==> run_equiv) (status c).
Proof. intros st1 st2 [H1 H2]. split; [split; simpl; auto|reflexivity]. Qed.

#[export] Instance send_proper (b : body) : Proper (res_equiv ==> run_equiv) (send b).
Proof. intros st1 st2 [H1 H2]. split; [split; simpl; congruence|reflexivity]. Qed.

#[export] Instance redirect_proper (u : string) : Proper (res_equiv ==> run_equiv) (redirect u).
Proof. intros st1 st2 [H1 H2]. split; [split; simpl; auto|reflexivity]. Qed.

#[export] Instance log_proper (l : logLine) : Proper (res_equiv ==> run_equiv) (log l).
Proof. intros st1 st2 [H1 H2]. split; [split; simpl; auto|reflexivity]. Qed.

#[export] Instance setHeader_proper (h v : string) :
  Proper (res_equiv ==> run_equiv) (setHeader h v).
Proof. intros st1 st2 [H1 H2]. split; [split; simpl; auto|reflexivity]. Qed.

#[export] Instance bind_proper {A B : Type} (m : resM A) (k : A -> resM B) :
  Proper (res_equiv ==> run_equiv) m -> (forall x, Proper (res_equiv ==> run_equiv) (k x)) ->
  Proper (res_equiv ==> run_equiv) (bind m k).
Proof.
  intros Hm Hk st1 st2 H. unfold bind.
  destruct (Hm st1 st2 H) as [He Hv]. unfold RelCompFun in *; simpl in *.
  destruct (m st1) as [s1 [x|e]], (m st2) as [s2 [y|e']]; simpl in *; try discriminate.
  - injection Hv as <-. apply Hk, He.
  - injection Hv as <-. split; [exact He|reflexivity].
Qed.

#[export] Instance catch_proper {A : Type} (m : resM A) (h : jsError -> resM A) :
  Proper (res_equiv ==> run_equiv) m -> (forall e, Proper (res_equiv ==> run_equiv) (h e)) ->
  Proper (res_equiv ==> run_equiv) (catch m h).
Proof.
  intros Hm Hh st1 st2 H. unfold catch.
  destruct (Hm st1 st2 H) as [He Hv]. unfold RelCompFun in *; simpl in *.
  destruct (m st1) as [s1 [x|e]], (m st2) as [s2 [y|e']]; simpl in *; try discriminate.
  - injection Hv as <-. split; [exact He|reflexivity].
  - injection Hv as <-. apply Hh, He.
Qed.

#[export] Instance ret_keeps {A : Type} (x : A) : KeepsHeaders (ret x).
Proof. intros st. reflexivity. Qed.

#[export] Instance throw_keeps {A : Type} (e : jsError) : KeepsHeaders (@throw A e).
Proof. intros st. reflexivity. Qed.

#[export] Instance status_keeps (c : Z) : KeepsHeaders (status c).
Proof. intros st. reflexivity. Qed.

#[export] Instance send_keeps (b : body) : KeepsHeaders (send b).
Proof. intros st. reflexivity. Qed.

#[export] Instance redirect_keeps (u : string) : KeepsHeaders (redirect u).
Proof. intros st. reflexivity. Qed.

#[export] Instance log_keeps (l : logLine) : KeepsHeaders (log l).
Proof. intros st. reflexivity. Qed.

#[export] Instance bind_keeps {A B : Type} (m : resM A) (k : A -> resM B) :
  KeepsHeaders m -> (forall x, KeepsHeaders (k x)) -> KeepsHeaders (bind m k).
Proof.
  intros Hm Hk st. unfold bind. rewrite <- (Hm st).
  destruct (m st) as [s [x|e]]; [apply Hk|reflexivity].
Qed.

#[export] Instance catch_keeps {A : Type} (m : resM A) (h : jsError -> resM A) :
  KeepsHeaders m -> (forall e, KeepsHeaders (h e)) -> KeepsHeaders (catch m h).
Proof.
  intros Hm Hh st. unfold catch. rewrite <- (Hm st).
  destruct (m st) as [s [x|e]]; [reflexivity|apply Hh].
Qed.

(** Two equivalent states give the same answer to a computation that
    respects the equivalence. *)
Lemma run_equiv_sent {A : Type} (m : resM A) `{!Proper (res_equiv ==> run_equiv) m}
    (st1 st2 : resState) :
  res_equiv st1 st2 -> sentOf (m st1) = sentOf (m st2).
Proof. intros H. destruct (Proper0 st1 st2 H) as [[_ Hs] _]. exact Hs. Qed.
