(* ===== verification/ExpressApp.v ===== *)
(** * The Express application: layers and the router's walk

    [src/server.js] builds an Express application by registering layers
    in order: [app.use(fn)] mounts a middleware on every path,
    [app.get(paths, fn)] a route for [GET] (and [HEAD]) on the given
    paths, and a function of four arguments is an error handler.  Express
    (router/index.js, [next]) walks the stack with an index: a layer that
    does not match the request, a route while an error is pending, a
    middleware of three arguments while an error is pending, and an error
    handler while none is, are skipped ([Layer.handle_request] and
    [Layer.handle_error]).  A layer calls [next()], [next(err)] or answers;
    an exception it throws synchronously is passed to [next(err)].  When
    the index runs past the stack, [finalhandler] answers 404
    [Cannot GET /path], or 500 when an error is pending.

    Paths are compared as Express compiles them ([path-to-regexp] with
    [strict] and [caseSensitive] off): without regard to case, and with an
    optional trailing slash.  The walk is written with the router's index
    and a fuel argument; [next_total] shows that fuel one more than the
    length of the stack always suffices. *)

From Stdlib Require Import String Ascii List Bool Arith ZArith Lia.
From S2P Require Import Prelude JsString Express.
Import ListNotations.
Local Open Scope string_scope.
Local Open Scope jdk_scope.

(** ** Requests and layers *)

(** The part of Express's [req] the server's layers read: the method, the
    path of the URL ([req.path]) and the client address ([req.ip]). *)
Record srequest := mkSReq {
  method : string;
  path : string;
  ip : string
}.

(** How a layer ends: [next()], [next(err)], or an answer. *)
Inductive signal :=
  | SNext
  | SNextErr (e : jsError)
  | SDone.

(** A handler of three arguments [(req, res, next)] or an error handler
    of four [(err, req, res, next)]. *)
Inductive layerFn :=
  | Middleware (f : srequest -> resM signal)
  | ErrorMiddleware (f : jsError -> srequest -> resM signal).

(** Where a layer is mounted: [app.use] (every path), [app.get] on a list
    of paths, or a route of the routes module with its own matcher. *)
Inductive mount :=
  | MountAll
  | MountGet (paths : list string)
  | MountRoute (matches : srequest -> bool).

Record layer := mkLayer {
  l_mount : mount;
  l_fn : layerFn
}.

(** ** Matching *)

(** A path of [app.get] against [req.path]: case-insensitive, with an
    optional trailing slash unless the route ends with one. *)
Definition path_is (route p : string) : bool :=
  let r := toLowerCase route in
  let q := toLowerCase p in
  (q ==js r) || (negb (endsWith r "/") && (q ==js r ++ "/")).

(** A [GET] route also handles [HEAD]. *)
Definition handles_get (req : srequest) : bool :=
  (method req ==js "GET") || (method req ==js "HEAD").

Definition layer_matches (l : layer) (req : srequest) : bool :=
  match l_mount l with
  | MountAll => true
  | MountGet ps => handles_get req && existsb (fun r => path_is r (path req)) ps
  | MountRoute m => m req
  end.

Definition is_route (l : layer) : bool :=
  match l_mount l with MountAll => false | _ => true end.

(** The call a matching layer makes, or [None] when it is skipped: a route
    while an error is pending, a three-argument function on an error, a
    four-argument one without. *)
Definition layer_call (l : layer) (err : option jsError) (req : srequest) : option (resM signal) :=
  match err, l_fn l with
  | None, Middleware f => Some (f req)
  | Some e, ErrorMiddleware f => if is_route l then None else Some (f e req)
  | _, _ => None
  end.

(** [finalhandler]: nothing matched, or an error no handler took. *)
Definition finalhandler (err : option jsError) (req : srequest) : resM unit :=
  match err with
  | None => sendStatus 404 ("Cannot " ++ method req ++ " " ++ path req)
  | Some _ => sendStatus 500 "Internal Server Error"
  end.

(** ** The router's walk *)

(** The result of a walk on a response state; [None] when the fuel ran
    out before the walk ended. *)
Definition walk := resState -> option (resState * (unit + jsError)).

(** [next(err)] at index [idx]: [stack[idx++]], skip it or call it; a
    synchronous exception becomes [next(err)]. *)
Fixpoint next (fuel : nat) (stack : list layer) (idx : nat) (err : option jsError)
    (req : srequest) : walk :=
  fun st =>
    match fuel with
    | O => None
    | S fuel' =>
        match nth_error stack idx with
        | None => Some (finalhandler err req st)
        | Some l =>
            match (if layer_matches l req then layer_call l err req else None) with
            | None => next fuel' stack (S idx) err req st
            | Some m =>
                match catch m (fun e => ret (SNextErr e)) st with
                | (st', inl SNext) => next fuel' stack (S idx) None req st'
                | (st', inl (SNextErr e)) => next fuel' stack (S idx) (Some e) req st'
                | (st', inl SDone) => Some (st', inl tt)
                | (st', inr e) => Some (st', inr e)
                end
            end
        end
    end.

(** [app.handle(req, res)]: the walk from the first layer, with one step
    per layer and one for [finalhandler]. *)
Definition handle (stack : list layer) (req : srequest) : walk :=
  next (S (length stack)) stack 0 None req.

(** ** Termination *)

(** The walk ends once the fuel exceeds the number of layers left. *)
Lemma next_total (fuel : nat) (stack : list layer) (idx : nat) (err : option jsError)
    (req : srequest) (st : resState) :
  length stack - idx < fuel -> next fuel stack idx err req st <> None.
Proof.
  revert idx err st. induction fuel as [|fuel IH]; intros idx err st Hf; [lia|]. simpl.
  destruct (nth_error stack idx) as [l|] eqn:E; [|discriminate].
  assert (Hlt : idx < length stack) by (apply nth_error_Some; congruence).
  assert (Hf' : length stack - S idx < fuel) by lia.
  destruct (if layer_matches l req then layer_call l err req else None) as [m|]; [|auto].
  destruct (catch m _ st) as [st' [[| |]|e]]; auto; discriminate.
Qed.

(** More fuel does not change a walk that ended. *)
Lemma next_more_fuel (fuel : nat) (stack : list layer) (idx : nat) (err : option jsError)
    (req : srequest) (st : resState) r :
  next fuel stack idx err req st = Some r -> next (S fuel) stack idx err req st = Some r.
Proof.
  revert idx err st. induction fuel as [|fuel IH]; intros idx err st H; [discriminate|].
  cbn [next] in H |- *.
  destruct (nth_error stack idx); [|exact H].
  destruct (if layer_matches _ req then _ else None) as [m|]; [|apply IH, H].
  destruct (catch m _ st) as [st' [[| |]|e]]; first [apply IH, H | exact H].
Qed.

(** ** One step of the walk *)

Section Steps.
Variables (fuel : nat) (stack : list layer) (idx : nat) (err : option jsError)
  (req : srequest) (st : resState) (l : layer).
Hypothesis Hl : nth_error stack idx = Some l.

Lemma next_skip :
  (if layer_matches l req then layer_call l err req else None) = None ->
  next (S fuel) stack idx err req st = next fuel stack (S idx) err req st.
Proof. intros H. simpl. rewrite Hl, H. reflexivity. Qed.

Lemma next_call (m : resM signal) :
  layer_matches l req = true -> layer_call l err req = Some m ->
  next (S fuel) stack idx err req st =
  match catch m (fun e => ret (SNextErr e)) st with
  | (st', inl SNext) => next fuel stack (S idx) None req st'
  | (st', inl (SNextErr e)) => next fuel stack (S idx) (Some e) req st'
  | (st', inl SDone) => Some (st', inl tt)
  | (st', inr e) => Some (st', inr e)
  end.
Proof. intros Hm Hc. simpl. rewrite Hl, Hm, Hc. reflexivity. Qed.

(** A called layer that does not throw: the walk goes on with its
    signal. *)
Lemma next_step (m : resM signal) (st' : resState) (s : signal) :
  layer_matches l req = true -> layer_call l err req = Some m -> m st = (st', inl s) ->
  next (S fuel) stack idx err req st =
  match s with
  | SNext => next fuel stack (S idx) None req st'
  | SNextErr e => next fuel stack (S idx) (Some e) req st'
  | SDone => Some (st', inl tt)
  end.
Proof.
  intros Hm Hc Hs. rewrite (next_call m Hm Hc). unfold catch. rewrite Hs. destruct s; reflexivity.
Qed.
End Steps.

(** Taking one layer of a concrete stack: [walk_step] when it is called
    ([Hm] shows that it matches, [Hs] what it does), [walk_skip] when it is
    not ([H]). *)
Ltac walk_step Hm Hs := erewrite next_step; [| reflexivity | Hm | reflexivity | Hs].
Ltac walk_skip H := erewrite next_skip; [| reflexivity | H].

Lemma next_end (fuel : nat) (stack : list layer) (idx : nat) (err : option jsError)
    (req : srequest) (st : resState) :
  nth_error stack idx = None -> next (S fuel) stack idx err req st = Some (finalhandler err req st).
Proof. intros H. simpl. rewrite H. reflexivity. Qed.

(** A walk through layers that keep the headers keeps them. *)
Lemma next_keeps (fuel : nat) (stack : list layer) (idx : nat) (err : option jsError)
    (req : srequest) (st : resState) r :
  (forall l err' m, In l stack -> layer_call l err' req = Some m -> KeepsHeaders m) ->
  next fuel stack idx err req st = Some r -> headers (fst r) = headers st.
Proof.
  intros Hk. revert idx err st. induction fuel as [|fuel IH]; intros idx err st H; [discriminate|].
  simpl in H. destruct (nth_error stack idx) as [l|] eqn:E.
  - assert (Hin : In l stack) by (eapply nth_error_In; eauto).
    destruct (layer_matches l req); [|eauto].
    destruct (layer_call l err req) as [m|] eqn:Ec; [|eauto].
    assert (Hkm : KeepsHeaders (catch m (fun e => ret (SNextErr e))))
      by (apply catch_keeps; [eapply Hk; eauto|intros; apply ret_keeps]).
    pose proof (Hkm st) as Hh.
    destruct (catch m _ st) as [st' [[| |]|e]]; simpl in Hh;
      try (injection H as <-; exact Hh); rewrite <- Hh; eauto.
  - injection H as <-. destruct err; reflexivity.
Qed.

(** The router's walk ends: with the fuel [handle] gives it, one step
    per layer and one for [finalhandler], every request gets to the end of
    the walk. *)
Theorem handle_total (stack : list layer) (req : srequest) (st : resState) :
  handle stack req st <> None.
Proof. apply next_total. lia. Qed.
