(* ===== verification/RateLimit.v ===== *)
(** * express-rate-limit with its MemoryStore

    Lines 25-32 of [src/server.js] put [new RateLimit({windowMs: 1 hour,
    max: 600, delayMs: 0, message})] in front of every request.  The
    library (2.x, the version with the [delayMs] option) keeps a
    [MemoryStore]: a plain object [hits] from the client key ([req.ip]) to
    the number of requests seen, incremented on every request
    ([hits[key]++], or [1] for a new key) and emptied as a whole every
    [windowMs] by [setInterval(resetAll, windowMs)].  With the count
    [current] of the request it sets [X-RateLimit-Limit] and
    [X-RateLimit-Remaining] ([max(max - current, 0)]); when
    [max && current > max] it answers with [statusCode] (429) and the
    [message]; when [delayAfter && delayMs && current > delayAfter] it
    delays [next()]; otherwise it calls [next()].  The options the server
    does not give take the library's defaults ([delayAfter: 1],
    [statusCode: 429], [headers: true]).

    The store is a [gmap string Z]; the server's life is a sequence of
    events, a request from a client or a tick of the reset interval. *)

From stdpp Require Import gmap strings.
From Stdlib Require Import String ZArith List Lia DecimalString.
From S2P Require Import Prelude JsString Express ExpressApp.
Import ListNotations.
Local Open Scope string_scope.
Local Open Scope Z_scope.
Local Open Scope jdk_scope.

(** ** Options *)

Record limitOptions := mkLimitOptions {
  windowMs : Z;
  max : Z;
  delayAfter : Z;
  delayMs : Z;
  message : string;
  limitStatus : Z;
  sendHeaders : bool
}.

(** The options of lines 27-32, completed with the library's defaults. *)
Definition serverLimiter : limitOptions := {|
  windowMs := 60 * 60 * 1000;
  max := 600;
  delayAfter := 1;
  delayMs := 0;
  message := "You have exceeded your api usage, you are allowed 600 requests per hour";
  limitStatus := 429;
  sendHeaders := true |}.

(** ** The store *)

(** [MemoryStore.incr(key)]: the new count of [key]. *)
Definition incr (key : string) (hits : gmap string Z) : gmap string Z * Z :=
  let current := match hits !! key with Some n => n + 1 | None => 1 end in
  (<[key := current]> hits, current).

(** [hits[key]], [0] for a key never seen. *)
Definition hitsOf (hits : gmap string Z) (key : string) : Z :=
  match hits !! key with Some n => n | None => 0 end.

(** ** The middleware *)

Inductive verdict :=
  | Pass
  | Delay (ms : Z)
  | Limit.

(** The two tests of [rateLimit], in the library's order; a numeric
    option is true when it is not [0]. *)
Definition verdictOf (o : limitOptions) (current : Z) : verdict :=
  if negb (max o =? 0) && (max o <? current) then Limit
  else if negb (delayAfter o =? 0) && negb (delayMs o =? 0) && (delayAfter o <? current)
  then Delay ((current - delayAfter o) * delayMs o)
  else Pass.

(** [X-RateLimit-Remaining]. *)
Definition remaining (o : limitOptions) (current : Z) : Z := Z.max (max o - current) 0.

(** The middleware, once the store has counted the request: the headers,
    then the answer 429 or [next()] (after the delay, if any). *)
Definition rateLimit (o : limitOptions) (current : Z) (req : srequest) : resM signal :=
  (if sendHeaders o then
     setHeader "X-RateLimit-Limit" (z_to_string (max o)) ;;
     setHeader "X-RateLimit-Remaining" (z_to_string (remaining o current))
   else ret tt) ;;
  match verdictOf o current with
  | Limit => status (limitStatus o) ;; send (BText (message o)) ;; ret SDone
  | Delay _ | Pass => ret SNext
  end.

(** ** The server's life as a sequence of events *)

Inductive event :=
  | EvRequest (req : srequest)
  | EvReset.

(** One event on the store: a request is counted and judged; the interval
    empties the store. *)
Definition limiterStep (o : limitOptions) (hits : gmap string Z) (ev : event)
    : gmap string Z * option (string * verdict) :=
  match ev with
  | EvRequest req =>
      let '(hits', current) := incr (ip req) hits in
      (hits', Some (ip req, verdictOf o current))
  | EvReset => (∅, None)
  end.

(** The store after a sequence of events, and the verdicts in order. *)
Fixpoint limiterRun (o : limitOptions) (hits : gmap string Z) (evs : list event)
    : gmap string Z * list (string * verdict) :=
  match evs with
  | [] => (hits, [])
  | ev :: evs' =>
      let '(hits', v) := limiterStep o hits ev in
      let '(hits'', vs) := limiterRun o hits' evs' in
      (hits'', match v with Some x => x :: vs | None => vs end)
  end.

(** ** The reference: counting requests since the last reset *)

(** The requests of [key] after the last reset of [evs], starting from
    [n]. *)
Fixpoint sinceReset (key : string) (n : Z) (evs : list event) : Z :=
  match evs with
  | [] => n
  | EvRequest req :: evs' => sinceReset key (if String.eqb (ip req) key then n + 1 else n) evs'
  | EvReset :: evs' => sinceReset key 0 evs'
  end.

(** The requests of [key] in [evs]. *)
Fixpoint requestsOf (key : string) (evs : list event) : Z :=
  match evs with
  | [] => 0
  | EvRequest req :: evs' => (if String.eqb (ip req) key then 1 else 0) + requestsOf key evs'
  | EvReset :: evs' => requestsOf key evs'
  end.

(** The verdicts [Pass] given to [key]. *)
Definition passesOf (key : string) (vs : list (string * verdict)) : Z :=
  Z.of_nat (length (List.filter (fun x => String.eqb (fst x) key &&
                                  match snd x with Pass => true | _ => false end) vs)).

Definition no_reset (evs : list event) : Prop :=
  Forall (fun ev => match ev with EvReset => False | _ => True end) evs.

(** ** The store counts the requests of the current window *)

Lemma incr_current (key : string) (hits : gmap string Z) :
  snd (incr key hits) = hitsOf hits key + 1.
Proof. unfold incr, hitsOf. destruct (hits !! key); reflexivity. Qed.

Lemma incr_hitsOf (key key' : string) (hits : gmap string Z) :
  hitsOf (fst (incr key hits)) key' =
  if String.eqb key key' then hitsOf hits key + 1 else hitsOf hits key'.
Proof.
  unfold incr, hitsOf. simpl. destruct (String.eqb_spec key key') as [<-|Hne].
  - rewrite lookup_insert_eq. destruct (hits !! key); reflexivity.
  - rewrite lookup_insert_ne by exact Hne. reflexivity.
Qed.

Lemma hitsOf_empty (key : string) : hitsOf ∅ key = 0.
Proof. reflexivity. Qed.

Lemma limiterRun_cons (o : limitOptions) (hits : gmap string Z) (ev : event) (evs : list event) :
  limiterRun o hits (ev :: evs) =
  (fst (limiterRun o (fst (limiterStep o hits ev)) evs),
   match snd (limiterStep o hits ev) with
   | Some x => x :: snd (limiterRun o (fst (limiterStep o hits ev)) evs)
   | None => snd (limiterRun o (fst (limiterStep o hits ev)) evs)
   end).
Proof.
  simpl. destruct (limiterStep o hits ev) as [h v]. simpl. destruct (limiterRun o h evs). reflexivity.
Qed.

Lemma limiterStep_request (o : limitOptions) (hits : gmap string Z) (req : srequest) :
  limiterStep o hits (EvRequest req) =
  (fst (incr (ip req) hits), Some (ip req, verdictOf o (snd (incr (ip req) hits)))).
Proof. simpl. destruct (incr (ip req) hits). reflexivity. Qed.

(** The store after a run holds, for every client, the number of its
    requests since the last reset. *)
Lemma limiterRun_store (o : limitOptions) (hits : gmap string Z) (evs : list event) (key : string) :
  hitsOf (fst (limiterRun o hits evs)) key = sinceReset key (hitsOf hits key) evs.
Proof.
  revert hits. induction evs as [|[req|] evs IH]; intros hits; [reflexivity| |];
    rewrite limiterRun_cons; cbn [fst]; rewrite IH; [|reflexivity].
  rewrite limiterStep_request. cbn [fst sinceReset]. rewrite incr_hitsOf.
  destruct (String.eqb_spec (ip req) key) as [->|]; reflexivity.
Qed.

(** The count a request gets is one more than its client's count since
    the last reset. *)
Lemma limiterRun_next (o : limitOptions) (evs : list event) (req : srequest) :
  snd (incr (ip req) (fst (limiterRun o ∅ evs))) = sinceReset (ip req) 0 evs + 1.
Proof. rewrite incr_current, limiterRun_store. reflexivity. Qed.

(** With [delayMs: 0] the server's limiter never delays. *)
Lemma serverLimiter_verdict (current : Z) :
  verdictOf serverLimiter current = if 600 <? current then Limit else Pass.
Proof. unfold verdictOf. simpl. destruct (600 <? current); reflexivity. Qed.

Lemma passesOf_cons (key k : string) (v : verdict) (vs : list (string * verdict)) :
  passesOf key ((k, v) :: vs) =
  (if String.eqb k key && match v with Pass => true | _ => false end then 1 else 0) +
  passesOf key vs.
Proof.
  unfold passesOf. simpl. destruct (String.eqb k key && _); simpl; lia.
Qed.

(** Within a window, the requests that pass are the first ones until the
    count reaches [max]. *)
Lemma limiterRun_passes (hits : gmap string Z) (evs : list event) (key : string) :
  no_reset evs ->
  passesOf key (snd (limiterRun serverLimiter hits evs)) =
  Z.min (hitsOf hits key + requestsOf key evs) 600 - Z.min (hitsOf hits key) 600.
Proof.
  revert hits. induction evs as [|[req|] evs IH]; intros hits Hnr;
    [unfold passesOf; simpl; lia| |inversion Hnr as [|? ? Hf _]; contradiction].
  inversion Hnr as [|? ? _ Hnr']; subst.
  rewrite limiterRun_cons, limiterStep_request. cbn [fst snd].
  rewrite passesOf_cons, IH by exact Hnr'.
  rewrite incr_hitsOf, incr_current, serverLimiter_verdict. simpl requestsOf.
  destruct (String.eqb_spec (ip req) key) as [->|Hne]; simpl.
  - destruct (600 <? hitsOf hits key + 1) eqn:Elt; simpl;
      [apply Z.ltb_lt in Elt|apply Z.ltb_ge in Elt]; lia.
  - destruct (600 <? hitsOf hits (ip req) + 1); simpl; lia.
Qed.

Lemma sinceReset_no_reset (key : string) (n : Z) (evs : list event) :
  no_reset evs -> sinceReset key n evs = n + requestsOf key evs.
Proof.
  revert n. induction evs as [|[req|] evs IH]; intros n Hnr; simpl; [lia| |].
  - inversion Hnr as [|? ? _ Hnr']. rewrite IH by exact Hnr'.
    destruct (String.eqb (ip req) key); lia.
  - inversion Hnr as [|? ? Hf _]. contradiction.
Qed.

Lemma sinceReset_app (key : string) (n : Z) (evs evs' : list event) :
  sinceReset key n (evs ++ evs') = sinceReset key (sinceReset key n evs) evs'.
Proof. revert n. induction evs as [|[req|] evs IH]; intros n; simpl; auto. Qed.

(** The verdict on the next request of a client, after any sequence of
    events from the start of the server. *)
Lemma limiterRun_verdict (evs : list event) (req : srequest) :
  snd (limiterStep serverLimiter (fst (limiterRun serverLimiter ∅ evs)) (EvRequest req)) =
  Some (ip req, if 600 <=? sinceReset (ip req) 0 evs then Limit else Pass).
Proof.
  rewrite limiterStep_request. cbn [snd]. rewrite limiterRun_next, serverLimiter_verdict.
  do 2 f_equal. destruct (Z.leb_spec 600 (sinceReset (ip req) 0 evs)).
  - replace (600 <? _ + 1) with true by (symmetry; apply Z.ltb_lt; lia). reflexivity.
  - replace (600 <? _ + 1) with false by (symmetry; apply Z.ltb_ge; lia). reflexivity.
Qed.

(** What the middleware does with the count of a request: the two headers
    first, then 429 with the message beyond [max], [next()] otherwise. *)
Lemma rateLimit_run (current : Z) (req : srequest) (st : resState) :
  rateLimit serverLimiter current req st =
  (let st1 := fst (setHeader "X-RateLimit-Remaining" (z_to_string (remaining serverLimiter current))
                  (fst (setHeader "X-RateLimit-Limit" "600" st))) in
   if 600 <? current then
     ({| statusCode := 429; headers := headers st1;
         sentResponse := Some (SentBody 429 (BText (message serverLimiter)));
         logged := logged st1 |}, inl SDone)
   else (st1, inl SNext)).
Proof.
  unfold rateLimit. rewrite serverLimiter_verdict. simpl.
  destruct (600 <? current); reflexivity.
Qed.

(** ** Properties of the server's limiter *)

(** C27: within one window (no reset), a client gets through the limiter
    with its first 600 requests and no more: the number of its requests
    that pass is the smaller of its number of requests and 600. *)
Theorem limiter_window_bound (evs : list event) (key : string) :
  no_reset evs ->
  passesOf key (snd (limiterRun serverLimiter ∅ evs)) = Z.min (requestsOf key evs) 600.
Proof. intros H. rewrite limiterRun_passes by exact H. rewrite hitsOf_empty. lia. Qed.

(** C28: whatever happened before, after the reset interval fires a client
    is served again: its request passes as long as it sent fewer than 600
    requests since the reset. *)
Theorem limiter_reset_serves (evs evs' : list event) (req : srequest) :
  no_reset evs' -> requestsOf (ip req) evs' < 600 ->
  snd (limiterStep serverLimiter (fst (limiterRun serverLimiter ∅ (evs ++ EvReset :: evs')))
         (EvRequest req)) = Some (ip req, Pass).
Proof.
  intros Hnr Hlt. rewrite limiterRun_verdict, sinceReset_app. simpl.
  rewrite sinceReset_no_reset by exact Hnr.
  replace (600 <=? 0 + requestsOf (ip req) evs') with false by (symmetry; apply Z.leb_gt; lia).
  reflexivity.
Qed.
