(* ===== verification/Respond.v ===== *)
(** * ResponseResolver and the route handler

    v2.js lines 48-128.  [sendData] answers the [info] requests,
    [redirectToBinary] the [binary] requests, and the exported handler
    reads the route and the query, asks the cache for the GitHub data,
    normalises and filters it, and answers, with the promise's [.catch]
    for the failures.  The cache ([./github_file_cache]) is not part of
    the repository: [ReleaseCache] is its interface as the specification
    states it, and the handler is proved against any instance. *)

From Stdlib Require Import String Ascii List Bool Arith ZArith Lia Morphisms.
From S2P Require Import Prelude JsString FileInfo Underscore Normalize Filter Express.
Import ListNotations.
Local Open Scope string_scope.
Local Open Scope jdk_scope.

(** ** The cache interface *)

(** What [cache.getInfoForVersion(version, buildtype)] settles to. *)
Inductive upstream :=
  | Resolved (data : list ghRelease)
  | Rejected (err : cacheError).

Class ReleaseCache := {
  getInfoForVersion : string -> string -> upstream
}.

(** The route parameters ([req.params]) and the query ([req.query]). *)
Record request := mkRequest {
  requestType : option string;
  buildtype : option string;
  r_version : option string;
  r_query : query
}.

(** ** The answers *)

(** [sendData] (lines 48-56).  On one release object, [data.length] is
    [undefined], which is not [0]; on [undefined], reading [length]
    throws. *)
Definition sendData (data : filtered) : resM unit :=
  match data with
  | FList l => if (length l =? 0)%nat then sendStatus 404 "Not found"
               else send (BJson (PReleases l))
  | FOne r => send (BJson (PRelease r))
  | FUndefined => throw (TypeError "Cannot read property 'length' of undefined")
  end.

(** Lines 72-78, once [data] is one release. *)
Definition redirectRelease (data : release) : resM unit :=
  if (1 <? length (binaries data))%nat then
    status 400 ;;
    send (BPrefixJson "Multiple binaries match request: " (PBinaries (binaries data)))
  else
    match binaries data with
    | b :: _ => log (LogText ("Redirecting to " ++ binary_link b)) ;; redirect (binary_link b)
    | [] => throw (TypeError "Cannot read property 'binary_link' of undefined")
    end.

(** [redirectToBinary] (lines 58-79): an array is reduced to its only
    element first; [data.constructor] throws on [undefined]. *)
Definition redirectToBinary (data : filtered) : resM unit :=
  match data with
  | FUndefined => throw (TypeError "Cannot read property 'constructor' of undefined")
  | FOne r => redirectRelease r
  | FList l =>
      match l with
      | [] => sendStatus 404 "Not found"
      | [r] => redirectRelease r
      | _ => status 400 ;;
             send (BPrefixJson "Multiple binaries match request: " (PReleases l))
      end
  end.

(** The [.then] callback (lines 99-116). *)
Definition onData (requestType : string) (q : query) (data : list ghRelease) : resM unit :=
  let result := applyFilters (githubDataToAdoptApi data) q in
  if requestType ==js "info" then sendData result
  else if requestType ==js "binary" then redirectToBinary result
  else sendStatus 404 "Not found".

(** The [.catch] callback (lines 117-127): [err.err] is truthy only for
    the cache's internal errors; [err.response.statusCode] throws when
    [err] has no [response]. *)
Definition onError (err : jsError) : resM unit :=
  log (LogError err) ;;
  match err with
  | ErrCache CacheInternal => sendStatus 500 "Internal error"
  | ErrCache (CacheStatus code) => sendStatus code ""
  | ErrCache CacheOther | TypeError _ | LibError _ =>
      throw (TypeError "Cannot read property 'statusCode' of undefined")
  end.

(** The exported handler (lines 81-128). *)
Definition v2Handler `{ReleaseCache} (req : request) : resM unit :=
  match requestType req, buildtype req, r_version req with
  | Some rt, Some bt, Some v =>
      match getInfoForVersion v bt with
      | Resolved data => catch (onData rt (r_query req) data) onError
      | Rejected e => onError (ErrCache e)
      end
  | _, _, _ => sendStatus 404 "Not found"
  end.

(** ** The abstract resolver of the specification *)

(** The outcome of a [binary] request, on the filtered releases as a list
    (a single release being a list of one). *)
Inductive resolution :=
  | RNotFound
  | RAmbiguous (p : payload)
  | RRedirect (url : string).

Definition resolveBinary (rs : list release) : resolution :=
  match rs with
  | [] => RNotFound
  | [r] => match binaries r with
           | [b] => RRedirect (binary_link b)
           | bs => RAmbiguous (PBinaries bs)
           end
  | _ => RAmbiguous (PReleases rs)
  end.

(** What goes on the connection for each outcome. *)
Definition sentOfResolution (x : resolution) : sent :=
  match x with
  | RNotFound => SentBody 404 (BText "Not found")
  | RAmbiguous p => SentBody 400 (BPrefixJson "Multiple binaries match request: " p)
  | RRedirect url => SentRedirect url
  end.

(** [filterRelease]'s result as a list; [undefined] has none. *)
Definition asList (data : filtered) : option (list release) :=
  match data with
  | FList l => Some l
  | FOne r => Some [r]
  | FUndefined => None
  end.

(** ** Framing

    The answers read neither the headers nor the log of [res], and set no
    header: the handler behaves the same on every response state with the
    same status and nothing sent. *)

#[export] Instance sendStatus_proper (c : Z) (t : string) :
  Proper (res_equiv ==> run_equiv) (sendStatus c t).
Proof. unfold sendStatus. typeclasses eauto. Qed.

#[export] Instance sendStatus_keeps (c : Z) (t : string) : KeepsHeaders (sendStatus c t).
Proof. unfold sendStatus. typeclasses eauto. Qed.

Ltac frame_cases :=
  repeat match goal with
         | |- context [if ?b then _ else _] => destruct b
         | |- context [match ?x with _ => _ end] => destruct x
         end; typeclasses eauto.

#[export] Instance sendData_proper (d : filtered) : Proper (res_equiv ==> run_equiv) (sendData d).
Proof. unfold sendData. frame_cases. Qed.

#[export] Instance sendData_keeps (d : filtered) : KeepsHeaders (sendData d).
Proof. unfold sendData. frame_cases. Qed.

#[export] Instance redirectRelease_proper (r : release) :
  Proper (res_equiv ==> run_equiv) (redirectRelease r).
Proof. unfold redirectRelease. frame_cases. Qed.

#[export] Instance redirectRelease_keeps (r : release) : KeepsHeaders (redirectRelease r).
Proof. unfold redirectRelease. frame_cases. Qed.

#[export] Instance redirectToBinary_proper (d : filtered) :
  Proper (res_equiv ==> run_equiv) (redirectToBinary d).
Proof. unfold redirectToBinary. frame_cases. Qed.

#[export] Instance redirectToBinary_keeps (d : filtered) : KeepsHeaders (redirectToBinary d).
Proof. unfold redirectToBinary. frame_cases. Qed.

#[export] Instance onData_proper (rt : string) (q : query) (data : list ghRelease) :
  Proper (res_equiv ==> run_equiv) (onData rt q data).
Proof. unfold onData. frame_cases. Qed.

#[export] Instance onData_keeps (rt : string) (q : query) (data : list ghRelease) :
  KeepsHeaders (onData rt q data).
Proof. unfold onData. frame_cases. Qed.

#[export] Instance onError_proper (e : jsError) : Proper (res_equiv ==> run_equiv) (onError e).
Proof. unfold onError. frame_cases. Qed.

#[export] Instance onError_keeps (e : jsError) : KeepsHeaders (onError e).
Proof. unfold onError. frame_cases. Qed.

#[export] Instance v2Handler_proper `{ReleaseCache} (req : request) :
  Proper (res_equiv ==> run_equiv) (v2Handler req).
Proof. unfold v2Handler. frame_cases. Qed.

#[export] Instance v2Handler_keeps `{ReleaseCache} (req : request) : KeepsHeaders (v2Handler req).
Proof. unfold v2Handler. frame_cases. Qed.

(** ** Lemmas *)

Lemma redirectRelease_ok (r : release) (st : resState) :
  release_ok r ->
  threw (redirectRelease r st) = false /\
  sentOf (redirectRelease r st) = Some (sentOfResolution (resolveBinary [r])).
Proof.
  unfold release_ok, redirectRelease. destruct (binaries r) as [|b [|b' bs]] eqn:E;
    [congruence| |]; intros _; simpl; rewrite E; auto.
Qed.

Lemma filterRelease_cases (rs : list release) (n : option string) :
  Forall release_ok rs ->
  match filterRelease rs n with
  | FList l => Forall release_ok l
  | FOne r => release_ok r
  | FUndefined => n = Some "latest" /\ rs = []
  end.
Proof.
  intros Hok. destruct n as [n|]; [|exact Hok].
  destruct (String.eqb_spec n "latest") as [->|Hn].
  - destruct (filterRelease rs (Some "latest")) as [l|r|] eqn:E.
    + simpl in E. destruct (last_opt _); discriminate.
    + apply filterRelease_latest_ref, latest_ref_spec in E as (l1 & l2 & -> & _).
      rewrite Forall_forall in Hok. apply Hok, in_or_app. right. left. reflexivity.
    + apply filterRelease_latest_undefined in E. auto.
  - rewrite filterRelease_name by exact Hn. apply Forall_filter_weaken, Hok.
Qed.

Lemma applyFilters_cases (data : list ghRelease) (q : query) :
  match applyFilters (githubDataToAdoptApi data) q with
  | FList l => Forall release_ok l
  | FOne r => release_ok r
  | FUndefined => q_release q = Some "latest" /\
                  propertyFilters (githubDataToAdoptApi data) q = []
  end.
Proof.
  apply filterRelease_cases, propertyFilters_ok, Forall_filter_intro.
  intros r. apply hasBinaries_ok.
Qed.

(** ** The resolver *)

(** In [binary] mode, on filtered data that is a list, or one release,
    whose releases all have a binary, [redirectToBinary] throws nothing
    and answers as the specification's resolver: no release gives 404
    [Not found], several releases give 400 with the releases, one release
    with several binaries gives 400 with its binaries, one release with
    one binary gives a redirect to that binary's link. *)
Theorem redirectToBinary_refines (data : filtered) (rs : list release) (st : resState) :
  asList data = Some rs -> Forall release_ok rs ->
  threw (redirectToBinary data st) = false /\
  sentOf (redirectToBinary data st) = Some (sentOfResolution (resolveBinary rs)).
Proof.
  destruct data as [l|r|]; simpl; intros E Hok; [injection E as <-|injection E as <-|discriminate].
  - destruct l as [|r [|r' l]]; simpl; auto.
    apply redirectRelease_ok. inversion Hok; assumption.
  - apply redirectRelease_ok. inversion Hok; assumption.
Qed.

(** ** The handler *)

Section Handler.
Context `{C : ReleaseCache}.

Lemma catch_ok (m : resM unit) (h : jsError -> resM unit) (st : resState) :
  threw (m st) = false -> catch m h st = m st.
Proof. unfold catch, threw. destruct (m st) as [st' [[]|e]]; simpl; congruence. Qed.

(** C1: a [binary] request whose data the cache returns is answered as
    the specification's resolver on the filtered releases, whenever
    [filterRelease] gives a list or one release. *)
Theorem handler_binary (bt v : string) (q : query) (data : list ghRelease)
    (rs : list release) :
  getInfoForVersion v bt = Resolved data ->
  asList (applyFilters (githubDataToAdoptApi data) q) = Some rs ->
  sentOf (v2Handler (mkRequest (Some "binary") (Some bt) (Some v) q) res0) =
  Some (sentOfResolution (resolveBinary rs)).
Proof.
  intros Hc Hl. unfold v2Handler. simpl. rewrite Hc.
  pose proof (applyFilters_cases data q) as Hok.
  assert (Hrs : Forall release_ok rs)
    by (destruct (applyFilters _ q); simpl in Hl; injection Hl as <- || discriminate Hl;
        auto).
  destruct (redirectToBinary_refines _ rs res0 Hl Hrs) as [Ht Hs].
  rewrite catch_ok; unfold onData; simpl; assumption.
Qed.

(** C2: an [info] request whose data the cache returns is answered
    with 404 [Not found] on an empty list, with the list, or with the
    single release object for ['latest'], in JSON with status 200; when
    ['latest'] finds no release, nothing is sent. *)
Theorem handler_info (bt v : string) (q : query) (data : list ghRelease) :
  getInfoForVersion v bt = Resolved data ->
  sentOf (v2Handler (mkRequest (Some "info") (Some bt) (Some v) q) res0) =
  match applyFilters (githubDataToAdoptApi data) q with
  | FList [] => Some (SentBody 404 (BText "Not found"))
  | FList l => Some (SentBody 200 (BJson (PReleases l)))
  | FOne r => Some (SentBody 200 (BJson (PRelease r)))
  | FUndefined => None
  end.
Proof.
  intros Hc. unfold v2Handler. simpl. rewrite Hc. unfold catch, onData. simpl.
  destruct (applyFilters _ q) as [[|r l]|r|]; reflexivity.
Qed.

(** C6: the query parameter [type] is compared with the binary's kind,
    which is always [jdk] or [jre]: an [info] request whose [type] is
    anything else, such as the specification's [type=info], is answered
    404 [Not found] whatever the cache returns, unless it also asks for
    [release=latest] (then nothing is sent, C3). *)
Theorem handler_type_not_kind (bt v : string) (q : query) (data : list ghRelease) (t : string) :
  getInfoForVersion v bt = Resolved data -> q_type q = Some t ->
  toLowerCase t <> "jdk" -> toLowerCase t <> "jre" -> q_release q <> Some "latest" ->
  sentOf (v2Handler (mkRequest (Some "info") (Some bt) (Some v) q) res0) =
  Some (SentBody 404 (BText "Not found")).
Proof.
  intros Hc Ht Hjdk Hjre Hl. unfold v2Handler. simpl. rewrite Hc. unfold catch, onData.
  unfold applyFilters, propertyFilters. rewrite Ht.
  rewrite filterReleaseOnBinaryProperty_no_kind by
    (auto; repeat apply filterReleaseOnBinaryProperty_binaries; apply githubDataToAdoptApi_kinds).
  destruct (q_release q) as [n|]; [|reflexivity]. cbn [filterRelease].
  destruct (n ==js "latest") eqn:E; [apply String.eqb_eq in E; congruence|reflexivity].
Qed.

(** C4: the failures of the cache: an internal error is answered with
    500 [Internal error], an HTTP failure with its own status and an
    empty body. *)
Theorem handler_upstream_errors (rt bt v : string) (q : query) :
  (getInfoForVersion v bt = Rejected CacheInternal ->
   sentOf (v2Handler (mkRequest (Some rt) (Some bt) (Some v) q) res0) =
   Some (SentBody 500 (BText "Internal error"))) /\
  (forall code, getInfoForVersion v bt = Rejected (CacheStatus code) ->
   sentOf (v2Handler (mkRequest (Some rt) (Some bt) (Some v) q) res0) =
   Some (SentBody code (BText ""))).
Proof.
  split; [|intros code]; intros Hc; unfold v2Handler; simpl; rewrite Hc; reflexivity.
Qed.

(** C5: A request without one of the route parameters [requestType],
    [buildtype] or [version] is answered with 404 [Not found], and the
    cache is not asked. *)
Lemma handler_missing_param (req : request) :
  requestType req = None \/ buildtype req = None \/ r_version req = None ->
  sentOf (v2Handler req res0) = Some (SentBody 404 (BText "Not found")).
Proof.
  intros H. unfold v2Handler.
  destruct (requestType req), (buildtype req), (r_version req);
    try reflexivity; intuition discriminate.
Qed.

Lemma applyFilters_undefined (data : list ghRelease) (q : query) :
  applyFilters (githubDataToAdoptApi data) q = FUndefined <->
  q_release q = Some "latest" /\ propertyFilters (githubDataToAdoptApi data) q = [].
Proof.
  pose proof (applyFilters_cases data q) as H.
  destruct (applyFilters _ q) eqn:E; [| |tauto]; split; try discriminate;
    intros [Hr Hp]; unfold applyFilters in E; rewrite Hr, Hp in E; discriminate.
Qed.

Lemma onData_silent (rt : string) (q : query) (data : list ghRelease) :
  sentOf (catch (onData rt q data) onError res0) = None <->
  (rt = "info" \/ rt = "binary") /\ applyFilters (githubDataToAdoptApi data) q = FUndefined.
Proof.
  pose proof (applyFilters_cases data q) as Hok. unfold onData.
  destruct (String.eqb_spec rt "info") as [->|Hi];
    [|destruct (String.eqb_spec rt "binary") as [->|Hb]].
  - unfold catch, sentOf. destruct (applyFilters _ q) as [[|r l]|r|]; simpl;
      split; intuition congruence.
  - destruct (applyFilters _ q) as [l|r|] eqn:E.
    + destruct (redirectToBinary_refines (FList l) l res0 eq_refl Hok) as [Ht Hs].
      rewrite catch_ok by exact Ht. rewrite Hs. split; [discriminate|intuition congruence].
    + destruct (redirectToBinary_refines (FOne r) [r] res0 eq_refl (Forall_cons _ Hok (Forall_nil _)))
        as [Ht Hs].
      rewrite catch_ok by exact Ht. rewrite Hs. split; [discriminate|intuition congruence].
    + unfold sentOf. simpl. split; auto.
  - unfold sentOf. simpl. split; [discriminate|intuition congruence].
Qed.

(** C3: the handler sends an answer to every request but two: a
    request for ['latest'] in [info] or [binary] mode when the property
    filters leave no release ([filterRelease] returns [undefined], the
    handler throws a [TypeError], and the [.catch] callback throws again
    on [err.response.statusCode]), and a cache failure that is neither an
    internal error nor an HTTP status. *)
Theorem handler_silent_iff (req : request) :
  sentOf (v2Handler req res0) = None <->
  exists rt bt v, requestType req = Some rt /\ buildtype req = Some bt /\
    r_version req = Some v /\
    ((exists data, getInfoForVersion v bt = Resolved data /\
       (rt = "info" \/ rt = "binary") /\ q_release (r_query req) = Some "latest" /\
       propertyFilters (githubDataToAdoptApi data) (r_query req) = []) \/
     getInfoForVersion v bt = Rejected CacheOther).
Proof.
  unfold v2Handler.
  destruct (requestType req) as [rt|], (buildtype req) as [bt|], (r_version req) as [v|];
    try (split; [discriminate|intros (? & ? & ? & ? & ? & ? & _); discriminate]).
  destruct (getInfoForVersion v bt) as [data|[| |]] eqn:Hc.
  - rewrite onData_silent, applyFilters_undefined. split.
    + intros H. exists rt, bt, v. repeat split; auto. left. exists data. tauto.
    + intros (? & ? & ? & [= <-] & [= <-] & [= <-] & [(d & Hd & H)|H]);
        [rewrite ?Hc in Hd; injection Hd as <-; tauto|rewrite ?Hc in H; discriminate].
  - split; [discriminate|]. intros (? & ? & ? & [= <-] & [= <-] & [= <-] & [(d & H & _)|H]);
      rewrite ?Hc in H; discriminate.
  - split; [discriminate|]. intros (? & ? & ? & [= <-] & [= <-] & [= <-] & [(d & H & _)|H]);
      rewrite ?Hc in H; discriminate.
  - unfold sentOf. simpl. split; [intros _|reflexivity]. exists rt, bt, v. repeat split; auto.
Qed.
End Handler.
