(* ===== verification/Query.v ===== *)
(** * The query as Express delivers it

    [req.query] (v2.js lines 91-95) comes from Express's query parser
    ([qs]).  A key given once is a string, a repeated key
    ([?os=linux&os=windows]) is an array, and a bracketed key
    ([?os[x]=y]) is an object; an array and an object behave alike here.
    The handler passes each value as it is to
    [filterReleaseOnBinaryProperty] (lines 101-104) and [filterRelease]
    (line 105).  [property.toLowerCase()] (line 41) throws a [TypeError]
    on an array, and so does [releaseName.toLowerCase()] (line 31) as
    soon as the filter callback runs on a release.

    [Respond] takes the parameters as strings.  [v2HandlerQ] is the
    handler on the values Express gives.  [handlerQ_strings] shows that
    it is [v2Handler] when every parameter is a string or absent.
    [handlerQ_array_silent] shows that a repeated property parameter
    leaves the request without an answer. *)

From Stdlib Require Import String List Bool Arith ZArith Lia Morphisms.
From S2P Require Import Prelude JsString Normalize Filter Express Respond.
Import ListNotations.
Local Open Scope string_scope.
Local Open Scope jdk_scope.

(** ** Query values *)

(** A value of [req.query]: a string, or an array for a repeated key. *)
Inductive qvalue :=
  | QString (s : string)
  | QArray (l : list string).

(** [req.query['openjdkImpl']], ['os'], ['arch'], ['release'], ['type']. *)
Record rawQuery := mkRawQuery {
  raw_openjdkImpl : option qvalue;
  raw_os : option qvalue;
  raw_arch : option qvalue;
  raw_release : option qvalue;
  raw_type : option qvalue
}.

(** [req.params] and [req.query] as Express gives them. *)
Record rawRequest := mkRawRequest {
  rq_requestType : option string;
  rq_buildtype : option string;
  rq_version : option string;
  rq_query : rawQuery
}.

(** ** The filters on such values *)

(** [filterReleaseOnBinaryProperty] (lines 37-46): [property.toLowerCase()]
    throws on an array. *)
Definition filterReleaseOnBinaryPropertyQ (releases : list release)
    (propertyName : binaryProperty) (property : option qvalue) : resM (list release) :=
  match property with
  | None => ret releases
  | Some (QString p) => ret (filterReleaseOnBinaryProperty releases propertyName (Some p))
  | Some (QArray _) => throw (TypeError "property.toLowerCase is not a function")
  end.

(** [filterRelease] (lines 18-35): an array is neither [undefined] nor
    ['latest'], and the filter callback calls [releaseName.toLowerCase()]
    on the first release it sees. *)
Definition filterReleaseQ (releases : list release) (releaseName : option qvalue) : resM filtered :=
  match releaseName with
  | None => ret (filterRelease releases None)
  | Some (QString n) => ret (filterRelease releases (Some n))
  | Some (QArray _) =>
      match releases with
      | [] => ret (FList [])
      | _ :: _ => throw (TypeError "releaseName.toLowerCase is not a function")
      end
  end.

(** Lines 100-105. *)
Definition applyFiltersQ (data : list release) (q : rawQuery) : resM filtered :=
  d1 <- filterReleaseOnBinaryPropertyQ data Prop_openjdk_impl (raw_openjdkImpl q) ;;
  d2 <- filterReleaseOnBinaryPropertyQ d1 Prop_os (raw_os q) ;;
  d3 <- filterReleaseOnBinaryPropertyQ d2 Prop_architecture (raw_arch q) ;;
  d4 <- filterReleaseOnBinaryPropertyQ d3 Prop_binaryType (raw_type q) ;;
  filterReleaseQ d4 (raw_release q).

(** The [.then] callback (lines 98-116): the request type is tested after
    the filters. *)
Definition onDataQ (requestType : string) (q : rawQuery) (data : list ghRelease) : resM unit :=
  result <- applyFiltersQ (githubDataToAdoptApi data) q ;;
  if requestType ==js "info" then sendData result
  else if requestType ==js "binary" then redirectToBinary result
  else sendStatus 404%Z "Not found".

(** The exported handler (lines 80-128) on the values Express gives. *)
Definition v2HandlerQ `{ReleaseCache} (req : rawRequest) : resM unit :=
  match rq_requestType req, rq_buildtype req, rq_version req with
  | Some rt, Some bt, Some v =>
      match getInfoForVersion v bt with
      | Resolved data => catch (onDataQ rt (rq_query req) data) onError
      | Rejected e => onError (ErrCache e)
      end
  | _, _, _ => sendStatus 404%Z "Not found"
  end.

(** ** Queries of strings *)

Definition qstring (v : option qvalue) : option (option string) :=
  match v with
  | None => Some None
  | Some (QString s) => Some (Some s)
  | Some (QArray _) => None
  end.

(** The query of [Respond], when every parameter is a string or absent. *)
Definition stringQuery (q : rawQuery) : option query :=
  match qstring (raw_openjdkImpl q), qstring (raw_os q), qstring (raw_arch q),
        qstring (raw_release q), qstring (raw_type q) with
  | Some i, Some o, Some a, Some r, Some t => Some (mkQuery i o a r t)
  | _, _, _, _, _ => None
  end.

(** One of the four property parameters is an array. *)
Definition hasArrayProperty (q : rawQuery) : bool :=
  let isArr v := match v with Some (QArray _) => true | _ => false end in
  isArr (raw_openjdkImpl q) || isArr (raw_os q) || isArr (raw_arch q) || isArr (raw_type q).

(** ** Framing

    Like the handler of [Respond], the handler on query values reads
    neither the headers nor the log, and sets no header. *)

#[export] Instance filterReleaseOnBinaryPropertyQ_proper (rs : list release) (p : binaryProperty)
    (v : option qvalue) : Proper (res_equiv ==> run_equiv) (filterReleaseOnBinaryPropertyQ rs p v).
Proof. unfold filterReleaseOnBinaryPropertyQ. frame_cases. Qed.

#[export] Instance filterReleaseOnBinaryPropertyQ_keeps (rs : list release) (p : binaryProperty)
    (v : option qvalue) : KeepsHeaders (filterReleaseOnBinaryPropertyQ rs p v).
Proof. unfold filterReleaseOnBinaryPropertyQ. frame_cases. Qed.

#[export] Instance filterReleaseQ_proper (rs : list release) (v : option qvalue) :
  Proper (res_equiv ==> run_equiv) (filterReleaseQ rs v).
Proof. unfold filterReleaseQ. frame_cases. Qed.

#[export] Instance filterReleaseQ_keeps (rs : list release) (v : option qvalue) :
  KeepsHeaders (filterReleaseQ rs v).
Proof. unfold filterReleaseQ. frame_cases. Qed.

#[export] Instance onDataQ_proper (rt : string) (q : rawQuery) (data : list ghRelease) :
  Proper (res_equiv ==> run_equiv) (onDataQ rt q data).
Proof. unfold onDataQ, applyFiltersQ. apply bind_proper; [typeclasses eauto|intros x; frame_cases]. Qed.

#[export] Instance onDataQ_keeps (rt : string) (q : rawQuery) (data : list ghRelease) :
  KeepsHeaders (onDataQ rt q data).
Proof. unfold onDataQ, applyFiltersQ. apply bind_keeps; [typeclasses eauto|intros x; frame_cases]. Qed.

#[export] Instance v2HandlerQ_proper `{ReleaseCache} (req : rawRequest) :
  Proper (res_equiv ==> run_equiv) (v2HandlerQ req).
Proof. unfold v2HandlerQ. frame_cases. Qed.

#[export] Instance v2HandlerQ_keeps `{ReleaseCache} (req : rawRequest) : KeepsHeaders (v2HandlerQ req).
Proof. unfold v2HandlerQ. frame_cases. Qed.

(** ** The filters on strings and on arrays *)

Lemma applyFiltersQ_strings (data : list release) (rq : rawQuery) (q : query) (st : resState) :
  stringQuery rq = Some q -> applyFiltersQ data rq st = (st, inl (applyFilters data q)).
Proof.
  destruct rq as [[[i|i]|] [[o|o]|] [[a|a]|] [[r|r]|] [[t|t]|]]; cbn;
    intros H; try discriminate H; injection H as <-; reflexivity.
Qed.

(** A property parameter that is an array throws before any filter
    runs, whatever the data. *)
Lemma applyFiltersQ_array (data : list release) (rq : rawQuery) (st : resState) :
  hasArrayProperty rq = true -> exists what, applyFiltersQ data rq st = (st, inr (TypeError what)).
Proof.
  destruct rq as [[[i|i]|] [[o|o]|] [[a|a]|] r [[t|t]|]]; cbn;
    intros H; try discriminate H; eexists; reflexivity.
Qed.

(** The run of the handler on a repeated property parameter: the
    [TypeError] is logged by [console.log(err)], nothing is sent, and the
    [.catch] callback rejects. *)
Lemma handlerQ_array_run `{ReleaseCache} (rt bt v : string) (rq : rawQuery)
    (data : list ghRelease) (st : resState) :
  getInfoForVersion v bt = Resolved data -> hasArrayProperty rq = true ->
  exists what,
    v2HandlerQ (mkRawRequest (Some rt) (Some bt) (Some v) rq) st =
    ({| statusCode := statusCode st; headers := headers st; sentResponse := sentResponse st;
        logged := logged st ++ [LogError (TypeError what)] |},
     inr (TypeError "Cannot read property 'statusCode' of undefined")).
Proof.
  intros Hc Ha. unfold v2HandlerQ. cbn [rq_requestType rq_buildtype rq_version rq_query].
  rewrite Hc. destruct (applyFiltersQ_array (githubDataToAdoptApi data) rq st Ha) as [w Hw].
  exists w. unfold catch, onDataQ, bind. rewrite Hw. reflexivity.
Qed.

(** On a query whose parameters are strings or absent, the handler on
    the values Express gives is the handler of [Respond]: the theorems
    about [v2Handler] hold of every such request. *)
Lemma handlerQ_strings `{ReleaseCache} (req : rawRequest) (q : query) (st : resState) :
  stringQuery (rq_query req) = Some q ->
  v2HandlerQ req st =
  v2Handler (mkRequest (rq_requestType req) (rq_buildtype req) (rq_version req) q) st.
Proof.
  intros Hq. unfold v2HandlerQ, v2Handler. cbn [requestType buildtype r_version r_query].
  destruct (rq_requestType req), (rq_buildtype req), (rq_version req); try reflexivity.
  destruct (getInfoForVersion _ _); [|reflexivity].
  unfold catch, onDataQ, onData, bind. rewrite (applyFiltersQ_strings _ _ _ st Hq). reflexivity.
Qed.

(** C21: a repeated property parameter ([?os=linux&os=windows]) makes
    [property.toLowerCase()] throw in the [.then] callback; the [.catch]
    callback throws again on [err.response.statusCode], so the request is
    never answered, whatever the request type and the data. *)
Theorem handlerQ_array_silent `{ReleaseCache} (rt bt v : string) (rq : rawQuery)
    (data : list ghRelease) (st : resState) :
  getInfoForVersion v bt = Resolved data -> hasArrayProperty rq = true ->
  sentOf (v2HandlerQ (mkRawRequest (Some rt) (Some bt) (Some v) rq) st) = sentResponse st /\
  threw (v2HandlerQ (mkRawRequest (Some rt) (Some bt) (Some v) rq) st) = true.
Proof.
  intros Hc Ha. destruct (handlerQ_array_run rt bt v rq data st Hc Ha) as [w ->].
  split; reflexivity.
Qed.
