(* ===== verification/Server.v ===== *)
(** * The server: [src/server.js]

    [server.js] starts an HTTPS server on port 1234 with the certificate
    files when [PRODUCTION] is set, an HTTP server on port 3000 otherwise
    (lines 8-23), and registers, in this order: the rate limiter (lines
    25-32, file [RateLimit]), the static files of [markdown-layouts]
    (lines 35-37), a middleware that sets [Access-Control-Allow-Origin: *]
    (lines 39-42), a redirect of [/README.v1.md] (line 44), the markdown
    pages [/], [/README] and [/README.v1] (lines 46-56), the routes module
    (line 59) and an error handler answering 500 (lines 62-65).

    The collaborators that are not in the repository are parameters: the
    files under [markdown-layouts] ([staticLookup]), markdown-serve's lookup
    of a page ([mdGet], [None] for its error), the mount of the v2 handler
    by the routes module ([matchV2]: the request's route parameters and
    [req.query], as Express parses it, when its path is the v2 route), and
    the release cache of [Respond].  The route runs [v2HandlerQ] of
    [Query].  The handler's promise settles after the router's walk has
    returned: its rejections are not passed to [next(err)], so the error
    handler never sees them.

    A request first increments the limiter's store ([incr], synchronous in
    MemoryStore), then walks the stack with the count it got. *)

From stdpp Require Import gmap strings.
From Stdlib Require Import String ZArith List Lia.
From S2P Require Import Prelude JsString Normalize Filter Express ExpressApp RateLimit Respond Query.
Import ListNotations.
Local Open Scope string_scope.
Local Open Scope jdk_scope.

(** ** Start-up (lines 8-23) *)

Inductive listener :=
  | HttpsListener (port : Z) (keyFile certFile : string)
  | HttpListener (port : Z).

(** [if (process.env.PRODUCTION)]: an environment variable is a string,
    true unless it is absent or empty. *)
Definition envTruthy (v : option string) : bool :=
  match v with Some s => negb (s ==js "") | None => false end.

Definition listenerFor (production : option string) : listener :=
  if envTruthy production
  then HttpsListener 1234 "/home/jenkins/sslcert/server.key" "/home/jenkins/sslcert/server.crt"
  else HttpListener 3000.

Definition listenerPort (l : listener) : Z :=
  match l with HttpsListener p _ _ => p | HttpListener p => p end.

(** The line logged once the server listens. *)
Definition liveMessage (l : listener) : string :=
  "We are live on port " ++ z_to_string (listenerPort l).

(** ** The layers *)

(** [path.resolve(__dirname, './markdown-layouts')]: the static files and
    the views (lines 35-37). *)
Definition layoutsDir : string := "./markdown-layouts".
Definition viewEngine : string := "pug".

(** What [serve-static] finds for a path under [markdown-layouts]: a
    file, nothing ([ENOENT]: with [fallthrough] on, the request goes on),
    or an error it passes to [next(err)] (a server-side failure such as
    [EACCES] or [EMFILE]). *)
Inductive staticResult :=
  | StaticHit
  | StaticMiss
  | StaticError (what : string).

(** [express.static(dir)]: only [GET] and [HEAD] are looked up. *)
Definition serveStatic (staticLookup : string -> staticResult) (req : srequest) : resM signal :=
  if handles_get req then
    match staticLookup (path req) with
    | StaticHit => status 200 ;; send (BFile (layoutsDir ++ path req)) ;; ret SDone
    | StaticMiss => ret SNext
    | StaticError what => ret (SNextErr (LibError what))
    end
  else ret SNext.

(** Lines 39-42. *)
Definition allowOrigin (req : srequest) : resM signal :=
  setHeader "Access-Control-Allow-Origin" "*" ;; ret SNext.

(** Line 44. *)
Definition readmeRedirect (req : srequest) : resM signal :=
  redirect "./README.v1" ;; ret SDone.

(** [mdServer.resolverOptions.defaultPageName = 'README'] (line 47): a
    directory path names its [README] page. *)
Definition mdResolve (p : string) : string :=
  if endsWith p "/" then p ++ "README" else p.

(** Lines 48-56: the page rendered in the [layout] view, or, on
    markdown-serve's error, [console.error(err)] and [next()]. *)
Definition markdownPage (mdGet : string -> option string) (req : srequest) : resM signal :=
  match mdGet (mdResolve (path req)) with
  | None => log (LogError (LibError "markdown-serve")) ;; ret SNext
  | Some result => send (BRender (layoutsDir ++ "/layout." ++ viewEngine) result) ;; ret SDone
  end.

Definition errorPage : string :=
  "Error - please try again or raise an issue at https://github.com/AdoptOpenJDK/openjdk-api/issues".

(** Lines 62-65. *)
Definition errorHandler (err : jsError) (req : srequest) : resM signal :=
  log (LogError err) ;; status 500 ;; send (BText errorPage) ;; ret SDone.

(** The v2 handler as the routes module mounts it (line 59): the layer
    returns once the handler has asked the cache; what the promise later
    sends is the handler's, and its rejection stays unhandled. *)
Definition v2Route `{ReleaseCache} (matchV2 : srequest -> option rawRequest) : layer :=
  mkLayer (MountRoute (fun req => match matchV2 req with Some _ => true | None => false end))
          (Middleware (fun req st =>
             match matchV2 req with
             | Some r => (fst (v2HandlerQ r st), inl SDone)
             | None => (st, inl SNext)
             end)).

Definition docPaths : list string := ["/"; "/README"; "/README.v1"].

(** The stack of lines 27-65, for a request the store counted
    [current] times. *)
Definition appStack `{ReleaseCache} (staticLookup : string -> staticResult)
    (mdGet : string -> option string) (matchV2 : srequest -> option rawRequest) (current : Z)
    : list layer :=
  [mkLayer MountAll (Middleware (rateLimit serverLimiter current));
   mkLayer MountAll (Middleware (serveStatic staticLookup));
   mkLayer MountAll (Middleware allowOrigin);
   mkLayer (MountGet ["/README.v1.md"]) (Middleware readmeRedirect);
   mkLayer (MountGet docPaths) (Middleware (markdownPage mdGet));
   v2Route matchV2;
   mkLayer MountAll (ErrorMiddleware errorHandler)].

(** ** Requests over the server's life *)

(** One request: counted by the store, then walked through the stack
    from a fresh [res]. *)
Definition serve `{ReleaseCache} (staticLookup : string -> staticResult)
    (mdGet : string -> option string) (matchV2 : srequest -> option rawRequest)
    (hits : gmap string Z) (req : srequest)
    : gmap string Z * option (resState * (unit + jsError)) :=
  let '(hits', current) := incr (ip req) hits in
  (hits', handle (appStack staticLookup mdGet matchV2 current) req res0).

(** The response state a walk ended with. *)
Definition finalState (r : option (resState * (unit + jsError))) : resState :=
  match r with Some (st, _) => st | None => res0 end.

(** The server's events in order: the store after them, and the final
    response state of each request. *)
Fixpoint serverRun `{ReleaseCache} (staticLookup : string -> staticResult)
    (mdGet : string -> option string) (matchV2 : srequest -> option rawRequest)
    (hits : gmap string Z) (evs : list event) : gmap string Z * list resState :=
  match evs with
  | [] => (hits, [])
  | EvReset :: evs' => serverRun staticLookup mdGet matchV2 ∅ evs'
  | EvRequest req :: evs' =>
      let '(hits', r) := serve staticLookup mdGet matchV2 hits req in
      let '(hits'', sts) := serverRun staticLookup mdGet matchV2 hits' evs' in
      (hits'', finalState r :: sts)
  end.

(** The request the server's own layers answer: a static file, the
    README redirect or a markdown page. *)
Definition ownPath (req : srequest) : bool :=
  handles_get req && existsb (fun r => path_is r (path req)) ("/README.v1.md" :: docPaths).

(** The request gets past the static files: not a [GET] or [HEAD], or no
    file for its path. *)
Definition staticPasses (staticLookup : string -> staticResult) (req : srequest) : bool :=
  negb (handles_get req) || match staticLookup (path req) with StaticMiss => true | _ => false end.

(** The response after the limiter's headers and the CORS header. *)
Definition corsState (current : Z) (req : srequest) : resState :=
  fst (setHeader "Access-Control-Allow-Origin" "*" (fst (rateLimit serverLimiter current req res0))).

(** ** The walk through the server's stack, layer by layer *)

Section Walk.
Context `{C : ReleaseCache} (staticLookup : string -> staticResult)
  (mdGet : string -> option string) (matchV2 : srequest -> option rawRequest).

Section Stages.
Variables (current : Z) (req : srequest).
Abbreviation stack := (appStack staticLookup mdGet matchV2 current).

Lemma stage_limiter (st : resState) :
  handle stack req st =
  if (600 <? current)%Z then Some (fst (rateLimit serverLimiter current req st), inl tt)
  else next 7 stack 1 None req (fst (rateLimit serverLimiter current req st)).
Proof.
  unfold handle. destruct (600 <? current)%Z eqn:E;
    walk_step ltac:(reflexivity) ltac:(rewrite rateLimit_run, E; reflexivity);
    rewrite rateLimit_run, E; reflexivity.
Qed.

Lemma stage_static (st : resState) :
  next 7 stack 1 None req st =
  if handles_get req then
    match staticLookup (path req) with
    | StaticHit => Some (fst ((status 200 ;; send (BFile (layoutsDir ++ path req))) st), inl tt)
    | StaticMiss => next 6 stack 2 None req st
    | StaticError w => next 6 stack 2 (Some (LibError w)) req st
    end
  else next 6 stack 2 None req st.
Proof.
  destruct (handles_get req) eqn:Eg; [destruct (staticLookup (path req)) eqn:Es|];
    walk_step ltac:(reflexivity) ltac:(unfold serveStatic; rewrite Eg, ?Es; reflexivity);
    reflexivity.
Qed.

Lemma stage_cors (st : resState) :
  next 6 stack 2 None req st =
  next 5 stack 3 None req (fst (setHeader "Access-Control-Allow-Origin" "*" st)).
Proof. walk_step ltac:(reflexivity) ltac:(reflexivity). reflexivity. Qed.

Lemma stage_readme (st : resState) :
  next 5 stack 3 None req st =
  if handles_get req && path_is "/README.v1.md" (path req)
  then Some (fst (redirect "./README.v1" st), inl tt)
  else next 4 stack 4 None req st.
Proof.
  destruct (handles_get req && path_is "/README.v1.md" (path req)) eqn:E.
  - walk_step ltac:(cbn [layer_matches l_mount existsb]; rewrite orb_false_r; exact E)
      ltac:(reflexivity). reflexivity.
  - walk_skip ltac:(cbn [layer_matches l_mount existsb]; rewrite orb_false_r, E; reflexivity).
    reflexivity.
Qed.

Lemma stage_markdown (st : resState) :
  next 4 stack 4 None req st =
  if handles_get req && existsb (fun r => path_is r (path req)) docPaths then
    match mdGet (mdResolve (path req)) with
    | Some page => Some (fst (send (BRender (layoutsDir ++ "/layout." ++ viewEngine) page) st), inl tt)
    | None => next 3 stack 5 None req (fst (log (LogError (LibError "markdown-serve")) st))
    end
  else next 3 stack 5 None req st.
Proof.
  destruct (handles_get req && existsb (fun r => path_is r (path req)) docPaths) eqn:E.
  - destruct (mdGet (mdResolve (path req))) eqn:Em;
      walk_step ltac:(exact E) ltac:(unfold markdownPage; rewrite Em; reflexivity); reflexivity.
  - walk_skip ltac:(change (layer_matches _ req) with
      (handles_get req && existsb (fun r => path_is r (path req)) docPaths); rewrite E; reflexivity).
    reflexivity.
Qed.

Lemma stage_routes (st : resState) :
  next 3 stack 5 None req st =
  match matchV2 req with
  | Some r => Some (fst (v2HandlerQ r st), inl tt)
  | None => Some (finalhandler None req st)
  end.
Proof.
  destruct (matchV2 req) as [r|] eqn:E.
  - walk_step ltac:(unfold v2Route, layer_matches; simpl; rewrite E; reflexivity)
      ltac:(cbv beta; rewrite E; reflexivity). reflexivity.
  - walk_skip ltac:(unfold v2Route, layer_matches; simpl; rewrite E; reflexivity).
    walk_skip ltac:(reflexivity). apply next_end. reflexivity.
Qed.

(** With an error pending, every layer up to the error handler is
    skipped. *)
Lemma stage_error (e : jsError) (st : resState) :
  next 6 stack 2 (Some e) req st = Some (fst (errorHandler e req st), inl tt).
Proof.
  do 4 walk_skip ltac:(destruct (layer_matches _ req); reflexivity).
  walk_step ltac:(reflexivity) ltac:(reflexivity). reflexivity.
Qed.
End Stages.

(** ** From the store to the walk *)

Lemma serve_handle (hits : gmap string Z) (req : srequest) :
  snd (serve staticLookup mdGet matchV2 hits req) =
  handle (appStack staticLookup mdGet matchV2 (hitsOf hits (ip req) + 1)) req res0.
Proof. unfold serve. rewrite <- incr_current. destruct (incr (ip req) hits); reflexivity. Qed.

(** The server's store evolves as the limiter's alone. *)
Lemma serverRun_store (hits : gmap string Z) (evs : list event) :
  fst (serverRun staticLookup mdGet matchV2 hits evs) = fst (limiterRun serverLimiter hits evs).
Proof.
  revert hits. induction evs as [|[req|] evs IH]; intros hits; [reflexivity| |rewrite limiterRun_cons; exact (IH ∅)].
  rewrite limiterRun_cons, limiterStep_request. cbn [fst serverRun].
  unfold serve. destruct (incr (ip req) hits) as [h c]. cbn [fst].
  destruct (serverRun staticLookup mdGet matchV2 h evs) as [h2 sts] eqn:Er.
  rewrite <- IH, Er. reflexivity.
Qed.

(** ** The state before the routes *)

Lemma rateLimit_res0_equiv (current : Z) (req : srequest) :
  (current <= 600)%Z -> res_equiv (fst (rateLimit serverLimiter current req res0)) res0.
Proof.
  intros H. rewrite rateLimit_run. replace (600 <? current)%Z with false by lia.
  split; reflexivity.
Qed.

Lemma rateLimit_no_cors (current : Z) (req : srequest) :
  headerOf "Access-Control-Allow-Origin" (fst (rateLimit serverLimiter current req res0)) = None.
Proof. rewrite rateLimit_run. destruct (600 <? current)%Z; reflexivity. Qed.

Lemma corsState_equiv (current : Z) (req : srequest) :
  (current <= 600)%Z -> res_equiv (corsState current req) res0.
Proof.
  intros H. destruct (rateLimit_res0_equiv current req H) as [H1 H2]. split; assumption.
Qed.

Lemma headerOf_keeps (name : string) (st st' : resState) :
  headers st' = headers st -> headerOf name st' = headerOf name st.
Proof. unfold headerOf. intros ->. reflexivity. Qed.

(** A request under the limit that no static file answers reaches the
    README redirect with the CORS header set. *)
Lemma serve_passes (hits : gmap string Z) (req : srequest) :
  (hitsOf hits (ip req) < 600)%Z -> staticPasses staticLookup req = true ->
  snd (serve staticLookup mdGet matchV2 hits req) =
  next 5 (appStack staticLookup mdGet matchV2 (hitsOf hits (ip req) + 1)) 3 None req
    (corsState (hitsOf hits (ip req) + 1) req).
Proof.
  intros Hlt Hs. rewrite serve_handle, stage_limiter.
  replace (600 <? hitsOf hits (ip req) + 1)%Z with false by lia.
  rewrite stage_static. unfold staticPasses in Hs.
  destruct (handles_get req); [destruct (staticLookup (path req))|]; try discriminate; apply stage_cors.
Qed.

(** The layers after the CORS middleware set no header. *)
Lemma routes_keep (current : Z) (req : srequest) (st : resState) :
  headers (finalState (next 5 (appStack staticLookup mdGet matchV2 current) 3 None req st)) =
  headers st.
Proof.
  rewrite stage_readme. destruct (_ && _); [reflexivity|].
  rewrite stage_markdown. destruct (_ && _); [destruct (mdGet _)|]; [reflexivity| |];
    rewrite stage_routes; destruct (matchV2 req); cbn [finalState];
    try rewrite (keeps_headers (m := v2HandlerQ _)); reflexivity.
Qed.

Lemma ownPath_false (req : srequest) :
  ownPath req = false ->
  handles_get req && path_is "/README.v1.md" (path req) = false /\
  handles_get req && existsb (fun r => path_is r (path req)) docPaths = false.
Proof.
  unfold ownPath. destruct (handles_get req); [|split; reflexivity]. simpl.
  intros H. apply orb_false_iff in H as [-> H]. split; [reflexivity|exact H].
Qed.

Lemma log_equiv (l : logLine) (st st' : resState) :
  res_equiv st st' -> res_equiv (fst (log l st)) st'.
Proof. intros [H1 H2]. split; assumption. Qed.

(** ** What the server answers *)

(** C25: the CORS header: a response carries
    [Access-Control-Allow-Origin: *] exactly when its request was under
    the limit and got past the static files.  The limiter's 429, a static
    file and an error of the static files go out without it. *)
Theorem server_cors (hits : gmap string Z) (req : srequest) :
  headerOf "Access-Control-Allow-Origin" (finalState (snd (serve staticLookup mdGet matchV2 hits req))) =
  if (hitsOf hits (ip req) <? 600)%Z && staticPasses staticLookup req then Some "*" else None.
Proof.
  destruct (hitsOf hits (ip req) <? 600)%Z eqn:El; cbn [andb].
  - apply Z.ltb_lt in El. destruct (staticPasses staticLookup req) eqn:Es.
    + rewrite serve_passes by assumption. rewrite (headerOf_keeps _ _ _ (routes_keep _ _ _)).
      reflexivity.
    + rewrite serve_handle, stage_limiter. replace (600 <? _)%Z with false by lia.
      rewrite stage_static. unfold staticPasses in Es.
      destruct (handles_get req); [|discriminate].
      destruct (staticLookup (path req)); [| discriminate | rewrite stage_error];
        cbn [finalState]; rewrite <- (rateLimit_no_cors (hitsOf hits (ip req) + 1) req);
        apply headerOf_keeps; reflexivity.
  - rewrite serve_handle, stage_limiter. replace (600 <? _)%Z with true by lia.
    apply rateLimit_no_cors.
Qed.

(** C26: the limiter in front of the server: once a client has sent 600
    requests since the last reset of the store, its next request is
    answered 429 with the limiter's message, [X-RateLimit-Remaining: 0],
    and no CORS header, whatever it asks for. *)
Theorem server_rate_limited (evs : list event) (req : srequest) :
  (600 <= sinceReset (ip req) 0 evs)%Z ->
  let st := finalState (snd (serve staticLookup mdGet matchV2
                               (fst (serverRun staticLookup mdGet matchV2 ∅ evs)) req)) in
  sentResponse st = Some (SentBody 429 (BText (message serverLimiter))) /\
  headerOf "X-RateLimit-Remaining" st = Some "0" /\
  headerOf "Access-Control-Allow-Origin" st = None.
Proof.
  intros H st. subst st.
  rewrite serve_handle, serverRun_store, limiterRun_store, hitsOf_empty, stage_limiter.
  replace (600 <? _)%Z with true by lia. cbn [finalState]. rewrite rateLimit_run.
  replace (600 <? _)%Z with true by lia. unfold remaining. cbn [max serverLimiter].
  replace (Z.max _ 0) with 0%Z by lia. repeat split.
Qed.

(** C24: composition of the server with the v2 handler: a request under
    the limit, past the static files, on none of the server's own paths,
    that the routes module sends to the v2 handler gets the handler's
    answer, the same as on a fresh response: the limiter's and the CORS
    headers change nothing in it. *)
Theorem server_v2_answer (hits : gmap string Z) (req : srequest) (r : rawRequest) :
  (hitsOf hits (ip req) < 600)%Z -> staticPasses staticLookup req = true ->
  ownPath req = false -> matchV2 req = Some r ->
  sentResponse (finalState (snd (serve staticLookup mdGet matchV2 hits req))) =
  sentOf (v2HandlerQ r res0).
Proof.
  intros Hl Hs Ho Hm. apply ownPath_false in Ho as [Ho1 Ho2].
  rewrite serve_passes by assumption.
  rewrite stage_readme, Ho1, stage_markdown, Ho2, stage_routes, Hm.
  apply run_equiv_sent; [typeclasses eauto|apply corsState_equiv; lia].
Qed.

(** C22: composition of the server, the query parser and the handler:
    a request under the limit that reaches the v2 route with a repeated
    property parameter ([?os=linux&os=windows]) ends the router's walk at
    the route, which drops the handler's rejection: the walk returns
    normally, the [TypeError] is logged, and nothing is ever sent. *)
Theorem server_repeated_param_silent (hits : gmap string Z) (req : srequest)
    (rt bt v : string) (rq : rawQuery) (data : list ghRelease) :
  (hitsOf hits (ip req) < 600)%Z -> staticPasses staticLookup req = true ->
  ownPath req = false -> matchV2 req = Some (mkRawRequest (Some rt) (Some bt) (Some v) rq) ->
  getInfoForVersion v bt = Resolved data -> hasArrayProperty rq = true ->
  exists st what,
    snd (serve staticLookup mdGet matchV2 hits req) = Some (st, inl tt) /\
    sentResponse st = None /\ logged st = [LogError (TypeError what)].
Proof.
  intros Hl Hs Ho Hm Hc Ha. apply ownPath_false in Ho as [Ho1 Ho2].
  rewrite serve_passes by assumption.
  rewrite stage_readme, Ho1, stage_markdown, Ho2, stage_routes, Hm.
  destruct (handlerQ_array_run rt bt v rq data (corsState (hitsOf hits (ip req) + 1) req) Hc Ha)
    as [w Hrun].
  rewrite Hrun. eexists _, w. split; [reflexivity|]. cbn [sentResponse logged].
  split; [apply (corsState_equiv (hitsOf hits (ip req) + 1) req); lia|].
  unfold corsState. rewrite rateLimit_run.
  replace (600 <? hitsOf hits (ip req) + 1)%Z with false by lia. reflexivity.
Qed.

(** C31: [GET /README.v1.md] under the limit, with no static file of that
    name, is redirected to [./README.v1]. *)
Theorem server_readme_redirect (hits : gmap string Z) (req : srequest) :
  (hitsOf hits (ip req) < 600)%Z -> staticPasses staticLookup req = true ->
  handles_get req = true -> path_is "/README.v1.md" (path req) = true ->
  sentResponse (finalState (snd (serve staticLookup mdGet matchV2 hits req))) =
  Some (SentRedirect "./README.v1").
Proof.
  intros Hl Hs Hg Hp. rewrite serve_passes by assumption. rewrite stage_readme, Hg, Hp.
  reflexivity.
Qed.

(** C30: the markdown pages [/], [/README] and [/README.v1]: the page
    markdown-serve finds is rendered in the layout with status 200; when
    it finds none the request goes on to the routes, and, when no route
    takes it, Express answers 404 [Cannot GET <path>]. *)
Theorem server_markdown (hits : gmap string Z) (req : srequest) :
  (hitsOf hits (ip req) < 600)%Z -> staticPasses staticLookup req = true ->
  handles_get req = true -> path_is "/README.v1.md" (path req) = false ->
  existsb (fun r => path_is r (path req)) docPaths = true ->
  sentResponse (finalState (snd (serve staticLookup mdGet matchV2 hits req))) =
  match mdGet (mdResolve (path req)) with
  | Some page => Some (SentBody 200 (BRender (layoutsDir ++ "/layout." ++ viewEngine) page))
  | None =>
      match matchV2 req with
      | Some r => sentOf (v2HandlerQ r res0)
      | None => Some (SentBody 404 (BText ("Cannot " ++ method req ++ " " ++ path req)))
      end
  end.
Proof.
  intros Hl Hs Hg Hp Hd. rewrite serve_passes by assumption.
  assert (He : res_equiv (corsState (hitsOf hits (ip req) + 1) req) res0)
    by (apply corsState_equiv; lia).
  rewrite stage_readme, Hg, Hp, stage_markdown, Hg, Hd. cbn [andb].
  destruct (mdGet (mdResolve (path req))) as [page|].
  - destruct He as [Hst _]. cbn [finalState fst send sentResponse]. rewrite Hst. reflexivity.
  - rewrite stage_routes. destruct (matchV2 req) as [r|].
    + apply run_equiv_sent; [typeclasses eauto|apply log_equiv, He].
    + reflexivity.
Qed.

(** C29: the static files: under the limit, a [GET] for a file of
    [markdown-layouts] is sent with status 200, and an error of
    serve-static skips every other layer to the error handler, which
    answers 500 with the error page. *)
Theorem server_static (hits : gmap string Z) (req : srequest) :
  (hitsOf hits (ip req) < 600)%Z -> handles_get req = true ->
  staticLookup (path req) <> StaticMiss ->
  sentResponse (finalState (snd (serve staticLookup mdGet matchV2 hits req))) =
  match staticLookup (path req) with
  | StaticError _ => Some (SentBody 500 (BText errorPage))
  | _ => Some (SentBody 200 (BFile (layoutsDir ++ path req)))
  end.
Proof.
  intros Hl Hg Hs. rewrite serve_handle, stage_limiter.
  replace (600 <? _)%Z with false by lia. rewrite stage_static, Hg.
  destruct (staticLookup (path req)); [reflexivity | congruence | rewrite stage_error; reflexivity].
Qed.

End Walk.
