(* ===== verification/Examples.v ===== *)
(** * Concrete requests and assets

    The fixtures below are GitHub data as the cache returns it and requests
    as Express hands them to the handler.  The lemmas evaluate the
    development's definitions on them: the end-to-end example of the
    specification, the same example with a file name the code parses, and
    one instance of each theorem whose statement has hypotheses. *)

From Stdlib Require Import String Ascii List Bool Arith NArith ZArith Sorted Permutation Lia.
From S2P Require Import Prelude JsString Regex FileInfo Underscore Normalize Filter Express Respond Query.
Import ListNotations.
Local Open Scope string_scope.
Local Open Scope jdk_scope.

(** ** Fixtures *)

(** A cache that settles every request to [u]. *)
Definition fixtureCache (u : upstream) : ReleaseCache := {| getInfoForVersion _ _ := u |}.

(** The asset of the specification's end-to-end example. *)
Definition specAsset : ghAsset :=
  {| name := "OpenJDKU_x64_linux_hotspot_2020-01-01-00-00.tar.gz";
     browser_download_url := "https://example.com/u1.tar.gz"; size := 100 |}.

Definition specRelease : ghRelease :=
  {| tag_name := "jdk8u-2020-01-01"; published_at := "2020-01-01T00:00:00Z";
     assets := [specAsset] |}.

(** The same asset named with its version, and its checksum file. *)
Definition fixedName : string := "OpenJDK8U_x64_linux_hotspot_2020-01-01-00-00.tar.gz".

Definition fixedAsset : ghAsset :=
  {| name := fixedName; browser_download_url := "https://example.com/u1.tar.gz"; size := 100 |}.

Definition fixedChecksum : ghAsset :=
  {| name := fixedName ++ ".sha256.txt";
     browser_download_url := "https://example.com/u1.tar.gz.sha256.txt"; size := 1 |}.

Definition fixedRelease : ghRelease :=
  {| tag_name := "jdk8u-2020-01-01"; published_at := "2020-01-01T00:00:00Z";
     assets := [fixedAsset; fixedChecksum] |}.

(** What [githubDataToAdoptApi] makes of [fixedRelease]. *)
Definition fixedBinary : binary :=
  {| os := "linux"; architecture := "x64"; binaryType := "jdk"; openjdk_impl := "hotspot";
     binary_name := fixedName; binary_link := "https://example.com/u1.tar.gz";
     binary_size := 100; checksum_link := "https://example.com/u1.tar.gz.sha256.txt";
     version := "8" |}.

Definition fixedAdopt : release :=
  {| release_name := "jdk8u-2020-01-01"; timestamp := "2020-01-01T00:00:00Z";
     binaries := [fixedBinary] |}.

Definition linuxQuery : query :=
  {| openjdkImpl := None; q_os := Some "linux"; arch := Some "x64"; q_release := None;
     q_type := None |}.

Definition request_of (rt : string) (q : query) : request :=
  mkRequest (Some rt) (Some "releases") (Some "openjdk8") q.

(** Three releases of one binary each, published in this order. *)
Definition dated (n t : string) : release :=
  {| release_name := n; timestamp := t; binaries := [fixedBinary] |}.

Definition threeReleases : list release :=
  [dated "a" "2019-01-01T00:00:00Z"; dated "c" "2020-01-01T00:00:00Z";
   dated "b" "2019-06-01T00:00:00Z"].

(** [?os=linux&arch=x64] as Express parses it, and [?os=linux&os=windows]. *)
Definition linuxRawQuery : rawQuery :=
  mkRawQuery None (Some (QString "linux")) (Some (QString "x64")) None None.

Definition repeatedOs : rawQuery :=
  mkRawQuery None (Some (QArray ["linux"; "windows"])) None None None.

(** The example of the specification with [type=info] given as a query
    parameter. *)
Definition typeInfoQuery : query :=
  {| openjdkImpl := None; q_os := Some "linux"; arch := Some "x64"; q_release := None;
     q_type := Some "info" |}.

(** ** The end-to-end example of the specification *)

(** The file name of the example has no version digits after [OpenJDK];
    none of the three patterns matches it, so the release has no binary
    and the [info] request is answered with 404. *)
Example spec_example_not_found :
  sentOf (@v2Handler (fixtureCache (Resolved [specRelease])) (request_of "info" linuxQuery) res0) =
  Some (SentBody 404 (BText "Not found")).
Proof. vm_compute. reflexivity. Qed.

(** With the version in the name, the example gives the answer the
    specification describes: one release with one Linux x64 HotSpot JDK. *)
Example fixed_example_ok :
  sentOf (@v2Handler (fixtureCache (Resolved [fixedRelease])) (request_of "info" linuxQuery) res0) =
  Some (SentBody 200 (BJson (PReleases [fixedAdopt]))).
Proof. vm_compute. reflexivity. Qed.

(** ** Instances of the theorems *)

(** A signature file beside a binary: the unanchored pattern still reads
    the binary's fields. *)
Lemma newStyle_roundtrip_witness :
  getNewStyleFileInfo
    (newStyleName "8" true true "x64" "Linux" "hotspot" "" "2018-06-25-10-55" "tar.gz" ++ ".sig") =
  Some {| FileInfo.version := "8"; FileInfo.binaryType := "jre"; FileInfo.arch := "x64";
          FileInfo.os := "Linux"; FileInfo.openjdk_impl := "hotspot";
          tstamp := "2018-06-25-10-55"; extension := "tar.gz" |}.
Proof.
  apply newStyle_roundtrip; try reflexivity; try discriminate. left. reflexivity.
Defined.

Lemma oldStyle_roundtrip_witness :
  getOldStyleFileInfo
    (oldStyleName "8" false (Some "openj9") "x64" "Linux" "" "201806251055" "zip" ++ "") =
  Some {| FileInfo.version := "8"; FileInfo.binaryType := "jdk"; FileInfo.arch := "x64";
          FileInfo.os := "Linux"; FileInfo.openjdk_impl := "openj9";
          tstamp := "201806251055"; extension := "zip" |}.
Proof.
  apply oldStyle_roundtrip; try reflexivity; try discriminate; [right; reflexivity|].
  intros w [= <-]. split; [discriminate|reflexivity].
Defined.

Lemma amberStyle_roundtrip_witness :
  getAmberStyleFileInfo (amberStyleName "x64" "Linux" "201806251055" "tar.gz" ++ "")
    ("jdk-" ++ "11" ++ "+28") =
  Some {| FileInfo.version := "11"; FileInfo.binaryType := "jdk"; FileInfo.arch := "x64";
          FileInfo.os := "Linux"; FileInfo.openjdk_impl := "hotspot";
          tstamp := "201806251055"; extension := "tar.gz" |}.
Proof.
  apply amberStyle_roundtrip; try reflexivity; try discriminate. left. reflexivity.
Defined.

Lemma parseFileInfo_wellFormed_witness :
  wellFormedInfo {| FileInfo.version := "8"; FileInfo.binaryType := "jdk"; FileInfo.arch := "x64";
                    FileInfo.os := "linux"; FileInfo.openjdk_impl := "hotspot";
                    tstamp := "2020-01-01-00-00"; extension := "tar.gz" |}.
Proof. apply (parseFileInfo_wellFormed fixedName "jdk8u"). vm_compute. reflexivity. Defined.

(** A legacy name has no dash: the current-convention parser never sees
    it, and the legacy parser reads it. *)
Lemma parseFileInfo_few_dashes_witness :
  parseFileInfo "OpenJDK8U_x64_linux_hotspot_201801010000.tar.gz" "jdk8u152-b16" =
  match getOldStyleFileInfo "OpenJDK8U_x64_linux_hotspot_201801010000.tar.gz" with
  | Some fi => Some fi
  | None => getAmberStyleFileInfo "OpenJDK8U_x64_linux_hotspot_201801010000.tar.gz" "jdk8u152-b16"
  end.
Proof. apply parseFileInfo_few_dashes. vm_compute. lia. Defined.

Lemma githubDataToAdoptApi_no_checksum_witness :
  endsWith (binary_name fixedBinary) "sha256.txt" = false.
Proof.
  apply (githubDataToAdoptApi_no_checksum [fixedRelease] fixedAdopt);
    vm_compute; left; reflexivity.
Defined.

Lemma binary_normalised_witness :
  exists asset, In asset (assets fixedRelease) /\
    binary_name fixedBinary = name asset /\ binary_link fixedBinary = browser_download_url asset /\
    binary_size fixedBinary = size asset /\
    checksum_link fixedBinary = binary_link fixedBinary ++ ".sha256.txt" /\
    toLowerCase (os fixedBinary) = os fixedBinary /\ os fixedBinary <> "" /\
    toLowerCase (architecture fixedBinary) = architecture fixedBinary /\
    architecture fixedBinary <> "" /\
    toLowerCase (openjdk_impl fixedBinary) = openjdk_impl fixedBinary /\
    openjdk_impl fixedBinary <> "" /\
    (binaryType fixedBinary = "jre" \/ binaryType fixedBinary = "jdk") /\
    version fixedBinary <> "".
Proof. apply binary_normalised. vm_compute. left. reflexivity. Defined.

Lemma fixed_ok : Forall release_ok threeReleases.
Proof. repeat constructor; discriminate. Qed.

Lemma propertyFilters_refines_witness :
  propertyFilters threeReleases linuxQuery = filterReleaseBinaries threeReleases (matchesQuery linuxQuery).
Proof. apply propertyFilters_refines, fixed_ok. Defined.

(** The release published last is selected, in the middle of the list. *)
Lemma filterRelease_latest_witness :
  latest_ref timestamp threeReleases = Some (dated "c" "2020-01-01T00:00:00Z") /\
  exists l1 l2, threeReleases = (l1 ++ dated "c" "2020-01-01T00:00:00Z" :: l2)%list /\
    Forall (fun y => (timestamp (dated "c" "2020-01-01T00:00:00Z") <js timestamp y) = false) l1 /\
    Forall (fun y => (timestamp y <js timestamp (dated "c" "2020-01-01T00:00:00Z")) = true) l2.
Proof. apply filterRelease_latest. vm_compute. reflexivity. Defined.

(** A [binary] request that leaves one release with one binary is
    redirected to the binary's link. *)
Lemma handler_binary_witness :
  sentOf (@v2Handler (fixtureCache (Resolved [fixedRelease])) (request_of "binary" linuxQuery) res0) =
  Some (sentOfResolution (resolveBinary [fixedAdopt])).
Proof.
  apply (@handler_binary (fixtureCache (Resolved [fixedRelease])) "releases" "openjdk8" linuxQuery
           [fixedRelease]); vm_compute; reflexivity.
Defined.

Lemma handler_info_witness :
  sentOf (@v2Handler (fixtureCache (Resolved [fixedRelease])) (request_of "info" linuxQuery) res0) =
  match applyFilters (githubDataToAdoptApi [fixedRelease]) linuxQuery with
  | FList [] => Some (SentBody 404 (BText "Not found"))
  | FList l => Some (SentBody 200 (BJson (PReleases l)))
  | FOne r => Some (SentBody 200 (BJson (PRelease r)))
  | FUndefined => None
  end.
Proof. apply handler_info. reflexivity. Defined.

(** The specification's example with [type=info] as a query parameter:
    [info] is no binary kind, so the answer is 404 even with a parseable
    file name. *)
Lemma handler_type_not_kind_witness :
  sentOf (@v2Handler (fixtureCache (Resolved [fixedRelease])) (request_of "info" typeInfoQuery) res0) =
  Some (SentBody 404 (BText "Not found")).
Proof.
  apply (@handler_type_not_kind (fixtureCache (Resolved [fixedRelease])) "releases" "openjdk8"
           typeInfoQuery [fixedRelease] "info"); vm_compute; try reflexivity; discriminate.
Defined.

Lemma handler_missing_param_witness :
  sentOf (@v2Handler (fixtureCache (Resolved [fixedRelease]))
            (mkRequest (Some "info") (Some "releases") None linuxQuery) res0) =
  Some (SentBody 404 (BText "Not found")).
Proof. apply handler_missing_param. right. right. reflexivity. Defined.

(** ** Query values as Express parses them *)

(** [?os=linux&os=windows] gets no answer. *)
Lemma handlerQ_array_silent_witness :
  sentOf (@v2HandlerQ (fixtureCache (Resolved [fixedRelease]))
            (mkRawRequest (Some "info") (Some "releases") (Some "openjdk8") repeatedOs) res0) =
  sentResponse res0 /\
  threw (@v2HandlerQ (fixtureCache (Resolved [fixedRelease]))
           (mkRawRequest (Some "info") (Some "releases") (Some "openjdk8") repeatedOs) res0) = true.
Proof.
  apply (@handlerQ_array_silent (fixtureCache (Resolved [fixedRelease])) "info" "releases" "openjdk8"
           repeatedOs [fixedRelease] res0); reflexivity.
Defined.

