(* ===== verification/ServerExamples.v ===== *)
(** * Concrete requests to the server, and a heap of releases

    A server with one static file, one file serve-static cannot read, the
    markdown page [/README], and the v2 route mounted on
    [/v2/info/releases/openjdk8], over a cache that returns the release of
    [Examples].  The lemmas apply the theorems of [RateLimit] and [Server]
    to it.  A heap holding one release object that an array refers to
    twice gives an instance of the in-place filters of [FilterHeap]. *)

From stdpp Require Import gmap strings.
From Stdlib Require Import String ZArith List Lia DecimalString.
From S2P Require Import Prelude JsString Normalize Filter FilterHeap Express ExpressApp RateLimit Respond Query Server Examples.
Import ListNotations.
Local Open Scope string_scope.
Local Open Scope jdk_scope.

(** ** Fixtures *)

Definition demoStatic (p : string) : staticResult :=
  if String.eqb p "/favicon.ico" then StaticHit
  else if String.eqb p "/private.md" then StaticError "EACCES: permission denied"
  else StaticMiss.

Definition demoPages (p : string) : option string :=
  if String.eqb p "/README" then Some "# AdoptOpenJDK API" else None.

Definition v2Path : string := "/v2/info/releases/openjdk8".

Definition demoRoutes (req : srequest) : option rawRequest :=
  if handles_get req && path_is v2Path (path req)
  then Some (mkRawRequest (Some "info") (Some "releases") (Some "openjdk8") linuxRawQuery)
  else None.

(** The v2 route when the client repeats [os]. *)
Definition repeatedRoutes (req : srequest) : option rawRequest :=
  if handles_get req && path_is v2Path (path req)
  then Some (mkRawRequest (Some "info") (Some "releases") (Some "openjdk8") repeatedOs)
  else None.

Definition demoCache : ReleaseCache := fixtureCache (Resolved [fixedRelease]).

Definition client (m p : string) : srequest := mkSReq m p "10.0.0.1".

(** Six hundred requests of one client in one window. *)
Definition burst : list event := repeat (EvRequest (client "GET" v2Path)) 600.

(** One release object, referred to twice by the array. *)
Definition aliasedHeap : gmap nat release := {[0 := fixedAdopt]}.

(** ** The in-place filters *)

Lemma propertyFiltersH_refines_witness :
  readArr (fst (propertyFiltersH aliasedHeap [0; 0] linuxQuery))
          (snd (propertyFiltersH aliasedHeap [0; 0] linuxQuery)) =
  Some (propertyFilters [fixedAdopt; fixedAdopt] linuxQuery).
Proof. apply propertyFiltersH_refines. reflexivity. Defined.

(** ** The limiter *)

(** A client's 601st request in the window does not pass: 600 of its
    requests do. *)
Lemma limiter_window_bound_witness :
  passesOf "10.0.0.1" (snd (limiterRun serverLimiter ∅ (burst ++ [EvRequest (client "GET" "/")]))) =
  Z.min (requestsOf "10.0.0.1" (burst ++ [EvRequest (client "GET" "/")])) 600.
Proof. apply limiter_window_bound. repeat constructor. Defined.

(** After the burst and a reset, the client is served again. *)
Lemma limiter_reset_serves_witness :
  snd (limiterStep serverLimiter
         (fst (limiterRun serverLimiter ∅ (burst ++ EvReset :: [EvRequest (client "GET" "/")])))
         (EvRequest (client "GET" v2Path))) = Some ("10.0.0.1", Pass).
Proof. apply (limiter_reset_serves burst). - repeat constructor. - vm_compute. reflexivity. Defined.

(** ** The server *)

(** The 601st request of the window gets 429. *)
Lemma server_rate_limited_witness :
  let st := finalState (snd (@serve demoCache demoStatic demoPages demoRoutes
              (fst (@serverRun demoCache demoStatic demoPages demoRoutes ∅ burst))
              (client "GET" v2Path))) in
  sentResponse st = Some (SentBody 429 (BText (message serverLimiter))) /\
  headerOf "X-RateLimit-Remaining" st = Some "0" /\
  headerOf "Access-Control-Allow-Origin" st = None.
Proof. apply server_rate_limited. vm_compute. discriminate. Defined.

(** The first request of the client on the v2 route gets the handler's
    answer. *)
Lemma server_v2_answer_witness :
  sentResponse (finalState (snd (@serve demoCache demoStatic demoPages demoRoutes ∅
                                   (client "GET" v2Path)))) =
  sentOf (@v2HandlerQ demoCache (mkRawRequest (Some "info") (Some "releases") (Some "openjdk8") linuxRawQuery) res0).
Proof.
  apply server_v2_answer; [rewrite hitsOf_empty; lia | vm_compute; reflexivity ..].
Defined.

Lemma server_readme_redirect_witness :
  sentResponse (finalState (snd (@serve demoCache demoStatic demoPages demoRoutes ∅
                                   (client "HEAD" "/readme.V1.md/")))) =
  Some (SentRedirect "./README.v1").
Proof.
  apply server_readme_redirect; [rewrite hitsOf_empty; lia | vm_compute; reflexivity ..].
Defined.

Lemma server_markdown_witness :
  sentResponse (finalState (snd (@serve demoCache demoStatic demoPages demoRoutes ∅
                                   (client "GET" "/README")))) =
  Some (SentBody 200 (BRender (layoutsDir ++ "/layout." ++ viewEngine) "# AdoptOpenJDK API")).
Proof.
  apply (server_markdown (C := demoCache) demoStatic demoPages demoRoutes ∅ (client "GET" "/README"));
    [rewrite hitsOf_empty; lia | vm_compute; reflexivity ..].
Defined.

Lemma server_static_witness :
  sentResponse (finalState (snd (@serve demoCache demoStatic demoPages demoRoutes ∅
                                   (client "GET" "/private.md")))) =
  Some (SentBody 500 (BText errorPage)).
Proof.
  apply (server_static (C := demoCache) demoStatic demoPages demoRoutes ∅ (client "GET" "/private.md"));
    [rewrite hitsOf_empty; lia | reflexivity | vm_compute; discriminate].
Defined.

(** [GET /v2/info/releases/openjdk8?os=linux&os=windows] gets no answer. *)
Lemma server_repeated_param_silent_witness :
  exists st what,
    snd (@serve demoCache demoStatic demoPages repeatedRoutes ∅ (client "GET" v2Path)) =
      Some (st, inl tt) /\
    sentResponse st = None /\ logged st = [LogError (TypeError what)].
Proof.
  apply (server_repeated_param_silent (C := demoCache) demoStatic demoPages repeatedRoutes ∅
           (client "GET" v2Path) "info" "releases" "openjdk8" repeatedOs [fixedRelease]);
    [rewrite hitsOf_empty; lia | vm_compute; reflexivity ..].
Defined.

